(** * Phishing URL detector: feature extraction, heuristic scorer, decision layer

    A shallow embedding of the scoring core of the detector:

    - [backend/app/predictor.py]: [PhishingPredictor.predict],
      [_apply_heuristics], [_get_risk_level];
    - [backend/app/main.py]: the decision and error branches of
      [EnhancedPredictor.predict];
    - [backend/app/advanced_feature_extractor.py]: the 20-feature
      extractor and its character statistics;
    - [ml_engine/advanced_feature_extractor.py]: [_estimate_domain_age].

    Conventions of the embedding.

    - A Python [str] is a [string]; URLs are ASCII text, so the character
      classes ([isdigit], [isalpha], [lower], the regular expression class
      [\d]) are the ASCII ones.
    - A Python [float] of the decision layer is a rational ([Q]), decimal
      literals being read exactly; a [float] of the extractor, where
      [math.log2] occurs, is a real ([R]).  Rounding error of the binary
      representation is outside the model.
    - A call that can raise returns a [Py.result]; [try]/[except] is
      [Py.try_except].
    - [urllib.parse.urlparse], [tldextract.extract] and the trained model
      are external collaborators: they are Section variables. *)

From Stdlib Require Import List String Ascii Bool Arith Lia ZArith Permutation.
From Stdlib Require Import QArith Qround Reals Lqa Lra.
Import ListNotations.

(** ** Python values, exceptions and strings *)

Module Py.

Local Open Scope string_scope.

(** Outcome of a call: a value, or an exception with its message. *)
Inductive result (A : Type) : Type :=
| Ok (a : A)
| Raise (msg : string).

Arguments Ok {A} a.
Arguments Raise {A} msg.

Definition bind {A B : Type} (r : result A) (k : A -> result B) : result B :=
  match r with
  | Ok a => k a
  | Raise msg => Raise msg
  end.

Notation "x <- c1 ;; c2" := (bind c1 (fun x => c2))
  (at level 61, c1 at next level, right associativity).

(** [try: body except Exception as e: handler e] *)
Definition try_except {A : Type} (body : result A) (handler : string -> result A)
  : result A :=
  match body with
  | Ok a => Ok a
  | Raise msg => handler msg
  end.

(** The values that occur as arguments and as dictionary entries. *)
Inductive value : Type :=
| VNone
| VBool (b : bool)
| VInt (z : Z)
| VFloat (q : Q)
| VStr (s : string).

(** Python truthiness ([not url] is [negb (truthy url)]). *)
Definition truthy (v : value) : bool :=
  match v with
  | VNone => false
  | VBool b => b
  | VInt z => negb (Z.eqb z 0)
  | VFloat q => negb (Qeq_bool q 0)
  | VStr s => negb (String.eqb s "")
  end.

(** [isinstance(v, str)] *)
Definition isinstance_str (v : value) : bool :=
  match v with
  | VStr _ => true
  | _ => false
  end.

(** A dictionary literal, in the order its keys are written. *)
Definition dict : Type := list (string * value).

Definition keys (d : dict) : list string := map fst d.

Fixpoint get (d : dict) (k : string) : option value :=
  match d with
  | [] => None
  | (k', v) :: rest => if String.eqb k' k then Some v else get rest k
  end.

(** *** Characters *)

Definition code (c : ascii) : nat := nat_of_ascii c.

Definition isdigit (c : ascii) : bool := ((48 <=? code c) && (code c <=? 57))%nat.
Definition isupper (c : ascii) : bool := ((65 <=? code c) && (code c <=? 90))%nat.
Definition islower (c : ascii) : bool := ((97 <=? code c) && (code c <=? 122))%nat.
Definition isalpha (c : ascii) : bool := isupper c || islower c.
Definition isalnum (c : ascii) : bool := isalpha c || isdigit c.

Definition lower_char (c : ascii) : ascii :=
  if isupper c then ascii_of_nat (code c + 32)%nat else c.

(** *** Strings *)

(** [s.lower()] *)
Fixpoint lower (s : string) : string :=
  match s with
  | EmptyString => EmptyString
  | String c s' => String (lower_char c) (lower s')
  end.

(** [s.startswith(p)] *)
Definition startswith (s p : string) : bool := String.prefix p s.

(** [k in s] for strings: [k] occurs as a substring of [s]. *)
Fixpoint contains (k s : string) : bool :=
  match s with
  | EmptyString => String.prefix k EmptyString
  | String _ s' => String.prefix k s || contains k s'
  end.

(** [s.endswith(suf)] *)
Fixpoint endswith (s suf : string) : bool :=
  match s with
  | EmptyString => String.eqb EmptyString suf
  | String _ s' => String.eqb s suf || endswith s' suf
  end.

(** [s.count(c)] for a one-character pattern. *)
Fixpoint count_char (c : ascii) (s : string) : nat :=
  match s with
  | EmptyString => 0%nat
  | String c' s' => ((if Ascii.eqb c' c then 1 else 0) + count_char c s')%nat
  end.

(** [sum(1 for c in s if p(c))] *)
Fixpoint count_if (p : ascii -> bool) (s : string) : nat :=
  match s with
  | EmptyString => 0%nat
  | String c s' => ((if p c then 1 else 0) + count_if p s')%nat
  end.

(** [any(p(c) for c in s)] *)
Fixpoint any_char (p : ascii -> bool) (s : string) : bool :=
  match s with
  | EmptyString => false
  | String c s' => p c || any_char p s'
  end.

(** [''.join(c for c in s if p(c))] *)
Fixpoint filter_chars (p : ascii -> bool) (s : string) : string :=
  match s with
  | EmptyString => EmptyString
  | String c s' => if p c then String c (filter_chars p s') else filter_chars p s'
  end.

(** [any(p(x) for x in l)] and [sum(1 for x in l if p(x))] *)
Definition any {A : Type} (p : A -> bool) (l : list A) : bool := existsb p l.
Definition count_where {A : Type} (p : A -> bool) (l : list A) : nat :=
  List.length (filter p l).

(** *** The regular expression [\d{1,3}\.\d{1,3}\.\d{1,3}\.\d{1,3}] *)

(** One to three digits followed by whatever [k] accepts.  [re] backtracks
    over the three lengths, so a match exists when one of them continues. *)
Definition digits_1_3 (k : string -> bool) (s : string) : bool :=
  match s with
  | String a s1 =>
      isdigit a &&
      (k s1 ||
       match s1 with
       | String b s2 =>
           isdigit b &&
           (k s2 ||
            match s2 with
            | String c s3 => isdigit c && k s3
            | EmptyString => false
            end)
       | EmptyString => false
       end)
  | EmptyString => false
  end.

Definition dot_then (k : string -> bool) (s : string) : bool :=
  match s with
  | String c s' => Ascii.eqb c "."%char && k s'
  | EmptyString => false
  end.

(** The pattern matched at the head of [s]. *)
Definition dotted_quad_here (s : string) : bool :=
  digits_1_3 (dot_then (digits_1_3 (dot_then (digits_1_3 (dot_then
    (digits_1_3 (fun _ => true))))))) s.

(** [bool(re.search(pattern, s))]: the pattern matches at some position. *)
Fixpoint search_dotted_quad (s : string) : bool :=
  match s with
  | EmptyString => false
  | String _ s' => dotted_quad_here s || search_dotted_quad s'
  end.

(** *** [urllib.parse.urlparse] *)

(** The six components of the named tuple [urlparse] returns. *)
Record ParseResult : Type := {
  scheme : string;
  netloc : string;
  path : string;
  params : string;
  query : string;
  fragment : string
}.

End Py.

(** ** [backend/app/predictor.py] *)

Module Predictor.

Import Py.
Local Open Scope string_scope.
Local Open Scope Q_scope.

Definition phishing_keywords : list string :=
  ["verify"; "account"; "update"; "secure"; "login"; "signin";
   "banking"; "confirm"; "suspended"; "locked"; "unusual";
   "activity"; "alert"; "security"; "notification"].

Definition suspicious_tlds : list string :=
  [".tk"; ".ml"; ".ga"; ".cf"; ".gq"; ".xyz"; ".top"].

Definition legitimate_domains : list string :=
  ["google.com"; "facebook.com"; "amazon.com"; "paypal.com";
   "microsoft.com"; "apple.com"; "netflix.com"; "instagram.com";
   "twitter.com"; "linkedin.com"; "github.com"; "bankofamerica.com";
   "chase.com"; "wellsfargo.com"; "citibank.com"].

Definition login_keywords : list string :=
  ["login"; "signin"; "account"; "secure"].

(** [min(a, b)] on floats: [b] when [b < a], else [a]. *)
Definition py_min (a b : Q) : Q := if Qlt_le_dec b a then b else a.

(** [a > b] and [a < b] on floats. *)
Definition gt (a b : Q) : bool := if Qlt_le_dec b a then true else false.
Definition lt (a b : Q) : bool := if Qlt_le_dec a b then true else false.

(** The keyword tiers: [if >= 3 ... elif >= 2 ... elif >= 1 ...]. *)
Definition add_keyword_tier (keyword_count : nat) (score : Q) : Q :=
  if (3 <=? keyword_count)%nat then score + 0.4
  else if (2 <=? keyword_count)%nat then score + 0.25
  else if (1 <=? keyword_count)%nat then score + 0.1
  else score.

(** The hyphen tiers on [domain.count('-')]. *)
Definition add_hyphen_tier (hyphens : nat) (score : Q) : Q :=
  if (3 <=? hyphens)%nat then score + 0.3
  else if (2 <=? hyphens)%nat then score + 0.2
  else score.

(** The condition of the impersonation loop's [if]. *)
Definition impersonates (url_lower domain legit_domain : string) : bool :=
  contains legit_domain url_lower && negb (endswith domain legit_domain).

(** [for legit_domain in legitimate_domains: if ...: score += 0.6; break] *)
Fixpoint impersonation_loop (domains : list string) (url_lower domain : string)
  (score : Q) : Q :=
  match domains with
  | [] => score
  | legit_domain :: rest =>
      if impersonates url_lower domain legit_domain
      then score + 0.6
      else impersonation_loop rest url_lower domain score
  end.

(** [_get_risk_level(probability)] *)
Definition _get_risk_level (probability : Q) : string :=
  if lt probability 0.3 then "low"
  else if lt probability 0.7 then "medium"
  else "high".

(** Nearest integer, ties to the even one. *)
Definition round_half_even (x : Q) : Z :=
  let f := Qfloor x in
  let r := x - inject_Z f in
  if Qlt_le_dec r (1 # 2) then f
  else if Qlt_le_dec (1 # 2) r then (f + 1)%Z
  else if Z.even f then f else (f + 1)%Z.

(** [round(x, ndigits)] *)
Definition round (x : Q) (ndigits : nat) : Q :=
  let scale := inject_Z (10 ^ Z.of_nat ndigits) in
  inject_Z (round_half_even (x * scale)) / scale.

Section Collaborators.

(** [urllib.parse.urlparse]; it raises [ValueError] on some inputs. *)
Variable urlparse : string -> result ParseResult.

(** The array [feature_extractor.extract_features(url).reshape(1, -1)] and
    the loaded model's [predict(features)[0]]. *)
Variable ndarray : Type.
Variable extract_features : string -> result ndarray.
Variable model_predict : ndarray -> result Q.

(** [_apply_heuristics(url)] *)
Definition _apply_heuristics (url : string) : result Q :=
  let score := 0.0 in
  let url_lower := lower url in
  let keyword_count :=
    count_where (fun keyword => contains keyword url_lower) phishing_keywords in
  let score := add_keyword_tier keyword_count score in
  let score := if search_dotted_quad url then score + 0.5 else score in
  let score :=
    if any (fun tld => endswith url_lower tld) suspicious_tlds
    then score + 0.3 else score in
  let score := if contains "@" url then score + 0.4 else score in
  parsed <- urlparse url ;;
  let domain := netloc parsed in
  let score := add_hyphen_tier (count_char "-" domain) score in
  let score := impersonation_loop legitimate_domains url_lower domain score in
  let score := if (100 <? String.length url)%nat then score + 0.2 else score in
  let score :=
    if negb (startswith url "https://")
       && any (fun keyword => contains keyword url_lower) login_keywords
    then score + 0.2 else score in
  Ok (py_min score 1.0).

(** The body of [predict]'s [try]. *)
Definition predict_body (url : value) : result dict :=
  if negb (truthy url) || negb (isinstance_str url)
  then Raise "Invalid URL provided"
  else
    match url with
    | VStr u =>
        features <- extract_features u ;;
        ml_probability <- model_predict features ;;
        heuristic_score <- _apply_heuristics u ;;
        let probability := 0.6 * ml_probability + 0.4 * heuristic_score in
        let is_phishing := gt probability 0.5 in
        let prediction_label := if is_phishing then "phishing" else "legitimate" in
        let confidence := if is_phishing then probability else 1 - probability in
        let risk_level := _get_risk_level probability in
        Ok [("url", url);
            ("prediction", VStr prediction_label);
            ("confidence", VFloat (round confidence 4));
            ("probability", VFloat (round probability 4));
            ("risk_level", VStr risk_level);
            ("is_safe", VBool (negb is_phishing))]
    | _ => Raise "Invalid URL provided"
    end.

(** The [except Exception as e] branch of [predict]. *)
Definition predict_handler (url : value) (e : string) : result dict :=
  Ok [("url", url);
      ("error", VStr e);
      ("prediction", VStr "error");
      ("confidence", VFloat 0.0)].

(** [PhishingPredictor.predict(url)] *)
Definition predict (url : value) : result dict :=
  try_except (predict_body url) (predict_handler url).

End Collaborators.

End Predictor.

(** ** [backend/app/main.py]: [EnhancedPredictor.predict] *)

Module Enhanced.

Import Py.
Local Open Scope string_scope.
Local Open Scope Q_scope.

Section Collaborators.

Variable ndarray : Type.

(** The pickled model: an sklearn-style classifier with [predict] and
    [predict_proba], or a LightGBM booster with [predict] alone. *)
Inductive model : Type :=
| Sklearn (predict : ndarray -> result Z) (predict_proba : ndarray -> result Q)
| Booster (predict : ndarray -> result Q).

(** [feature_extractor.extract_features(url).reshape(1, -1)], scaled when a
    scaler is loaded. *)
Variable extract_features : value -> result ndarray.
Variable the_model : model.
(** [datetime.now().isoformat()] *)
Variable timestamp : string.

(** [prediction] and [probability] as the two branches on
    [hasattr(self.model, 'predict_proba')] compute them. *)
Definition model_outputs (features : ndarray) : result (Z * Q) :=
  match the_model with
  | Sklearn predict predict_proba =>
      prediction <- predict features ;;
      probability <- predict_proba features ;;
      Ok (prediction, probability)
  | Booster predict =>
      raw_score <- predict features ;;
      let probability := 1.0 - raw_score in
      let prediction := if Qle_bool 0.5 probability then 1%Z else 0%Z in
      Ok (prediction, probability)
  end.

Definition risk_level_of (probability : Q) : string :=
  if Predictor.lt probability 0.3 then "low"
  else if Predictor.lt probability 0.7 then "medium"
  else "high".

Definition predict_body (url : value) : result dict :=
  features <- extract_features url ;;
  out <- model_outputs features ;;
  let prediction := fst out in
  let probability := snd out in
  let is_phishing := Z.eqb prediction 1 in
  let prediction_label := if is_phishing then "phishing" else "legitimate" in
  let confidence := if is_phishing then probability else 1 - probability in
  let risk_level := risk_level_of probability in
  Ok [("url", url);
      ("prediction", VStr prediction_label);
      ("confidence", VFloat (Predictor.round confidence 4));
      ("probability", VFloat (Predictor.round probability 4));
      ("risk_level", VStr risk_level);
      ("is_safe", VBool (negb is_phishing));
      ("timestamp", VStr timestamp)].

Definition predict_handler (url : value) (e : string) : result dict :=
  Ok [("url", url);
      ("prediction", VStr "error");
      ("confidence", VFloat 0.0);
      ("probability", VFloat 0.0);
      ("risk_level", VStr "unknown");
      ("is_safe", VBool false);
      ("error", VStr e);
      ("timestamp", VStr timestamp)].

(** [EnhancedPredictor.predict(url)] *)
Definition predict (url : value) : result dict :=
  try_except (predict_body url) (predict_handler url).

End Collaborators.

End Enhanced.

(** ** [backend/app/advanced_feature_extractor.py] *)

Module Extractor.

Import Py.
Local Open Scope string_scope.
Local Open Scope R_scope.

Definition suspicious_keywords : list string :=
  ["login"; "signin"; "verify"; "secure"; "account"; "update";
   "banking"; "confirm"; "suspended"; "locked"; "unusual";
   "activity"; "alert"; "security"; "notification"; "password";
   "credential"; "validate"; "authenticate"; "billing"].

Definition suspicious_tlds : list string :=
  [".tk"; ".ml"; ".ga"; ".cf"; ".gq"; ".xyz"; ".top"; ".work";
   ".click"; ".link"; ".download"; ".racing"; ".win"].

Definition trusted_tlds : list string :=
  [".com"; ".org"; ".net"; ".edu"; ".gov"; ".mil"].

Definition feature_names : list string :=
  ["url_length"; "num_dots"; "num_slashes"; "num_hyphens"; "num_digits";
   "has_ip_address"; "suspicious_keyword_count"; "uses_https";
   "shannon_entropy"; "vowel_consonant_ratio"; "digit_letter_ratio";
   "special_char_ratio"; "url_randomness_score";
   "domain_length"; "num_subdomains"; "tld_category"; "domain_has_digits";
   "domain_entropy"; "path_length"; "query_length"].

(** *** [collections.Counter] over the characters of a string *)

(** One more occurrence of [c]; a new key goes last, as in a [dict]. *)
Fixpoint counter_add (c : ascii) (counter : list (ascii * nat))
  : list (ascii * nat) :=
  match counter with
  | [] => [(c, 1%nat)]
  | (k, n) :: rest =>
      if Ascii.eqb k c then (k, S n) :: rest else (k, n) :: counter_add c rest
  end.

Fixpoint counter_update (counter : list (ascii * nat)) (text : string)
  : list (ascii * nat) :=
  match text with
  | EmptyString => counter
  | String c rest => counter_update (counter_add c counter) rest
  end.

(** [Counter(text)] *)
Definition Counter (text : string) : list (ascii * nat) :=
  counter_update [] text.

(** [counter.values()] *)
Definition values (counter : list (ascii * nat)) : list nat := map snd counter.

(** [math.log2] *)
Definition log2 (x : R) : R := ln x / ln 2.

(** One round of the loop [for count in counter.values()]. *)
Definition entropy_step (length : nat) (entropy : R) (count : nat) : R :=
  let probability := INR count / INR length in
  if Rlt_dec 0 probability
  then entropy - probability * log2 probability
  else entropy.

(** [_calculate_shannon_entropy(text)] *)
Definition _calculate_shannon_entropy (text : string) : R :=
  if String.eqb text "" then 0
  else
    let counter := Counter text in
    let length := String.length text in
    fold_left (entropy_step length) (values counter) 0.

(** *** The other character statistics *)

(** [c in s] for a character [c]. *)
Fixpoint char_in (c : ascii) (s : string) : bool :=
  match s with
  | EmptyString => false
  | String c' s' => Ascii.eqb c' c || char_in c s'
  end.

Definition vowels : string := "aeiouAEIOU".
Definition consonants : string := "bcdfghjklmnpqrstvwxyzBCDFGHJKLMNPQRSTVWXYZ".

Definition _vowel_consonant_ratio (url : string) : R :=
  let vowel_count := count_if (fun c => char_in c vowels) url in
  let consonant_count := count_if (fun c => char_in c consonants) url in
  if (consonant_count =? 0)%nat then 0
  else INR vowel_count / INR consonant_count.

Definition _digit_letter_ratio (url : string) : R :=
  let digits := count_if isdigit url in
  let letters := count_if isalpha url in
  if (letters =? 0)%nat then 0 else INR digits / INR letters.

Definition _special_char_ratio (url : string) : R :=
  let special_chars := count_if (fun c => negb (isalnum c)) url in
  if (String.length url =? 0)%nat then 0
  else INR special_chars / INR (String.length url).

(** [sum(1 for i in range(len(a) - 1) if a[i] != a[i + 1])] *)
Fixpoint changes (a : string) : nat :=
  match a with
  | String x ((String y _) as rest) =>
      ((if Ascii.eqb x y then 0 else 1) + changes rest)%nat
  | _ => 0%nat
  end.

Definition _url_randomness_score (url : string) : R :=
  let alphanum := filter_chars isalnum url in
  if (String.length alphanum <? 2)%nat then 0
  else INR (changes alphanum) / INR (String.length alphanum - 1).

Definition _has_ip_address (url : string) : bool := search_dotted_quad url.

(** [sum(1 for keyword in self.suspicious_keywords if keyword in url_lower)] *)
Definition suspicious_keyword_count (url : string) : nat :=
  let url_lower := lower url in
  count_where (fun keyword => contains keyword url_lower) suspicious_keywords.

Definition _extract_lexical_features (url : string) : list R :=
  [INR (String.length url);
   INR (count_char "." url);
   INR (count_char "/" url);
   INR (count_char "-" url);
   INR (count_if isdigit url);
   INR (if _has_ip_address url then 1 else 0);
   INR (suspicious_keyword_count url);
   INR (if startswith url "https://" then 1 else 0)].

Definition _extract_statistical_features (url : string) : list R :=
  [_calculate_shannon_entropy url;
   _vowel_consonant_ratio url;
   _digit_letter_ratio url;
   _special_char_ratio url;
   _url_randomness_score url].

(** *** Domain features *)

(** The fields of [tldextract.extract]'s result the extractor reads. *)
Record ExtractResult : Type := {
  subdomain : string;
  domain : string;
  suffix : string
}.

(** [s.split(sep)] for a one-character separator: the pieces between the
    separators, of which there is always at least one. *)
Fixpoint split (sep : ascii) (s : string) : list string :=
  match s with
  | EmptyString => [EmptyString]
  | String c rest =>
      if Ascii.eqb c sep then EmptyString :: split sep rest
      else
        match split sep rest with
        | piece :: pieces => String c piece :: pieces
        | [] => [String c EmptyString]
        end
  end.

(** The [if]/[elif]/[else] on the TLD: 0 trusted, 2 suspicious, 1 neutral. *)
Definition tld_category_of (tld : string) : nat :=
  if existsb (String.eqb tld) trusted_tlds then 0%nat
  else if any (fun sus => endswith tld sus) suspicious_tlds then 2%nat
  else 1%nat.

Section Parsers.

(** [urllib.parse.urlparse] and [tldextract.extract]. *)
Variable urlparse : string -> result ParseResult.
Variable tld_extract : string -> result ExtractResult.

(** The body of the [try] of [_extract_domain_features]. *)
Definition domain_features_body (url : string) : result (list R) :=
  parsed <- urlparse url ;;
  extracted <- tld_extract url ;;
  let domain := domain extracted in
  let subdomain := subdomain extracted in
  let num_subdomains :=
    if negb (String.eqb subdomain "")
    then List.length (split "." subdomain) else 0%nat in
  let tld := "." ++ suffix extracted in
  let tld_category := tld_category_of tld in
  let domain_has_digits := if any_char isdigit domain then 1%nat else 0%nat in
  let path_length :=
    if negb (String.eqb (path parsed) "") then String.length (path parsed) else 0%nat in
  let query_length :=
    if negb (String.eqb (query parsed) "") then String.length (query parsed) else 0%nat in
  Ok [INR (String.length domain);
      INR num_subdomains;
      INR tld_category;
      INR domain_has_digits;
      _calculate_shannon_entropy domain;
      INR path_length;
      INR query_length].

(** [_extract_domain_features(url)]: on an exception, [[0] * 7]. *)
Definition _extract_domain_features (url : string) : result (list R) :=
  try_except (domain_features_body url) (fun _ => Ok (repeat 0 7)).

(** [extract_features(url)] *)
Definition extract_features (url : string) : result (list R) :=
  let features : list R := [] in
  let features := (features ++ _extract_lexical_features url)%list in
  let features := (features ++ _extract_statistical_features url)%list in
  domain_features <- _extract_domain_features url ;;
  let features := (features ++ domain_features)%list in
  Ok features.

End Parsers.

(** The domain block: the entries named [domain_length] to [query_length]. *)
Definition domain_block (features : list R) : list R := skipn 13 features.

End Extractor.

(** ** [ml_engine/advanced_feature_extractor.py]: [_estimate_domain_age]

    The file's [_calculate_shannon_entropy] is the one of the backend
    extractor, line for line. *)

Module MlEngine.

Import Py.
Local Open Scope string_scope.
Local Open Scope R_scope.

Definition well_known : list string :=
  ["google"; "facebook"; "amazon"; "microsoft"; "apple";
   "github"; "stackoverflow"; "wikipedia"].

Definition year_tokens : list string :=
  ["2020"; "2021"; "2022"; "2023"; "2024"].

Definition _calculate_shannon_entropy := Extractor._calculate_shannon_entropy.

(** [_estimate_domain_age(domain, url)] *)
Definition _estimate_domain_age (domain url : string) : R :=
  let age_score := 0.5 in
  if any (fun known => contains known (lower domain)) well_known then 1.0
  else if any (fun year => contains year url) year_tokens then 0.2
  else if (String.length domain <=? 4)%nat then 0.3
  else if Rlt_dec 4.0 (_calculate_shannon_entropy domain) then 0.25
  else age_score.

End MlEngine.

(** ** Facts about the string primitives *)

Module PyFacts.

Import Py.
Local Open Scope string_scope.

Lemma prefix_spec (k s : string) :
  String.prefix k s = true <-> exists post, s = k ++ post.
Proof.
  revert s; induction k as [|a k IH]; intros s.
  - destruct s; simpl; split; eauto.
  - destruct s as [|b s]; simpl.
    + split; [discriminate | intros [post H]; discriminate].
    + destruct (ascii_dec a b) as [->|Hne].
      * rewrite IH. split; intros [post H]; exists post.
        -- now rewrite H.
        -- now injection H.
      * split; [discriminate | intros [post H]].
        injection H as H1 _. now elim Hne.
Qed.

(** [k in s] holds exactly when [s] is [pre ++ k ++ post]. *)
Lemma contains_spec (k s : string) :
  contains k s = true <-> exists pre post, s = pre ++ k ++ post.
Proof.
  induction s as [|c s IH]; cbn [contains].
  - rewrite prefix_spec. split.
    + intros [post H]. now exists "", post.
    + intros [pre [post H]]. destruct pre; [now exists post | discriminate].
  - rewrite orb_true_iff, IH, prefix_spec. split.
    + intros [[post H] | [pre [post H]]].
      * now exists "", post.
      * exists (String c pre), post. simpl. now rewrite H.
    + intros [pre [post H]]. destruct pre as [|c' pre]; simpl in H.
      * left. now exists post.
      * right. injection H as _ H. now exists pre, post.
Qed.

(** [s.endswith(suf)] holds exactly when [s] is [pre ++ suf]. *)
Lemma endswith_spec (s suf : string) :
  endswith s suf = true <-> exists pre, s = pre ++ suf.
Proof.
  induction s as [|c s IH]; cbn [endswith].
  - rewrite String.eqb_eq. split.
    + intros <-. now exists "".
    + intros [pre H]. destruct pre; simpl in H; [easy | discriminate].
  - rewrite orb_true_iff, IH, String.eqb_eq. split.
    + intros [<- | [pre ->]]; [now exists "" | now exists (String c pre)].
    + intros [pre H]. destruct pre as [|c' pre]; simpl in H.
      * now left.
      * right. injection H as _ H. now exists pre.
Qed.

Lemma lower_app (a b : string) : lower (a ++ b) = lower a ++ lower b.
Proof. induction a as [|c a IH]; simpl; [reflexivity | now rewrite IH]. Qed.

(** A split of [lower s] comes from a split of [s]. *)
Lemma lower_split (s a b : string) :
  lower s = a ++ b -> exists a' b', s = a' ++ b' /\ lower a' = a /\ lower b' = b.
Proof.
  revert s; induction a as [|c a IH]; intros s H; simpl in H.
  - now exists "", s.
  - destruct s as [|c' s]; simpl in H; [discriminate |].
    injection H as Hc H. destruct (IH s H) as [a' [b' [-> [Ha Hb]]]].
    exists (String c' a'), b'. simpl. now rewrite Hc, Ha, Hb.
Qed.

(** [k in s.lower()]: some substring of [s] lower-cases to [k]. *)
Lemma contains_lower_spec (k s : string) :
  contains k (lower s) = true <->
  exists pre mid post, s = pre ++ mid ++ post /\ lower mid = k.
Proof.
  rewrite contains_spec. split.
  - intros [pre [post H]].
    destruct (lower_split _ _ _ H) as [pre' [rest [-> [_ Hrest]]]].
    destruct (lower_split _ _ _ Hrest) as [mid [post' [-> [Hmid _]]]].
    now exists pre', mid, post'.
  - intros [pre [mid [post [-> <-]]]].
    exists (lower pre), (lower post). now rewrite !lower_app.
Qed.

(** A lower-case pattern found in [s] is found in [s.lower()] too. *)
Lemma contains_lower_of_contains (k s : string) :
  lower k = k -> contains k s = true -> contains k (lower s) = true.
Proof.
  intros Hk. rewrite !contains_spec. intros [pre [post ->]].
  exists (lower pre), (lower post). now rewrite !lower_app, Hk.
Qed.

Example search_dotted_quad_examples :
  search_dotted_quad "http://192.168.1.1/x" = true /\
  search_dotted_quad "http://example.com" = false /\
  search_dotted_quad "v1.2.3" = false.
Proof. repeat split. Qed.

Lemma count_where_le {A : Type} (p : A -> bool) (l : list A) :
  (count_where p l <= List.length l)%nat.
Proof. unfold count_where. apply filter_length_le. Qed.

End PyFacts.

(** ** The heuristic scorer and the risk tiers *)

Module PredictorFacts.

Import Py Predictor.
Local Open Scope string_scope.
Local Open Scope Q_scope.

Ltac q_arith := Lqa.lra.

Lemma lt_true_iff (a b : Q) : lt a b = true <-> a < b.
Proof.
  unfold lt. destruct (Qlt_le_dec a b); split; intros; try easy; q_arith.
Qed.

Lemma gt_true_iff (a b : Q) : gt a b = true <-> b < a.
Proof.
  unfold gt. destruct (Qlt_le_dec b a); split; intros; try easy; q_arith.
Qed.

Lemma gt_false_iff (a b : Q) : gt a b = false <-> a <= b.
Proof.
  unfold gt. destruct (Qlt_le_dec b a); split; intros; try easy; q_arith.
Qed.

(** *** The rule increments, one definition per rule of the scorer *)

Definition keyword_increment (url : string) : Q :=
  let n := count_where (fun keyword => contains keyword (lower url))
             phishing_keywords in
  if (3 <=? n)%nat then 0.4
  else if (2 <=? n)%nat then 0.25
  else if (1 <=? n)%nat then 0.1
  else 0.

Definition ip_increment (url : string) : Q :=
  if search_dotted_quad url then 0.5 else 0.

Definition tld_increment (url : string) : Q :=
  if any (fun tld => endswith (lower url) tld) suspicious_tlds then 0.3 else 0.

Definition at_increment (url : string) : Q :=
  if contains "@" url then 0.4 else 0.

Definition hyphen_increment (domain : string) : Q :=
  let n := count_char "-" domain in
  if (3 <=? n)%nat then 0.3 else if (2 <=? n)%nat then 0.2 else 0.

Definition impersonation_increment (url domain : string) : Q :=
  if any (impersonates (lower url) domain) legitimate_domains then 0.6 else 0.

Definition length_increment (url : string) : Q :=
  if (100 <? String.length url)%nat then 0.2 else 0.

Definition no_https_login_increment (url : string) : Q :=
  if negb (startswith url "https://")
     && any (fun keyword => contains keyword (lower url)) login_keywords
  then 0.2 else 0.

(** The sum of the applicable increments, before the cap. *)
Definition rule_sum (url domain : string) : Q :=
  keyword_increment url + ip_increment url + tld_increment url
  + at_increment url + hyphen_increment domain
  + impersonation_increment url domain + length_increment url
  + no_https_login_increment url.

Create HintDb increments.

Lemma keyword_increment_nonneg url : 0 <= keyword_increment url.
Proof.
  unfold keyword_increment.
  repeat match goal with |- context [if ?c then _ else _] => destruct c end;
    q_arith.
Qed.

Lemma ip_increment_nonneg url : 0 <= ip_increment url.
Proof. unfold ip_increment. destruct (search_dotted_quad url); q_arith. Qed.

Lemma tld_increment_nonneg url : 0 <= tld_increment url.
Proof. unfold tld_increment. destruct (any _ _); q_arith. Qed.

Lemma at_increment_nonneg url : 0 <= at_increment url.
Proof. unfold at_increment. destruct (contains _ _); q_arith. Qed.

Lemma hyphen_increment_nonneg domain : 0 <= hyphen_increment domain.
Proof.
  unfold hyphen_increment.
  repeat match goal with |- context [if ?c then _ else _] => destruct c end;
    q_arith.
Qed.

Lemma impersonation_increment_nonneg url domain :
  0 <= impersonation_increment url domain.
Proof. unfold impersonation_increment. destruct (any _ _); q_arith. Qed.

Lemma length_increment_nonneg url : 0 <= length_increment url.
Proof. unfold length_increment. destruct (_ <? _)%nat; q_arith. Qed.

Lemma no_https_login_increment_nonneg url : 0 <= no_https_login_increment url.
Proof. unfold no_https_login_increment. destruct (_ && _); q_arith. Qed.

#[export] Hint Resolve keyword_increment_nonneg ip_increment_nonneg
  tld_increment_nonneg at_increment_nonneg hyphen_increment_nonneg
  impersonation_increment_nonneg length_increment_nonneg
  no_https_login_increment_nonneg : increments.

Lemma rule_sum_nonneg url domain : 0 <= rule_sum url domain.
Proof.
  unfold rule_sum.
  pose proof (keyword_increment_nonneg url).
  pose proof (ip_increment_nonneg url).
  pose proof (tld_increment_nonneg url).
  pose proof (at_increment_nonneg url).
  pose proof (hyphen_increment_nonneg domain).
  pose proof (impersonation_increment_nonneg url domain).
  pose proof (length_increment_nonneg url).
  pose proof (no_https_login_increment_nonneg url).
  q_arith.
Qed.

(** *** Each step of the scorer adds its increment *)

Lemma add_keyword_tier_eq n score :
  add_keyword_tier n score ==
  score + (if (3 <=? n)%nat then 0.4
           else if (2 <=? n)%nat then 0.25
           else if (1 <=? n)%nat then 0.1 else 0).
Proof.
  unfold add_keyword_tier.
  destruct (3 <=? n)%nat; [q_arith |].
  destruct (2 <=? n)%nat; [q_arith |].
  destruct (1 <=? n)%nat; q_arith.
Qed.

Lemma add_hyphen_tier_eq n score :
  add_hyphen_tier n score ==
  score + (if (3 <=? n)%nat then 0.3 else if (2 <=? n)%nat then 0.2 else 0).
Proof.
  unfold add_hyphen_tier.
  destruct (3 <=? n)%nat; [q_arith |].
  destruct (2 <=? n)%nat; q_arith.
Qed.

(** The loop stops at the first brand that matches: its effect depends
    only on whether some brand matches. *)
Lemma impersonation_loop_any domains url_lower domain score :
  impersonation_loop domains url_lower domain score =
  if any (impersonates url_lower domain) domains then score + 0.6 else score.
Proof.
  induction domains as [|d rest IH]; simpl; [reflexivity |].
  destruct (impersonates url_lower domain d); simpl; [reflexivity | exact IH].
Qed.

Lemma py_min_compat a b c : a == b -> py_min a c == py_min b c.
Proof.
  intros H. unfold py_min.
  destruct (Qlt_le_dec c a), (Qlt_le_dec c b); q_arith.
Qed.

Lemma py_min_range a : 0 <= a -> 0 <= py_min a 1.0 <= 1.
Proof.
  intros H. unfold py_min. destruct (Qlt_le_dec 1.0 a); q_arith.
Qed.

(** What [_apply_heuristics] returns once [urlparse] has returned. *)
Lemma apply_heuristics_parsed urlparse url parsed :
  urlparse url = Ok parsed ->
  exists s, _apply_heuristics urlparse url = Ok s /\
            s == py_min (rule_sum url (netloc parsed)) 1.0.
Proof.
  intros Hp. unfold _apply_heuristics. rewrite Hp. cbn [bind].
  eexists. split; [reflexivity |].
  apply py_min_compat.
  rewrite impersonation_loop_any.
  unfold rule_sum, keyword_increment, ip_increment, tld_increment,
    at_increment, hyphen_increment, impersonation_increment,
    length_increment, no_https_login_increment.
  cbv zeta.
  set (n := count_where _ phishing_keywords).
  pose proof (add_keyword_tier_eq n 0.0) as Hk.
  set (s1 := add_keyword_tier n 0.0) in *.
  set (s2 := if search_dotted_quad url then s1 + 0.5 else s1).
  assert (H2 : s2 == s1 + (if search_dotted_quad url then 0.5 else 0))
    by (subst s2; destruct (search_dotted_quad url); q_arith).
  set (c3 := any _ suspicious_tlds) in *.
  set (s3 := if c3 then s2 + 0.3 else s2).
  assert (H3 : s3 == s2 + (if c3 then 0.3 else 0))
    by (subst s3; destruct c3; q_arith).
  set (c4 := contains "@" url) in *.
  set (s4 := if c4 then s3 + 0.4 else s3).
  assert (H4 : s4 == s3 + (if c4 then 0.4 else 0))
    by (subst s4; destruct c4; q_arith).
  set (h := count_char "-" (netloc parsed)) in *.
  pose proof (add_hyphen_tier_eq h s4) as H5.
  set (s5 := add_hyphen_tier h s4) in *.
  set (c6 := any _ legitimate_domains) in *.
  set (s6 := if c6 then s5 + 0.6 else s5).
  assert (H6 : s6 == s5 + (if c6 then 0.6 else 0))
    by (subst s6; destruct c6; q_arith).
  set (c7 := (100 <? String.length url)%nat) in *.
  set (s7 := if c7 then s6 + 0.2 else s6).
  assert (H7 : s7 == s6 + (if c7 then 0.2 else 0))
    by (subst s7; destruct c7; q_arith).
  set (c8 := negb _ && any _ login_keywords) in *.
  assert (H8 : (if c8 then s7 + 0.2 else s7) == s7 + (if c8 then 0.2 else 0))
    by (destruct c8; q_arith).
  rewrite H8, H7, H6, H5, H4, H3, H2, Hk.
  generalize (if (3 <=? n)%nat then 0.4
              else if (2 <=? n)%nat then 0.25
              else if (1 <=? n)%nat then 0.1 else 0).
  generalize (if search_dotted_quad url then 0.5 else 0).
  generalize (if c3 then 0.3 else 0) (if c4 then 0.4 else 0).
  generalize (if (3 <=? h)%nat then 0.3 else if (2 <=? h)%nat then 0.2 else 0).
  generalize (if c6 then 0.6 else 0) (if c7 then 0.2 else 0)
    (if c8 then 0.2 else 0).
  intros. q_arith.
Qed.

Lemma apply_heuristics_raise urlparse url e :
  urlparse url = Raise e -> _apply_heuristics urlparse url = Raise e.
Proof. intros Hp. unfold _apply_heuristics. now rewrite Hp. Qed.

(** A returned score lies in the unit interval. *)
Lemma apply_heuristics_ok_range urlparse url s :
  _apply_heuristics urlparse url = Ok s -> 0 <= s <= 1.
Proof.
  intros Hs. destruct (urlparse url) as [parsed | e] eqn:Hp.
  - destruct (apply_heuristics_parsed _ _ _ Hp) as [s' [Hs' Heq]].
    rewrite Hs in Hs'. injection Hs' as <-.
    pose proof (py_min_range _ (rule_sum_nonneg url (netloc parsed))).
    q_arith.
  - rewrite (apply_heuristics_raise _ _ _ Hp) in Hs. discriminate.
Qed.

(** *** Rounding to four decimals keeps the bounds [1/2] and [1] *)

Lemma round_half_even_ge (x : Q) (k : Z) :
  inject_Z k <= x -> (k <= round_half_even x)%Z.
Proof.
  intros H. unfold round_half_even.
  assert (Hf : (k <= Qfloor x)%Z)
    by (rewrite <- (Qfloor_Z k); now apply Qfloor_resp_le).
  destruct (Qlt_le_dec _ _); [exact Hf |].
  destruct (Qlt_le_dec _ _); [lia |].
  destruct (Z.even _); lia.
Qed.

Lemma round_half_even_le (x : Q) (k : Z) :
  x <= inject_Z k -> (round_half_even x <= k)%Z.
Proof.
  intros H. unfold round_half_even.
  assert (Hf : (Qfloor x <= k)%Z)
    by (rewrite <- (Qfloor_Z k); now apply Qfloor_resp_le).
  destruct (Qlt_le_dec (x - inject_Z (Qfloor x)) (1 # 2)) as [|Hr]; [exact Hf |].
  assert (Hlt : (Qfloor x < k)%Z).
  { destruct (Z.eq_dec (Qfloor x) k) as [E|]; [| lia].
    rewrite E in Hr. q_arith. }
  destruct (Qlt_le_dec _ _); [lia |].
  destruct (Z.even _); lia.
Qed.

Lemma round4_ge_half (c : Q) : 0.5 <= c -> 0.5 <= round c 4.
Proof.
  intros H. unfold round.
  change (inject_Z (10 ^ Z.of_nat 4)) with (inject_Z 10000).
  assert (Hz : (5000 <= round_half_even (c * inject_Z 10000))%Z).
  { apply round_half_even_ge. change (inject_Z 5000) with (5000 # 1).
    change (inject_Z 10000) with (10000 # 1). q_arith. }
  revert Hz. generalize (round_half_even (c * inject_Z 10000)). intros z Hz.
  unfold Qle, Qdiv, Qmult, Qinv, inject_Z. simpl. lia.
Qed.

Lemma round4_le_one (c : Q) : c <= 1 -> round c 4 <= 1.
Proof.
  intros H. unfold round.
  change (inject_Z (10 ^ Z.of_nat 4)) with (inject_Z 10000).
  assert (Hz : (round_half_even (c * inject_Z 10000) <= 10000)%Z).
  { apply round_half_even_le. change (inject_Z 10000) with (10000 # 1).
    q_arith. }
  revert Hz. generalize (round_half_even (c * inject_Z 10000)). intros z Hz.
  unfold Qle, Qdiv, Qmult, Qinv, inject_Z. simpl. lia.
Qed.

(** *** [predict] *)

(** The dictionary of the successful [return], by the blended probability. *)
Definition success_dict (url : value) (probability : Q) : dict :=
  [("url", url);
   ("prediction", VStr (if gt probability 0.5 then "phishing" else "legitimate"));
   ("confidence",
     VFloat (round (if gt probability 0.5 then probability else 1 - probability) 4));
   ("probability", VFloat (round probability 4));
   ("risk_level", VStr (_get_risk_level probability));
   ("is_safe", VBool (negb (gt probability 0.5)))].

Section Predict.

Variable urlparse : string -> result ParseResult.
Variable ndarray : Type.
Variable extract_features : string -> result ndarray.
Variable model_predict : ndarray -> result Q.

Let predict := predict urlparse ndarray extract_features model_predict.
Let predict_body := predict_body urlparse ndarray extract_features model_predict.

(** A successful [return] comes from a non-empty string that all three
    scoring steps accepted. *)
Lemma predict_body_ok url d :
  predict_body url = Ok d ->
  exists u f m h,
    url = VStr u /\ u <> "" /\
    extract_features u = Ok f /\ model_predict f = Ok m /\
    _apply_heuristics urlparse u = Ok h /\
    d = success_dict url (0.6 * m + 0.4 * h).
Proof.
  unfold predict_body, Predictor.predict_body. intros H.
  destruct (negb (truthy url) || negb (isinstance_str url)) eqn:Hv;
    [discriminate |].
  destruct url as [| | | |u]; try discriminate.
  apply orb_false_elim in Hv. destruct Hv as [Hv _]. simpl in Hv.
  destruct (extract_features u) as [f|] eqn:Hf; [|discriminate].
  cbn [bind] in H.
  destruct (model_predict f) as [m|] eqn:Hm; [|discriminate].
  cbn [bind] in H.
  destruct (_apply_heuristics urlparse u) as [h|] eqn:Hh; [|discriminate].
  cbn [bind] in H.
  exists u, f, m, h. repeat split; auto.
  - intros ->. discriminate.
  - injection H as <-. reflexivity.
Qed.

(** Whatever the [try] does, [predict] returns a dictionary. *)
Lemma predict_returns url : exists d, predict url = Ok d.
Proof.
  unfold predict, Predictor.predict, try_except.
  destruct (Predictor.predict_body _ _ _ _ url); eauto.
  unfold predict_handler. eauto.
Qed.

(** The dictionary returned when the [try] raised. *)
Lemma predict_error url e :
  predict_body url = Raise e ->
  predict url =
  Ok [("url", url); ("error", VStr e); ("prediction", VStr "error");
      ("confidence", VFloat 0.0)].
Proof.
  unfold predict, predict_body, Predictor.predict, try_except. now intros ->.
Qed.

(** The label is "phishing" exactly when the blended probability exceeds
    0.5 strictly. *)
Lemma predict_label_strict url d :
  predict_body url = Ok d ->
  exists p, d = success_dict url p /\
    (get d "prediction" = Some (VStr "phishing") <-> 0.5 < p) /\
    (get d "prediction" = Some (VStr "legitimate") <-> p <= 0.5).
Proof.
  intros H. destruct (predict_body_ok _ _ H) as [u [f [m [h [_ [_ [_ [_ [_ ->]]]]]]]]].
  eexists. split; [reflexivity |].
  unfold success_dict. cbn [get String.eqb Ascii.eqb Bool.eqb].
  rewrite <- gt_true_iff, <- gt_false_iff.
  destruct (gt _ 0.5); split; split; intros; try easy.
Qed.

End Predict.

End PredictorFacts.

(** ** Properties of the predictor *)

Module PredictorClaims.

Import Py Predictor PredictorFacts.
Local Open Scope string_scope.
Local Open Scope Q_scope.

(** [urlparse] held at the components it returns for the URL under study. *)
Definition parsed_as (sch host pth qry : string) : string -> result ParseResult :=
  fun _ => Ok {| scheme := sch; netloc := host; path := pth; params := "";
                 query := qry; fragment := "" |}.

(** The fields of a successful result. *)
Definition result_fields : list string :=
  ["url"; "prediction"; "confidence"; "probability"; "risk_level"; "is_safe"].

(** C7: the risk tier is "low" exactly below 0.3, "medium" exactly from 0.3
    up to but excluding 0.7, "high" exactly from 0.7 on; 0.29 is low, 0.3 and
    0.69 are medium, 0.7 is high. *)
Theorem get_risk_level_tiers (p : Q) :
  (_get_risk_level p = "low" <-> p < 0.3) /\
  (_get_risk_level p = "medium" <-> 0.3 <= p /\ p < 0.7) /\
  (_get_risk_level p = "high" <-> 0.7 <= p) /\
  _get_risk_level 0.29 = "low" /\
  _get_risk_level 0.3 = "medium" /\
  _get_risk_level 0.69 = "medium" /\
  _get_risk_level 0.7 = "high".
Proof.
  unfold _get_risk_level at 1 2 3. unfold lt.
  destruct (Qlt_le_dec p 0.3) as [H3|H3];
    [| destruct (Qlt_le_dec p 0.7) as [H7|H7]];
    (split; [| split; [| split; [| repeat split; reflexivity]]]);
    (split; [intros E; try discriminate E; try (split; q_arith); try q_arith
            | intros H; first [reflexivity | exfalso; q_arith]]).
Qed.

(** C6, amended: on every URL that [urlparse] accepts, the scorer returns
    the sum of the rule increments capped at 1.0; every increment is
    non-negative and the score lies in [0, 1].  On a URL that [urlparse]
    rejects the scorer returns no value: it raises [urlparse]'s own
    exception. *)
Theorem apply_heuristics_unit_interval
  (urlparse : string -> result ParseResult) (url : string) :
  match urlparse url with
  | Ok parsed =>
      let domain := netloc parsed in
      exists s,
        _apply_heuristics urlparse url = Ok s /\
        s == py_min (rule_sum url domain) 1.0 /\
        Forall (fun increment => 0 <= increment)
          [keyword_increment url; ip_increment url; tld_increment url;
           at_increment url; hyphen_increment domain;
           impersonation_increment url domain; length_increment url;
           no_https_login_increment url] /\
        0 <= s <= 1
  | Raise e => _apply_heuristics urlparse url = Raise e
  end.
Proof.
  destruct (urlparse url) as [parsed | e] eqn:Hp.
  - destruct (apply_heuristics_parsed _ _ _ Hp) as [s [Hs Heq]].
    exists s. split; [exact Hs |]. split; [exact Heq |]. split.
    + repeat constructor; auto with increments.
    + exact (apply_heuristics_ok_range _ _ _ Hs).
  - exact (apply_heuristics_raise _ _ _ Hp).
Qed.

(** [urlparse] on "http://[::1": the bracket in the host is not closed,
    [ValueError("Invalid IPv6 URL")]. *)
Definition urlparse_unclosed_bracket : string -> result ParseResult :=
  fun _ => Raise "Invalid IPv6 URL".

(** C6, counterexample: "http://[::1" is a URL string for which the scorer
    returns no value in [0, 1]; it raises, and [predict] turns the
    exception into its error dictionary. *)
Lemma apply_heuristics_unclosed_bracket :
  _apply_heuristics urlparse_unclosed_bracket "http://[::1"
    = Raise "Invalid IPv6 URL" /\
  (forall s, _apply_heuristics urlparse_unclosed_bracket "http://[::1" <> Ok s) /\
  forall (ndarray : Type) (extract_features : string -> result ndarray)
         (model_predict : ndarray -> result Q),
    exists d,
      predict urlparse_unclosed_bracket ndarray extract_features model_predict
        (VStr "http://[::1") = Ok d /\
      get d "prediction" = Some (VStr "error").
Proof.
  split; [reflexivity |]. split; [intros s H; discriminate |].
  intros ndarray extract_features model_predict.
  unfold predict, try_except, predict_body.
  cbn [isinstance_str truthy negb andb orb String.eqb].
  destruct (extract_features "http://[::1") as [f | e]; cbn [bind];
    [| eexists; split; reflexivity].
  destruct (model_predict f) as [m | e]; cbn [bind];
    eexists; split; reflexivity.
Qed.

(** Three keywords, a suspicious TLD, three hyphens in the host, a brand
    outside its own domain and no HTTPS add up to 1.7: the score is 1.0. *)
Example apply_heuristics_capped :
  let url := "http://secure-login-verify.paypal.com.evil.tk" in
  let host := "secure-login-verify.paypal.com.evil.tk" in
  rule_sum url host == 1.7 /\
  _apply_heuristics (parsed_as "http" host "" "") url = Ok 1.0.
Proof. split; reflexivity. Qed.

(** One keyword and nothing else: the lowest keyword tier. *)
Example apply_heuristics_one_keyword :
  _apply_heuristics (parsed_as "http" "paypal-verify.fake.com" "" "")
    "http://paypal-verify.fake.com" = Ok 0.10.
Proof. reflexivity. Qed.

(** The brands are written in lower case: one that occurs in the URL as
    given occurs in the lower-cased URL the loop searches. *)
Lemma brand_occurrence_lower (brand url : string) :
  In brand legitimate_domains ->
  contains brand url = true -> contains brand (lower url) = true.
Proof.
  intros Hin. apply PyFacts.contains_lower_of_contains.
  simpl in Hin. repeat (destruct Hin as [<- | Hin]; [reflexivity |]).
  destruct Hin.
Qed.

(** C5: when some brand of the list occurs in the lower-cased URL while the
    parsed host (the [netloc]) does not end with it, the impersonation loop
    adds 0.6 to the score exactly once, however many brands match and
    however often. *)
Theorem impersonation_adds_once (url domain : string) (score : Q) :
  (exists brand, In brand legitimate_domains /\
                 contains brand (lower url) = true /\
                 endswith domain brand = false) ->
  impersonation_loop legitimate_domains (lower url) domain score = score + 0.6 /\
  impersonation_increment url domain = 0.6.
Proof.
  intros [brand [Hin [Hc He]]].
  assert (Hany : any (impersonates (lower url) domain) legitimate_domains = true).
  { unfold any. apply existsb_exists. exists brand. split; [exact Hin |].
    unfold impersonates. now rewrite Hc, He. }
  rewrite impersonation_loop_any. unfold impersonation_increment.
  now rewrite Hany.
Qed.

Lemma impersonation_adds_once_witness :
  impersonation_loop legitimate_domains
    (lower "http://paypal.com.google.com.fake.com/paypal.com")
    "paypal.com.google.com.fake.com" 0.1 = 0.1 + 0.6 /\
  impersonation_increment "http://paypal.com.google.com.fake.com/paypal.com"
    "paypal.com.google.com.fake.com" = 0.6.
Proof.
  apply impersonation_adds_once.
  exists "paypal.com". split; [| split]; [| reflexivity | reflexivity].
  simpl. tauto.
Defined.

(** Without a matching brand the loop leaves the score alone. *)
Lemma impersonation_silent (url domain : string) (score : Q) :
  (forall brand, In brand legitimate_domains ->
                 contains brand (lower url) = true ->
                 endswith domain brand = true) ->
  impersonation_loop legitimate_domains (lower url) domain score = score.
Proof.
  intros H. rewrite impersonation_loop_any.
  destruct (any _ _) eqn:Hany; [| reflexivity].
  apply existsb_exists in Hany. destruct Hany as [brand [Hin Himp]].
  unfold impersonates in Himp. apply andb_true_iff in Himp.
  destruct Himp as [Hc He]. rewrite (H brand Hin Hc) in He. discriminate.
Qed.

(** C10: a result of [predict] whose label is not "error" comes from a
    blended probability p = 0.6 m + 0.4 h with m the model output and h the
    heuristic score; with m in [0, 1], p lies in [0, 1], the confidence
    before rounding (p when p > 0.5, else 1 - p) is at least 0.5, and so is
    the reported confidence, rounded to four decimals. *)
Theorem predict_confidence_at_least_half
  (urlparse : string -> result ParseResult) (ndarray : Type)
  (extract_features : string -> result ndarray)
  (model_predict : ndarray -> result Q) (url : value) (d : dict) :
  (forall features m, model_predict features = Ok m -> 0 <= m <= 1) ->
  predict urlparse ndarray extract_features model_predict url = Ok d ->
  get d "prediction" <> Some (VStr "error") ->
  exists m h p confidence,
    0 <= m <= 1 /\ 0 <= h <= 1 /\
    p = 0.6 * m + 0.4 * h /\ 0 <= p <= 1 /\
    confidence = (if gt p 0.5 then p else 1 - p) /\
    0.5 <= confidence <= 1 /\
    get d "confidence" = Some (VFloat (round confidence 4)) /\
    0.5 <= round confidence 4 <= 1.
Proof.
  intros Hmodel Hd Hlabel.
  unfold predict, try_except in Hd.
  destruct (predict_body urlparse ndarray extract_features model_predict url)
    as [d' | e] eqn:Hbody.
  - injection Hd as ->.
    destruct (predict_body_ok _ _ _ _ _ _ Hbody)
      as [u [f [m [h [_ [_ [_ [Hm [Hh ->]]]]]]]]].
    pose proof (Hmodel _ _ Hm) as Hm01.
    pose proof (apply_heuristics_ok_range _ _ _ Hh) as Hh01.
    set (p := 0.6 * m + 0.4 * h) in *.
    assert (Hp : 0 <= p <= 1) by (subst p; q_arith).
    assert (Hc : 0.5 <= (if gt p 0.5 then p else 1 - p) <= 1).
    { destruct (gt p 0.5) eqn:Hg.
      - apply gt_true_iff in Hg. q_arith.
      - apply gt_false_iff in Hg. q_arith. }
    exists m, h, p, (if gt p 0.5 then p else 1 - p).
    repeat split; try tauto.
    + apply round4_ge_half; tauto.
    + apply round4_le_one; tauto.
  - unfold predict_handler in Hd. injection Hd as <-.
    exfalso. apply Hlabel. reflexivity.
Qed.

Lemma predict_confidence_witness :
  exists m h p confidence,
    0 <= m <= 1 /\ 0 <= h <= 1 /\
    p = 0.6 * m + 0.4 * h /\ 0 <= p <= 1 /\
    confidence = (if gt p 0.5 then p else 1 - p) /\
    0.5 <= confidence <= 1 /\
    get (success_dict (VStr "http://192.168.1.1/login") (0.6 * 0.9 + 0.4 * 0.80))
      "confidence" = Some (VFloat (round confidence 4)) /\
    0.5 <= round confidence 4 <= 1.
Proof.
  apply (predict_confidence_at_least_half
           (parsed_as "http" "192.168.1.1" "/login" "") unit
           (fun _ => Ok tt) (fun _ => Ok 0.9)
           (VStr "http://192.168.1.1/login")).
  - intros _ m H. injection H as <-. split; discriminate.
  - reflexivity.
  - discriminate.
Defined.

(** C1 (code defect): at a blended probability of exactly 0.5, model
    output 0.5 and heuristic score 0.5 for an HTTPS URL on an IP literal,
    [PhishingPredictor.predict] compares with [>] and answers "legitimate",
    where the threshold "at least 0.5" asks for "phishing", the answer
    [EnhancedPredictor.predict] gives for the same probability. *)
Theorem predict_at_exactly_half :
  let url := "https://192.168.1.1/" in
  let urlparse := parsed_as "https" "192.168.1.1" "/" "" in
  _apply_heuristics urlparse url = Ok 0.50 /\
  0.6 * 0.5 + 0.4 * 0.50 == 0.5 /\
  predict urlparse unit (fun _ => Ok tt) (fun _ => Ok 0.5) (VStr url) =
    Ok [("url", VStr url);
        ("prediction", VStr "legitimate");
        ("confidence", VFloat 0.5000);
        ("probability", VFloat 0.5000);
        ("risk_level", VStr "medium");
        ("is_safe", VBool true)] /\
  Enhanced.predict unit (fun _ => Ok tt) (Enhanced.Booster unit (fun _ => Ok 0.5))
    "2024-01-01T00:00:00" (VStr url) =
    Ok [("url", VStr url);
        ("prediction", VStr "phishing");
        ("confidence", VFloat 0.5000);
        ("probability", VFloat 0.5000);
        ("risk_level", VStr "medium");
        ("is_safe", VBool false);
        ("timestamp", VStr "2024-01-01T00:00:00")].
Proof. repeat split. Qed.

(** C2 (code defect): on the empty URL [PhishingPredictor.predict] does not
    raise and returns label "error", confidence 0.0 and a message, but the
    dictionary has only the keys url, error, prediction and confidence:
    probability, risk_level and is_safe are absent, whereas the handler of
    [EnhancedPredictor.predict] returns every field of a successful
    result. *)
Theorem predict_error_fields
  (urlparse : string -> result ParseResult) (ndarray : Type)
  (extract_features : string -> result ndarray)
  (model_predict : ndarray -> result Q) :
  let d := [("url", VStr ""); ("error", VStr "Invalid URL provided");
            ("prediction", VStr "error"); ("confidence", VFloat 0.0)] in
  predict urlparse ndarray extract_features model_predict (VStr "") = Ok d /\
  keys d = ["url"; "error"; "prediction"; "confidence"] /\
  get d "probability" = None /\
  get d "risk_level" = None /\
  get d "is_safe" = None /\
  (forall timestamp url e,
     exists d', Enhanced.predict_handler timestamp url e = Ok d' /\
                incl result_fields (keys d')).
Proof.
  repeat split.
  intros timestamp url e. eexists. split; [reflexivity |].
  intros k Hk. simpl in Hk |- *. tauto.
Qed.

End PredictorClaims.

(** ** The character counter and the entropy *)

Module EntropyFacts.

Import Py Extractor.
Local Open Scope nat_scope.
Local Open Scope string_scope.

(** *** The words of the specification *)

(** The characters of a string, and the distinct ones. *)
Definition chars (text : string) : list ascii := list_ascii_of_string text.
Definition alphabet (text : string) : list ascii := nodup ascii_dec (chars text).

(** The share of [c] among the characters of [text]. *)
Definition frequency (text : string) (c : ascii) : R :=
  (INR (count_char c text) / INR (String.length text))%R.

Fixpoint sum_R (l : list R) : R :=
  match l with
  | [] => 0%R
  | x :: rest => (x + sum_R rest)%R
  end.

(** [p * log2(p)] *)
Definition plogp (p : R) : R := (p * log2 p)%R.

(** Minus the sum of [p * log2(p)] over the character distribution. *)
Definition shannon (text : string) : R :=
  (- sum_R (map (fun c => plogp (frequency text c)) (alphabet text)))%R.

(** *** [Counter] counts every character once per occurrence *)

Definition counter_keys (counter : list (ascii * nat)) : list ascii :=
  map fst counter.

(** The count stored for [c], 0 when [c] is not a key. *)
Fixpoint lookup (counter : list (ascii * nat)) (c : ascii) : nat :=
  match counter with
  | [] => 0
  | (k, n) :: rest => if Ascii.eqb k c then n else lookup rest c
  end.

Lemma counter_add_lookup c counter c' :
  lookup (counter_add c counter) c' =
  if Ascii.eqb c c' then S (lookup counter c') else lookup counter c'.
Proof.
  induction counter as [|[k n] rest IH]; simpl.
  - destruct (Ascii.eqb c c'); reflexivity.
  - destruct (Ascii.eqb k c) eqn:Hkc; simpl.
    + apply Ascii.eqb_eq in Hkc. subst k.
      destruct (Ascii.eqb c c'); reflexivity.
    + destruct (Ascii.eqb k c') eqn:Hkc'; [| exact IH].
      apply Ascii.eqb_eq in Hkc'. subst k. now rewrite Ascii.eqb_sym, Hkc.
Qed.

Lemma counter_add_keys c counter k :
  In k (counter_keys (counter_add c counter)) <->
  k = c \/ In k (counter_keys counter).
Proof.
  unfold counter_keys.
  induction counter as [|[k' n] rest IH]; simpl.
  - intuition.
  - destruct (Ascii.eqb k' c) eqn:Hk; simpl.
    + apply Ascii.eqb_eq in Hk. subst k'. intuition.
    + rewrite IH. intuition.
Qed.

Lemma counter_add_nodup c counter :
  NoDup (counter_keys counter) -> NoDup (counter_keys (counter_add c counter)).
Proof.
  unfold counter_keys.
  induction counter as [|[k n] rest IH]; simpl; intros H.
  - repeat constructor. intros [].
  - inversion H as [|? ? Hnotin Hrest]; subst.
    destruct (Ascii.eqb k c) eqn:Hk; simpl.
    + constructor; assumption.
    + constructor; [| now apply IH].
      intros Hin. apply (counter_add_keys c rest k) in Hin.
      destruct Hin as [-> | Hin]; [| now apply Hnotin].
      now rewrite Ascii.eqb_refl in Hk.
Qed.

Lemma counter_update_lookup counter text c :
  lookup (counter_update counter text) c = lookup counter c + count_char c text.
Proof.
  revert counter; induction text as [|a text IH]; intros counter; simpl.
  - lia.
  - rewrite IH, counter_add_lookup. destruct (Ascii.eqb a c); lia.
Qed.

Lemma counter_update_keys counter text k :
  In k (counter_keys (counter_update counter text)) <->
  In k (counter_keys counter) \/ In k (chars text).
Proof.
  revert counter; induction text as [|a text IH]; intros counter; simpl.
  - intuition.
  - rewrite IH, counter_add_keys. intuition.
Qed.

Lemma counter_update_nodup counter text :
  NoDup (counter_keys counter) -> NoDup (counter_keys (counter_update counter text)).
Proof.
  revert counter; induction text as [|a text IH]; intros counter H; simpl.
  - exact H.
  - apply IH. now apply counter_add_nodup.
Qed.

(** With distinct keys, each stored value is the one [lookup] finds. *)
Lemma values_lookup counter :
  NoDup (counter_keys counter) ->
  values counter = map (lookup counter) (counter_keys counter).
Proof.
  unfold values, counter_keys.
  induction counter as [|[k n] rest IH]; simpl; intros H; [reflexivity |].
  inversion H as [|? ? Hnotin Hrest]; subst.
  rewrite Ascii.eqb_refl. f_equal.
  rewrite (IH Hrest). apply map_ext_in. intros k' Hk'.
  destruct (Ascii.eqb k k') eqn:E; [| reflexivity].
  apply Ascii.eqb_eq in E. subst k'. now elim Hnotin.
Qed.

Lemma Counter_lookup text c : lookup (Counter text) c = count_char c text.
Proof. unfold Counter. now rewrite counter_update_lookup. Qed.

Lemma Counter_nodup text : NoDup (counter_keys (Counter text)).
Proof. apply counter_update_nodup. constructor. Qed.

Lemma Counter_keys text k : In k (counter_keys (Counter text)) <-> In k (chars text).
Proof. unfold Counter. rewrite counter_update_keys. simpl. intuition. Qed.

(** [Counter(text).values()] lists the number of occurrences of each
    distinct character. *)
Lemma Counter_values text :
  values (Counter text) =
  map (fun c => count_char c text) (counter_keys (Counter text)).
Proof.
  rewrite (values_lookup _ (Counter_nodup text)).
  apply map_ext. intros c. apply Counter_lookup.
Qed.

Lemma Counter_keys_alphabet text :
  Permutation (counter_keys (Counter text)) (alphabet text).
Proof.
  apply NoDup_Permutation.
  - apply Counter_nodup.
  - apply NoDup_nodup.
  - intros k. unfold alphabet. now rewrite Counter_keys, nodup_In.
Qed.

(** *** Sums *)

Lemma sum_R_perm (l l' : list R) : Permutation l l' -> sum_R l = sum_R l'.
Proof.
  induction 1; simpl; lra.
Qed.

Lemma sum_R_INR {A : Type} (f : A -> nat) (x : R) (l : list A) :
  sum_R (map (fun a => (INR (f a) / x)%R) l) = (INR (list_sum (map f l)) / x)%R.
Proof.
  induction l as [|a l IH]; simpl.
  - unfold Rdiv. ring.
  - rewrite IH, plus_INR. unfold Rdiv. ring.
Qed.

Lemma sum_R_nonpos (l : list R) :
  Forall (fun x => x <= 0)%R l -> (sum_R l <= 0)%R.
Proof. induction 1; simpl; lra. Qed.

Lemma list_sum_zero {A : Type} (l : list A) : list_sum (map (fun _ => 0) l) = 0.
Proof. induction l; simpl; auto. Qed.

Lemma list_sum_plus {A : Type} (f g : A -> nat) (l : list A) :
  list_sum (map (fun a => f a + g a) l) = list_sum (map f l) + list_sum (map g l).
Proof. induction l; simpl; lia. Qed.

(** In a list without repetition a member is met once. *)
Lemma list_sum_indicator (a : ascii) (l : list ascii) :
  NoDup l -> In a l ->
  list_sum (map (fun c => if Ascii.eqb a c then 1 else 0) l) = 1.
Proof.
  induction 1 as [|x l Hnotin Hnd IH]; simpl; [intros [] |].
  intros [-> | Hin].
  - rewrite Ascii.eqb_refl.
    rewrite (map_ext_in _ (fun _ => 0)); [now rewrite list_sum_zero |].
    intros c Hc. destruct (Ascii.eqb a c) eqn:E; [| reflexivity].
    apply Ascii.eqb_eq in E. subst c. now elim Hnotin.
  - destruct (Ascii.eqb a x) eqn:E.
    + apply Ascii.eqb_eq in E. subst x. now elim Hnotin.
    + now rewrite IH.
Qed.

(** *** Occurrence counts *)

Lemma count_char_cons (c a : ascii) (text : string) :
  count_char c (String a text) = (if Ascii.eqb a c then 1 else 0) + count_char c text.
Proof. reflexivity. Qed.

(** The occurrences of the distinct characters add up to the length. *)
Lemma count_char_total (text : string) (l : list ascii) :
  NoDup l -> (forall c, In c (chars text) -> In c l) ->
  list_sum (map (fun c => count_char c text) l) = String.length text.
Proof.
  intros Hnd. induction text as [|a text IH]; intros Hall.
  - simpl. apply list_sum_zero.
  - rewrite (map_ext _ _ (fun c => count_char_cons c a text)).
    rewrite list_sum_plus, list_sum_indicator; auto.
    + simpl. f_equal. apply IH. intros c Hc. apply Hall. now right.
    + apply Hall. now left.
Qed.

Lemma count_char_le (c : ascii) (text : string) :
  count_char c text <= String.length text.
Proof.
  induction text as [|a text IH]; simpl; [lia |].
  destruct (Ascii.eqb a c); lia.
Qed.

Lemma count_char_pos (c : ascii) (text : string) :
  In c (chars text) -> 0 < count_char c text.
Proof.
  induction text as [|a text IH]; simpl; [intros [] |].
  intros [-> | Hin].
  - rewrite Ascii.eqb_refl. lia.
  - specialize (IH Hin). lia.
Qed.

Lemma length_pos (text : string) : text <> "" -> 0 < String.length text.
Proof. destruct text; simpl; [congruence | lia]. Qed.

(** *** Frequencies *)

Lemma frequency_range (text : string) (c : ascii) :
  In c (alphabet text) -> (0 < frequency text c <= 1)%R.
Proof.
  unfold alphabet. rewrite nodup_In. intros Hin.
  pose proof (count_char_pos _ _ Hin) as Hpos.
  pose proof (count_char_le c text) as Hle.
  assert (Hn : (0 < INR (String.length text))%R) by (apply lt_0_INR; lia).
  apply lt_0_INR in Hpos. apply le_INR in Hle.
  unfold frequency. split.
  - now apply Rdiv_lt_0_compat.
  - apply Rmult_le_reg_r with (r := INR (String.length text)); [exact Hn |].
    unfold Rdiv. rewrite Rmult_assoc, Rinv_l; lra.
Qed.

Lemma frequency_total (text : string) :
  text <> "" -> sum_R (map (frequency text) (alphabet text)) = 1%R.
Proof.
  intros Hne. unfold frequency.
  rewrite (sum_R_INR (fun c => count_char c text)).
  rewrite count_char_total.
  - apply length_pos in Hne. apply lt_0_INR in Hne. field. lra.
  - apply NoDup_nodup.
  - intros c Hc. unfold alphabet. now rewrite nodup_In.
Qed.

Lemma alphabet_nonempty (text : string) :
  text <> "" -> 0 < List.length (alphabet text).
Proof.
  destruct text as [|a text]; [congruence |]. intros _.
  assert (Hin : In a (alphabet (String a text))).
  { unfold alphabet. rewrite nodup_In. now left. }
  destruct (alphabet (String a text)); [destruct Hin | simpl; lia].
Qed.

(** *** Logarithms *)

Local Open Scope R_scope.

Lemma ln_2_pos : 0 < ln 2.
Proof. pose proof ln_lt_2. lra. Qed.

(** The tangent bound of the logarithm at 1. *)
Lemma ln_le_minus_1 (x : R) : 0 < x -> ln x <= x - 1.
Proof.
  intros Hx. pose proof (exp_ineq1_le (ln x)) as H.
  rewrite (exp_ln x Hx) in H. lra.
Qed.

Lemma log2_1 : log2 1 = 0.
Proof. unfold log2. rewrite ln_1. unfold Rdiv. ring. Qed.

Lemma log2_half : log2 (/ 2) = -1.
Proof.
  unfold log2. rewrite ln_Rinv by lra. pose proof ln_2_pos. field. lra.
Qed.

Lemma plogp_nonpos (p : R) : 0 < p <= 1 -> plogp p <= 0.
Proof.
  intros [Hp Hp1]. unfold plogp, log2.
  pose proof (ln_le_minus_1 p Hp) as Hln. pose proof ln_2_pos as H2.
  assert (Hq : ln p / ln 2 <= 0).
  { apply Rmult_le_reg_r with (r := ln 2); [exact H2 |].
    unfold Rdiv. rewrite Rmult_assoc, Rinv_l; lra. }
  nra.
Qed.

(** One term of Gibbs' inequality against the uniform distribution on
    [N] points. *)
Lemma gibbs_term (p N : R) :
  0 < p -> 0 < N -> - (p * ln p) <= p * ln N + / N - p.
Proof.
  intros Hp HN.
  assert (HNp : 0 < N * p) by (apply Rmult_lt_0_compat; assumption).
  pose proof (ln_le_minus_1 (/ (N * p)) (Rinv_0_lt_compat _ HNp)) as H.
  rewrite ln_Rinv, ln_mult in H by assumption.
  assert (E : p * / (N * p) = / N) by (field; lra).
  assert (Hm : p * (- (ln N + ln p)) <= p * (/ (N * p) - 1))
    by (apply Rmult_le_compat_l; lra).
  rewrite Rmult_minus_distr_l, E in Hm. lra.
Qed.

Lemma gibbs_sum (ps : list R) (N : R) :
  0 < N -> Forall (fun p => 0 < p) ps ->
  - sum_R (map (fun p => p * ln p) ps) <=
  ln N * sum_R ps + INR (List.length ps) / N - sum_R ps.
Proof.
  intros HN. induction 1 as [|p ps Hp _ IH].
  - simpl. unfold Rdiv. lra.
  - cbn [map sum_R List.length]. rewrite S_INR.
    pose proof (gibbs_term p N Hp HN). unfold Rdiv in *. lra.
Qed.

(** *** The loop computes minus the sum of [p * log2(p)] *)

Lemma entropy_step_eq (n count : nat) (entropy : R) :
  (0 < n)%nat ->
  entropy_step n entropy count = entropy - plogp (INR count / INR n).
Proof.
  intros Hn. unfold entropy_step, plogp.
  destruct (Rlt_dec 0 (INR count / INR n)) as [|Hnot]; [reflexivity |].
  assert (Hz : INR count / INR n = 0).
  { apply lt_0_INR in Hn. pose proof (pos_INR count) as Hc.
    assert (0 <= INR count / INR n)
      by (apply Rmult_le_pos; [exact Hc | left; now apply Rinv_0_lt_compat]).
    lra. }
  rewrite Hz. ring.
Qed.

Lemma fold_entropy (n : nat) (counts : list nat) (entropy : R) :
  (0 < n)%nat ->
  fold_left (entropy_step n) counts entropy =
  entropy - sum_R (map (fun count => plogp (INR count / INR n)) counts).
Proof.
  intros Hn. revert entropy.
  induction counts as [|count counts IH]; intros entropy; simpl.
  - ring.
  - rewrite IH, entropy_step_eq by exact Hn. ring.
Qed.

Lemma entropy_empty : _calculate_shannon_entropy "" = 0.
Proof. reflexivity. Qed.

(** On a non-empty string the code computes the entropy of the character
    distribution. *)
Lemma entropy_shannon (text : string) :
  text <> "" -> _calculate_shannon_entropy text = shannon text.
Proof.
  intros Hne. unfold _calculate_shannon_entropy.
  destruct (String.eqb_spec text "") as [|_]; [contradiction |].
  rewrite fold_entropy by now apply length_pos.
  rewrite Counter_values, map_map. unfold shannon.
  change (fun x => plogp (INR (count_char x text) / INR (String.length text)))
    with (fun c => plogp (frequency text c)).
  rewrite (sum_R_perm _ _
             (Permutation_map (fun c => plogp (frequency text c))
                (Counter_keys_alphabet text))).
  ring.
Qed.

Lemma shannon_nonneg (text : string) : 0 <= shannon text.
Proof.
  unfold shannon.
  assert (H : sum_R (map (fun c => plogp (frequency text c)) (alphabet text)) <= 0).
  { apply sum_R_nonpos. apply Forall_forall. intros x Hx.
    apply in_map_iff in Hx. destruct Hx as [c [<- Hc]].
    apply plogp_nonpos. now apply frequency_range. }
  lra.
Qed.

(** The entropy is at most that of the uniform distribution on the
    distinct characters. *)
Lemma shannon_le_log2 (text : string) :
  text <> "" -> shannon text <= log2 (INR (List.length (alphabet text))).
Proof.
  intros Hne. unfold shannon, log2.
  set (ps := map (frequency text) (alphabet text)).
  set (N := INR (List.length (alphabet text))).
  assert (HN : 0 < N) by (apply lt_0_INR; now apply alphabet_nonempty).
  assert (Hps : Forall (fun p => 0 < p) ps).
  { apply Forall_forall. intros p Hp. apply in_map_iff in Hp.
    destruct Hp as [c [<- Hc]]. now apply frequency_range. }
  pose proof (gibbs_sum ps N HN Hps) as Hg.
  assert (Hlen : INR (List.length ps) = N)
    by (unfold ps, N; now rewrite length_map).
  assert (Hone : sum_R ps = 1) by (now apply frequency_total).
  rewrite Hlen, Hone in Hg.
  assert (HNN : N / N = 1) by (field; lra). rewrite HNN in Hg.
  assert (E : sum_R (map (fun c => plogp (frequency text c)) (alphabet text))
              = sum_R (map (fun p => p * ln p) ps) / ln 2).
  { unfold ps. rewrite map_map. generalize (alphabet text). intros l.
    induction l as [|c l IHl]; simpl.
    - unfold Rdiv. ring.
    - rewrite IHl. unfold plogp, log2, Rdiv. ring. }
  rewrite E. pose proof ln_2_pos as H2.
  apply Rmult_le_reg_r with (r := ln 2); [exact H2 |].
  unfold Rdiv. rewrite Rmult_assoc, Rinv_l by lra.
  replace (- (sum_R (map (fun p => p * ln p) ps) * / ln 2) * ln 2)
    with (- sum_R (map (fun p => p * ln p) ps)) by (field; lra).
  lra.
Qed.

End EntropyFacts.

(** ** Properties of the feature extractor *)

Module ExtractorClaims.

Import Py Extractor EntropyFacts PyFacts.
Local Open Scope nat_scope.
Local Open Scope string_scope.

(** [keyword] occurs in [url] when letter case is ignored: some substring
    of [url] lower-cases to it. *)
Definition occurs_ignoring_case (keyword url : string) : Prop :=
  exists pre mid post, url = pre ++ mid ++ post /\ lower mid = keyword.

Lemma suspicious_keywords_nodup : NoDup suspicious_keywords.
Proof. repeat constructor; simpl; intuition discriminate. Qed.

(** C8: the keyword feature is the number of keywords of the twenty-keyword
    list that occur in the URL when letter case is ignored; the list has no
    repetition, so every keyword counts once however often it occurs; the
    count for "http://secure-login-verify.com" is 3. *)
Theorem suspicious_keyword_count_spec (url : string) :
  List.length suspicious_keywords = 20 /\
  NoDup suspicious_keywords /\
  (exists hits,
     NoDup hits /\
     (forall keyword, In keyword hits <->
        In keyword suspicious_keywords /\ occurs_ignoring_case keyword url) /\
     suspicious_keyword_count url = List.length hits) /\
  suspicious_keyword_count url <= 20 /\
  nth 6 (_extract_lexical_features url) 0%R = INR (suspicious_keyword_count url) /\
  suspicious_keyword_count "http://secure-login-verify.com" = 3 /\
  suspicious_keyword_count "http://LOGIN.login.example/login" = 1.
Proof.
  split; [reflexivity |]. split; [exact suspicious_keywords_nodup |].
  split; [| split; [| repeat split; reflexivity]].
  - exists (filter (fun keyword => contains keyword (lower url)) suspicious_keywords).
    split; [apply NoDup_filter, suspicious_keywords_nodup |].
    split; [| reflexivity].
    intros keyword. rewrite filter_In. unfold occurs_ignoring_case.
    now rewrite contains_lower_spec.
  - unfold suspicious_keyword_count.
    apply (count_where_le (fun keyword => contains keyword (lower url))
             suspicious_keywords).
Qed.

Local Open Scope R_scope.

(** C4: the entropy of the empty string is 0; on a non-empty string the
    code computes minus the sum of p log2 p over the character frequencies;
    "aaaa" gives 0 and "ab" gives 1; the value is never negative and, on a
    non-empty string, at most log2 of the number of distinct characters. *)
Theorem shannon_entropy_spec :
  _calculate_shannon_entropy "" = 0 /\
  (forall text, text <> "" -> _calculate_shannon_entropy text = shannon text) /\
  _calculate_shannon_entropy "aaaa" = 0 /\
  _calculate_shannon_entropy "ab" = 1 /\
  (forall text, 0 <= _calculate_shannon_entropy text) /\
  (forall text, text <> "" ->
     _calculate_shannon_entropy text <= log2 (INR (List.length (alphabet text)))).
Proof.
  split; [exact entropy_empty |].
  split; [exact entropy_shannon |].
  split; [| split; [| split]].
  - rewrite entropy_shannon by discriminate. unfold shannon.
    change (alphabet "aaaa") with ["a"%char]. cbn [map sum_R].
    unfold frequency.
    change (count_char "a" "aaaa") with 4%nat.
    change (String.length "aaaa") with 4%nat.
    replace (INR 4 / INR 4) with 1 by (simpl; field).
    unfold plogp. rewrite log2_1. ring.
  - rewrite entropy_shannon by discriminate. unfold shannon.
    change (alphabet "ab") with ["a"%char; "b"%char]. cbn [map sum_R].
    unfold frequency.
    change (count_char "a" "ab") with 1%nat.
    change (count_char "b" "ab") with 1%nat.
    change (String.length "ab") with 2%nat.
    replace (INR 1 / INR 2) with (/ 2) by (simpl; field).
    unfold plogp. rewrite log2_half. field.
  - intros text. destruct (string_dec text "") as [-> | Hne].
    + rewrite entropy_empty. lra.
    + rewrite entropy_shannon by exact Hne. apply shannon_nonneg.
  - intros text Hne. rewrite entropy_shannon by exact Hne.
    now apply shannon_le_log2.
Qed.

(** *** The feature vector and its domain block *)

Section FailSoft.

Variable urlparse : string -> result ParseResult.
Variable tld_extract : string -> result ExtractResult.

Let extract_features := extract_features urlparse tld_extract.
Let _extract_domain_features := _extract_domain_features urlparse tld_extract.

Lemma domain_features_returns url :
  exists block, _extract_domain_features url = Ok block /\ List.length block = 7%nat.
Proof.
  unfold _extract_domain_features, Extractor._extract_domain_features,
    domain_features_body, try_except.
  destruct (urlparse url) as [parsed|]; cbn [bind]; [| eauto].
  destruct (tld_extract url) as [extracted|]; cbn [bind]; eauto.
Qed.

(** The extractor never raises; the vector has one entry per feature name,
    and its last seven entries are what [_extract_domain_features] returned. *)
Lemma extract_features_returns url :
  exists features block,
    extract_features url = Ok features /\
    _extract_domain_features url = Ok block /\
    List.length features = 20%nat /\
    List.length features = List.length feature_names /\
    domain_block features = block.
Proof.
  destruct (domain_features_returns url) as [block [Hb Hlen]].
  unfold extract_features, Extractor.extract_features.
  fold _extract_domain_features. rewrite Hb. cbn [bind].
  eexists. exists block. split; [reflexivity |]. split; [reflexivity |].
  cbn [app _extract_lexical_features _extract_statistical_features List.length].
  rewrite Hlen. repeat split.
Qed.

(** When both parsers return, the third entry of the block is the TLD
    category of the dotted suffix; with an empty suffix that is 1. *)
Lemma domain_features_parsed url parsed extracted :
  urlparse url = Ok parsed -> tld_extract url = Ok extracted ->
  exists block,
    _extract_domain_features url = Ok block /\
    nth 2 block 0 = INR (tld_category_of ("." ++ suffix extracted)).
Proof.
  intros Hp He.
  unfold _extract_domain_features, Extractor._extract_domain_features,
    domain_features_body, try_except.
  rewrite Hp. cbn [bind]. rewrite He. cbn [bind].
  eexists. split; reflexivity.
Qed.

(** So a URL without a host that both parsers accept never yields the
    zero block. *)
Lemma domain_features_no_suffix url parsed extracted :
  urlparse url = Ok parsed -> tld_extract url = Ok extracted ->
  suffix extracted = "" ->
  exists block,
    _extract_domain_features url = Ok block /\ nth 2 block 0 = 1.
Proof.
  intros Hp He Hs.
  destruct (domain_features_parsed url parsed extracted Hp He) as [block [Hb Hn]].
  exists block. split; [exact Hb |]. rewrite Hn, Hs. reflexivity.
Qed.

End FailSoft.

(** C3, as the code has it: when [urlparse] or [tldextract.extract] raises,
    [extract_features] does not raise and returns a vector of 20 entries
    whose seven domain entries are zero. *)
Theorem extract_features_parse_failure
  (urlparse : string -> result ParseResult)
  (tld_extract : string -> result ExtractResult) (url : string) :
  (exists e, urlparse url = Raise e) \/ (exists e, tld_extract url = Raise e) ->
  exists features,
    extract_features urlparse tld_extract url = Ok features /\
    List.length features = 20%nat /\
    domain_block features = [0; 0; 0; 0; 0; 0; 0].
Proof.
  intros Hfail.
  assert (Hblock : _extract_domain_features urlparse tld_extract url
                   = Ok [0; 0; 0; 0; 0; 0; 0]).
  { unfold _extract_domain_features, domain_features_body, try_except.
    destruct Hfail as [[e He] | [e He]].
    - now rewrite He.
    - rewrite He. destruct (urlparse url); reflexivity. }
  destruct (extract_features_returns urlparse tld_extract url)
    as [features [block [Hf [Hb [Hlen [_ Hdom]]]]]].
  rewrite Hblock in Hb. injection Hb as <-.
  exists features. auto.
Qed.

(** [urlparse] rejects an unbalanced bracket in the host with
    [ValueError("Invalid IPv6 URL")]. *)
Definition urlparse_invalid_ipv6 : string -> result ParseResult :=
  fun _ => Raise "Invalid IPv6 URL".

Definition extract_none : string -> result ExtractResult :=
  fun _ => Ok {| subdomain := ""; domain := ""; suffix := "" |}.

Lemma extract_features_parse_failure_witness :
  exists features,
    extract_features urlparse_invalid_ipv6 extract_none "http://[::1" = Ok features /\
    List.length features = 20%nat /\
    domain_block features = [0; 0; 0; 0; 0; 0; 0].
Proof.
  apply extract_features_parse_failure.
  left. exists "Invalid IPv6 URL". reflexivity.
Defined.

(** What the two parsers return on "???": [urlparse] splits at the first
    question mark, leaving an empty path and the query "??";
    [tldextract.extract] finds no host and returns three empty strings.
    Neither raises. *)
Definition urlparse_question_marks : string -> result ParseResult :=
  fun _ => Ok {| scheme := ""; netloc := ""; path := ""; params := "";
                 query := "??"; fragment := "" |}.

(** C3, counterexample: "???" parses, so the [except] branch is not taken;
    the domain block holds TLD category 1 (neutral, for the empty suffix)
    and query length 2, and is not the zero block. *)
Lemma question_marks_domain_block :
  exists features,
    extract_features urlparse_question_marks extract_none "???" = Ok features /\
    List.length features = 20%nat /\
    domain_block features = [0; 0; 1; 0; 0; 0; 2] /\
    domain_block features <> [0; 0; 0; 0; 0; 0; 0].
Proof.
  eexists. split; [reflexivity |]. split; [reflexivity |].
  assert (E : domain_block
                ([] ++ _extract_lexical_features "???"
                    ++ _extract_statistical_features "???"
                    ++ [INR 0; INR 0; INR 1; INR 0;
                        _calculate_shannon_entropy ""; INR 0; INR 2])%list
              = [0; 0; 1; 0; 0; 0; 2]).
  { unfold domain_block. cbn [app skipn _extract_lexical_features
                                _extract_statistical_features].
    rewrite entropy_empty. simpl. repeat f_equal; lra. }
  split.
  - exact E.
  - change (domain_block _) with
      (domain_block
         ([] ++ _extract_lexical_features "???"
             ++ _extract_statistical_features "???"
             ++ [INR 0; INR 0; INR 1; INR 0;
                 _calculate_shannon_entropy ""; INR 0; INR 2])%list).
    rewrite E. intros H. injection H as H1 H2. lra.
Qed.

End ExtractorClaims.

(** ** The domain-age indicator *)

Module MlEngineClaims.

Import Py MlEngine.
Local Open Scope string_scope.
Local Open Scope R_scope.

(** The domain contains a well-known name (read in lower case, as domain
    names are). *)
Definition names_brand (domain : string) : Prop :=
  exists known, In known well_known /\ contains known (lower domain) = true.

(** The URL contains one of the tokens 2020 to 2024. *)
Definition has_year_token (url : string) : Prop :=
  exists year, In year year_tokens /\ contains year url = true.

Lemma names_brand_any domain :
  any (fun known => contains known (lower domain)) well_known = true <->
  names_brand domain.
Proof. unfold any, names_brand. apply existsb_exists. Qed.

Lemma has_year_token_any url :
  any (fun year => contains year url) year_tokens = true <-> has_year_token url.
Proof. unfold any, has_year_token. apply existsb_exists. Qed.

(** C9: the domain-age indicator follows the first rule that applies, in
    this order: a well-known name in the domain gives 1.0; else a year token
    2020 to 2024 in the URL gives 0.2; else a domain of at most 4 characters
    gives 0.3; else a domain entropy above 4.0 gives 0.25; else 0.5. *)
Theorem estimate_domain_age_precedence (domain url : string) :
  year_tokens = ["2020"; "2021"; "2022"; "2023"; "2024"] /\
  (names_brand domain -> _estimate_domain_age domain url = 1.0) /\
  (~ names_brand domain -> has_year_token url ->
   _estimate_domain_age domain url = 0.2) /\
  (~ names_brand domain -> ~ has_year_token url ->
   (String.length domain <= 4)%nat ->
   _estimate_domain_age domain url = 0.3) /\
  (~ names_brand domain -> ~ has_year_token url ->
   (4 < String.length domain)%nat ->
   4.0 < _calculate_shannon_entropy domain ->
   _estimate_domain_age domain url = 0.25) /\
  (~ names_brand domain -> ~ has_year_token url ->
   (4 < String.length domain)%nat ->
   _calculate_shannon_entropy domain <= 4.0 ->
   _estimate_domain_age domain url = 0.5).
Proof.
  split; [reflexivity |].
  unfold _estimate_domain_age.
  destruct (any (fun known => contains known (lower domain)) well_known) eqn:Hb.
  - apply names_brand_any in Hb. repeat split; intros; try reflexivity; tauto.
  - assert (Hnb : ~ names_brand domain)
      by (rewrite <- names_brand_any, Hb; discriminate).
    destruct (any (fun year => contains year url) year_tokens) eqn:Hy.
    + apply has_year_token_any in Hy.
      repeat split; intros; try reflexivity; tauto.
    + assert (Hny : ~ has_year_token url)
        by (rewrite <- has_year_token_any, Hy; discriminate).
      destruct (Nat.leb_spec (String.length domain) 4) as [Hl | Hl].
      * repeat split; intros; try reflexivity; try tauto; lia.
      * destruct (Rlt_dec 4.0 (_calculate_shannon_entropy domain)) as [He | He];
          repeat split; intros; try reflexivity; try tauto; try lia; lra.
Qed.

End MlEngineClaims.

(** * Further coverage

    The remaining functions of the cited files: the extended (24-feature)
    extractor of [ml_engine/advanced_feature_extractor.py], the basic
    extractor of [backend/app/features.py] that [PhishingPredictor] feeds
    to its model, and the explanation layer of [backend/app/main.py]. *)

(** ** [ml_engine/advanced_feature_extractor.py]: the reputation estimators
    and the 24-feature vector *)

Module MlEngineFull.

Import Py.
Local Open Scope string_scope.
Local Open Scope R_scope.

(** The file's [suspicious_tlds] and [trusted_tlds] are those of the
    backend extractor. *)
Definition suspicious_tlds : list string := Extractor.suspicious_tlds.
Definition trusted_tlds : list string := Extractor.trusted_tlds.

Definition feature_names : list string :=
  ["url_length"; "num_dots"; "num_slashes"; "num_hyphens"; "num_digits";
   "has_ip_address"; "suspicious_keyword_count"; "uses_https";
   "shannon_entropy"; "vowel_consonant_ratio"; "digit_letter_ratio";
   "special_char_ratio"; "url_randomness_score";
   "domain_length"; "num_subdomains"; "tld_category"; "domain_has_digits";
   "domain_entropy"; "path_length"; "query_length";
   "domain_age_indicator"; "registrar_reputation";
   "nameserver_count_estimate"; "ttl_indicator"].

(** [tld in self.trusted_tlds] *)
Definition is_trusted (tld : string) : bool :=
  existsb (String.eqb tld) trusted_tlds.

(** [any(tld.endswith(sus) for sus in self.suspicious_tlds)] *)
Definition is_suspicious (tld : string) : bool :=
  any (fun sus => endswith tld sus) suspicious_tlds.

(** [x > 4.0] on the entropy. *)
Definition entropy_above_4 (text : string) : bool :=
  if Rlt_dec 4.0 (MlEngine._calculate_shannon_entropy text) then true else false.

(** [_estimate_registrar_reputation(tld)] *)
Definition _estimate_registrar_reputation (tld : string) : nat :=
  if is_trusted tld then 2%nat
  else if is_suspicious tld then 0%nat
  else 1%nat.

(** [_estimate_nameserver_count(tld, domain)] *)
Definition _estimate_nameserver_count (tld domain : string) : nat :=
  if is_trusted tld && (5 <? String.length domain)%nat then 3%nat
  else if is_suspicious tld then 1%nat
  else if (String.length domain <=? 4)%nat || entropy_above_4 domain then 1%nat
  else 2%nat.

(** [_estimate_ttl(tld, domain)] *)
Definition _estimate_ttl (tld domain : string) : nat :=
  if is_trusted tld && (6 <? String.length domain)%nat then 2%nat
  else if is_suspicious tld then 0%nat
  else if entropy_above_4 domain then 0%nat
  else 1%nat.

Section Parsers.

Variable urlparse : string -> result ParseResult.
Variable tld_extract : string -> result Extractor.ExtractResult.

(** The body of the [try] of the 11-entry [_extract_domain_features]. *)
Definition domain_features_body (url : string) : result (list R) :=
  parsed <- urlparse url ;;
  extracted <- tld_extract url ;;
  let domain := Extractor.domain extracted in
  let subdomain := Extractor.subdomain extracted in
  let tld := "." ++ Extractor.suffix extracted in
  let num_subdomains :=
    if negb (String.eqb subdomain "")
    then List.length (Extractor.split "." subdomain) else 0%nat in
  let tld_category :=
    if is_trusted tld then 0%nat
    else if is_suspicious tld then 2%nat
    else 1%nat in
  let domain_has_digits := if any_char isdigit domain then 1%nat else 0%nat in
  let path_length :=
    if negb (String.eqb (path parsed) "") then String.length (path parsed) else 0%nat in
  let query_length :=
    if negb (String.eqb (query parsed) "") then String.length (query parsed) else 0%nat in
  let age_score := MlEngine._estimate_domain_age domain url in
  let registrar_score := _estimate_registrar_reputation tld in
  let ns_count := _estimate_nameserver_count tld domain in
  let ttl_score := _estimate_ttl tld domain in
  Ok [INR (String.length domain);
      INR num_subdomains;
      INR tld_category;
      INR domain_has_digits;
      MlEngine._calculate_shannon_entropy domain;
      INR path_length;
      INR query_length;
      age_score;
      INR registrar_score;
      INR ns_count;
      INR ttl_score].

(** [_extract_domain_features(url)]: on an exception, [[0] * 11]. *)
Definition _extract_domain_features (url : string) : result (list R) :=
  try_except (domain_features_body url) (fun _ => Ok (repeat 0 11)).

(** [extract_features(url)]: the lexical and statistical blocks are those
    of the backend file, line for line. *)
Definition extract_features (url : string) : result (list R) :=
  let features : list R := [] in
  let features := (features ++ Extractor._extract_lexical_features url)%list in
  let features := (features ++ Extractor._extract_statistical_features url)%list in
  domain_features <- _extract_domain_features url ;;
  let features := (features ++ domain_features)%list in
  Ok features.

End Parsers.

End MlEngineFull.

(** ** [backend/app/features.py]: the basic extractor *)

Module Features.

Import Py.
Local Open Scope string_scope.
Local Open Scope R_scope.

Definition feature_names : list string :=
  ["url_length"; "num_dots"; "num_hyphens"; "num_underscores"; "num_slashes";
   "num_questionmarks"; "num_equals"; "num_at"; "num_ampersand"; "num_digits";
   "num_special_chars"; "has_ip"; "has_https"; "domain_length";
   "subdomain_length"; "path_length"; "num_subdomains"; "hostname_length";
   "num_params"; "entropy"].

(** *** The octet pattern
    [([0-9]|[1-9][0-9]|1[0-9]{2}|2[0-4][0-9]|25[0-5])] *)

(** A character class [[lo-hi]]. *)
Definition in_range (lo hi c : ascii) : bool :=
  ((code lo <=? code c) && (code c <=? code hi))%nat.

(** One octet followed by whatever [k] accepts; the five alternatives are
    tried in turn, as [re] does when a later part of the pattern fails. *)
Definition octet (k : string -> bool) (s : string) : bool :=
  match s with
  | String a s1 =>
      (isdigit a && k s1)
      || match s1 with
         | String b s2 =>
             (in_range "1" "9" a && isdigit b && k s2)
             || match s2 with
                | String c s3 =>
                    (Ascii.eqb a "1" && isdigit b && isdigit c && k s3)
                    || (Ascii.eqb a "2" && in_range "0" "4" b && isdigit c && k s3)
                    || (Ascii.eqb a "2" && Ascii.eqb b "5" && in_range "0" "5" c && k s3)
                | EmptyString => false
                end
         | EmptyString => false
         end
  | EmptyString => false
  end.

(** [(octet\.){3}octet] matched at the head of [s]. *)
Definition ip_here (s : string) : bool :=
  octet (dot_then (octet (dot_then (octet (dot_then (octet (fun _ => true))))))) s.

(** [re.search(ip_pattern, url)] as a truth value. *)
Fixpoint search_ip (s : string) : bool :=
  match s with
  | EmptyString => false
  | String _ s' => ip_here s || search_ip s'
  end.

(** *** Lists of labels *)

(** [sep.join(parts)] *)
Fixpoint join (sep : string) (parts : list string) : string :=
  match parts with
  | [] => EmptyString
  | [p] => p
  | p :: rest => p ++ sep ++ join sep rest
  end.

(** [parts[-2:]] and [parts[:-2]] *)
Definition last_two {A : Type} (parts : list A) : list A :=
  skipn (List.length parts - 2) parts.
Definition drop_last_two {A : Type} (parts : list A) : list A :=
  firstn (List.length parts - 2) parts.

(** *** [_calculate_entropy] *)

(** [d.get(c, default)] and [d[c] = v] on a dictionary keyed by characters;
    a new key goes last. *)
Fixpoint dict_get (d : list (ascii * nat)) (c : ascii) (default : nat) : nat :=
  match d with
  | [] => default
  | (k, v) :: rest => if Ascii.eqb k c then v else dict_get rest c default
  end.

Fixpoint dict_set (d : list (ascii * nat)) (c : ascii) (v : nat)
  : list (ascii * nat) :=
  match d with
  | [] => [(c, v)]
  | (k, v') :: rest =>
      if Ascii.eqb k c then (k, v) :: rest else (k, v') :: dict_set rest c v
  end.

(** [for char in text: frequencies[char] = frequencies.get(char, 0) + 1] *)
Fixpoint count_loop (frequencies : list (ascii * nat)) (text : string)
  : list (ascii * nat) :=
  match text with
  | EmptyString => frequencies
  | String char rest =>
      count_loop (dict_set frequencies char (dict_get frequencies char 0 + 1)%nat) rest
  end.

(** [_calculate_entropy(text)] *)
Definition _calculate_entropy (text : string) : R :=
  if String.eqb text "" then 0
  else
    let frequencies := count_loop [] text in
    let text_len := String.length text in
    fold_left
      (fun entropy count =>
         let probability := INR count / INR text_len in
         entropy - probability * Extractor.log2 probability)
      (map snd frequencies) 0.

(** *** [extract_features] *)

(** The six entries computed from the parsed URL. *)
Definition parsed_features (parsed : ParseResult) : list R :=
  let hostname := netloc parsed in
  let parts := Extractor.split "." hostname in
  let domain :=
    if (2 <=? List.length parts)%nat then join "." (last_two parts) else hostname in
  let subdomain :=
    if (2 <? List.length parts)%nat then join "." (drop_last_two parts) else "" in
  let path := path parsed in
  let num_subdomains :=
    if (2 <? List.length parts)%nat then (List.length parts - 2)%nat else 0%nat in
  let query := query parsed in
  let num_params :=
    if negb (String.eqb query "")
    then List.length (Extractor.split "&" query) else 0%nat in
  [INR (String.length domain);
   INR (String.length subdomain);
   INR (String.length path);
   INR num_subdomains;
   INR (String.length hostname);
   INR num_params].

Section Parser.

Variable urlparse : string -> result ParseResult.

(** The [try] block; [urlparse] is its first statement and the only one
    that can raise, so the [except] branch extends the thirteen entries
    gathered before it. *)
Definition parsed_block (url : string) : result (list R) :=
  try_except
    (parsed <- urlparse url ;; Ok (parsed_features parsed))
    (fun _ => Ok [0; 0; 0; 0; 0; 0]).

(** [extract_features(url)] *)
Definition extract_features (url : string) : result (list R) :=
  let features : list R :=
    [INR (String.length url);
     INR (count_char "." url);
     INR (count_char "-" url);
     INR (count_char "_" url);
     INR (count_char "/" url);
     INR (count_char "?" url);
     INR (count_char "=" url);
     INR (count_char "@" url);
     INR (count_char "&" url);
     INR (count_if isdigit url)] in
  let special_chars := count_if (fun c => negb (isalnum c)) url in
  let features := (features ++ [INR special_chars])%list in
  let has_ip := if search_ip url then 1%nat else 0%nat in
  let features := (features ++ [INR has_ip])%list in
  let features :=
    (features ++ [INR (if startswith url "https://" then 1 else 0)])%list in
  block <- parsed_block url ;;
  let features := (features ++ block)%list in
  let entropy := _calculate_entropy url in
  let features := (features ++ [entropy])%list in
  Ok features.

End Parser.

End Features.

(** ** [backend/app/advanced_feature_extractor.py]: the named mapping *)

Module ExtractorApi.

Import Py.
Local Open Scope string_scope.
Local Open Scope R_scope.

(** A feature dictionary: name to value, in insertion order. *)
Definition feature_dict : Type := list (string * R).

(** [d.get(k, default)] *)
Fixpoint get_default (d : feature_dict) (k : string) (default : R) : R :=
  match d with
  | [] => default
  | (k', v) :: rest => if String.eqb k' k then v else get_default rest k default
  end.

(** [d[k]], a [KeyError] when [k] is missing. *)
Fixpoint getitem (d : feature_dict) (k : string) : result R :=
  match d with
  | [] => Raise "KeyError"
  | (k', v) :: rest => if String.eqb k' k then Ok v else getitem rest k
  end.

(** [d[k] = v]: an existing key keeps its place, a new one goes last. *)
Fixpoint setitem (d : feature_dict) (k : string) (v : R) : feature_dict :=
  match d with
  | [] => [(k, v)]
  | (k', v') :: rest =>
      if String.eqb k' k then (k', v) :: rest else (k', v') :: setitem rest k v
  end.

(** [dict(zip(names, values))]: the pairs are inserted left to right, up to
    the shorter of the two sequences. *)
Fixpoint dict_zip_from (d : feature_dict) (names : list string) (values : list R)
  : feature_dict :=
  match names, values with
  | name :: names', v :: values' => dict_zip_from (setitem d name v) names' values'
  | _, _ => d
  end.

Definition dict_zip (names : list string) (values : list R) : feature_dict :=
  dict_zip_from [] names values.

Definition get_feature_names : list string := Extractor.feature_names.

Section Parsers.

Variable urlparse : string -> result ParseResult.
Variable tld_extract : string -> result Extractor.ExtractResult.

(** [extract_features_dict(url)] *)
Definition extract_features_dict (url : string) : result feature_dict :=
  features <- Extractor.extract_features urlparse tld_extract url ;;
  Ok (dict_zip Extractor.feature_names features).

End Parsers.

End ExtractorApi.

(** ** [backend/app/main.py]: indicators and explanation *)

Module Explain.

Import Py ExtractorApi.
Local Open Scope string_scope.
Local Open Scope R_scope.

(** The [value] entry of an indicator: a text, an [int(...)] or a
    [round(..., 2)]. *)
Inductive shown : Type :=
| Text (s : string)
| Whole (z : Z)
| Rounded (r : R).

(** One indicator dictionary; its four keys are always the same. *)
Record indicator : Type := {
  feature : string;
  value : shown;
  severity : string;
  description : string
}.

(** [int(x)] on a float: truncation toward zero. *)
Definition py_int (x : R) : Z :=
  if Rle_dec 0 x then Int_part x else (- Int_part (- x))%Z.

(** [x == y], [x >= y] and [x > y] on floats. *)
Definition eqf (x y : R) : bool := if Req_dec_T x y then true else false.
Definition gef (x y : R) : bool := if Rge_dec x y then true else false.
Definition gtf (x y : R) : bool := if Rgt_dec x y then true else false.

(** [v == "text"] for a value [v]: only an equal string compares equal. *)
Definition is_text (v : Py.value) (text : string) : bool :=
  match v with
  | VStr s => String.eqb s text
  | _ => false
  end.

(** [indicators.append(item)] when the test holds. *)
Definition append_if {A : Type} (test : bool) (item : A) (l : list A) : list A :=
  if test then (l ++ [item])%list else l.

(** The same, for an item whose construction can raise. *)
Definition append_if_ok {A : Type} (test : bool) (item : result A) (l : list A)
  : result (list A) :=
  if test then (x <- item ;; Ok (l ++ [x])%list) else Ok l.

Section Collaborators.

(** [round(x, 2)] on a float, [f"{x:.1f}"] and [str] of an [int]. *)
Variable round2 : R -> R.
Variable format_1f : Q -> string.
Variable str_int : Z -> string.

(** [_get_top_indicators(features, prediction)] *)
Definition _get_top_indicators (features : feature_dict) (prediction : Py.value)
  : result (list indicator) :=
  let indicators : list indicator := [] in
  if is_text prediction "phishing" then
      let indicators :=
        append_if (eqf (get_default features "has_ip_address" 0) 1)
          {| feature := "IP Address in URL"; value := Text "Present";
             severity := "high";
             description := "URLs with IP addresses are often used in phishing attacks" |}
          indicators in
      indicators <-
        append_if_ok (gef (get_default features "suspicious_keyword_count" 0) 2)
          (count <- getitem features "suspicious_keyword_count" ;;
           Ok {| feature := "Suspicious Keywords"; value := Whole (py_int count);
                 severity := "high";
                 description := "Multiple suspicious keywords detected (login, verify, secure, etc.)" |})
          indicators ;;
      let indicators :=
        append_if (eqf (get_default features "uses_https" 0) 0)
          {| feature := "No HTTPS"; value := Text "HTTP only";
             severity := "medium";
             description := "Legitimate sites typically use HTTPS for security" |}
          indicators in
      indicators <-
        append_if_ok (gtf (get_default features "url_length" 0) 75)
          (len <- getitem features "url_length" ;;
           Ok {| feature := "Long URL"; value := Whole (py_int len);
                 severity := "medium";
                 description := "Unusually long URLs are common in phishing attempts" |})
          indicators ;;
      indicators <-
        append_if_ok (gtf (get_default features "shannon_entropy" 0) 4.5)
          (entropy <- getitem features "shannon_entropy" ;;
           Ok {| feature := "High Entropy"; value := Rounded (round2 entropy);
                 severity := "medium";
                 description := "Random-looking URL structure suggests obfuscation" |})
          indicators ;;
      Ok (firstn 5 indicators)
  else
      let indicators :=
        append_if (eqf (get_default features "uses_https" 0) 1)
          {| feature := "HTTPS Enabled"; value := Text "Secure";
             severity := "positive";
             description := "Site uses secure HTTPS protocol" |}
          indicators in
      let indicators :=
        append_if (eqf (get_default features "tld_category" 0) 0)
          {| feature := "Trusted TLD"; value := Text "Verified";
             severity := "positive";
             description := "Uses trusted top-level domain (.com, .org, .net)" |}
          indicators in
      let indicators :=
        append_if (eqf (get_default features "suspicious_keyword_count" 0) 0)
          {| feature := "No Suspicious Keywords"; value := Text "Clean";
             severity := "positive";
             description := "URL does not contain common phishing keywords" |}
          indicators in
      Ok (firstn 5 indicators).

(** [d[k]] on a prediction dictionary. *)
Definition result_item (d : Py.dict) (k : string) : result Py.value :=
  match Py.get d k with
  | Some v => Ok v
  | None => Raise "KeyError"
  end.

(** [f"{confidence*100:.1f}"] *)
Definition percent (confidence : Py.value) : result string :=
  match confidence with
  | VFloat q => Ok (format_1f (q * 100)%Q)
  | VInt z => Ok (format_1f (inject_Z z * 100)%Q)
  | VBool b => Ok (format_1f (if b then 100 else 0)%Q)
  | _ => Raise "TypeError"
  end.

(** [", ".join(reasons)] *)
Definition join_reasons (reasons : list string) : string :=
  Features.join ", " reasons.

(** [_generate_explanation(features, prediction_result)] *)
Definition _generate_explanation (features : feature_dict)
  (prediction_result : Py.dict) : result string :=
  prediction <- result_item prediction_result "prediction" ;;
  confidence <- result_item prediction_result "confidence" ;;
  if is_text prediction "phishing" then
      pct <- percent confidence ;;
      let explanation :=
        "This URL is classified as PHISHING with " ++ pct ++ "% confidence. " in
      let explanation := explanation ++ "Suspicious indicators include: " in
      let reasons : list string := [] in
      let reasons :=
        append_if (eqf (get_default features "has_ip_address" 0) 1)
          "IP address in URL" reasons in
      reasons <-
        append_if_ok (gef (get_default features "suspicious_keyword_count" 0) 2)
          (count <- getitem features "suspicious_keyword_count" ;;
           Ok (str_int (py_int count) ++ " suspicious keywords"))
          reasons ;;
      let reasons :=
        append_if (eqf (get_default features "uses_https" 0) 0)
          "no HTTPS encryption" reasons in
      let reasons :=
        append_if (gef (get_default features "num_hyphens" 0) 3)
          "excessive hyphens" reasons in
      Ok (explanation ++ join_reasons reasons ++ ".")
  else
      pct <- percent confidence ;;
      let explanation :=
        "This URL appears LEGITIMATE with " ++ pct ++ "% confidence. " in
      let explanation := explanation ++ "Positive indicators include: " in
      let reasons : list string := [] in
      let reasons :=
        append_if (eqf (get_default features "uses_https" 0) 1)
          "HTTPS encryption" reasons in
      let reasons :=
        append_if (eqf (get_default features "tld_category" 0) 0)
          "trusted domain" reasons in
      let reasons :=
        append_if (eqf (get_default features "suspicious_keyword_count" 0) 0)
          "no suspicious keywords" reasons in
      Ok (explanation ++ join_reasons reasons ++ ".").

(** The values of the dictionary [explain] returns. *)
Inductive entry : Type :=
| Plain (v : Py.value)
| FeatureMap (f : feature_dict)
| Indicators (l : list indicator).

Variable ndarray : Type.
Variable model_features : Py.value -> result ndarray.
Variable the_model : Enhanced.model ndarray.
Variable timestamp : string.
Variable urlparse : string -> result ParseResult.
Variable tld_extract : string -> result Extractor.ExtractResult.

(** [self.predict(url)] *)
Definition predict (url : Py.value) : result Py.dict :=
  Enhanced.predict ndarray model_features the_model timestamp url.

(** [self.feature_extractor.extract_features_dict(url)]; [len(url)] is a
    [TypeError] when [url] is not a string. *)
Definition features_of (url : Py.value) : result feature_dict :=
  match url with
  | VStr u => extract_features_dict urlparse tld_extract u
  | _ => Raise "TypeError"
  end.

(** The body of [explain]'s [try]. *)
Definition explain_body (url : Py.value) : result (list (string * entry)) :=
  prediction_result <- predict url ;;
  features_dict <- features_of url ;;
  prediction <- result_item prediction_result "prediction" ;;
  top_indicators <- _get_top_indicators features_dict prediction ;;
  explanation <- _generate_explanation features_dict prediction_result ;;
  prediction' <- result_item prediction_result "prediction" ;;
  confidence <- result_item prediction_result "confidence" ;;
  Ok [("url", Plain url);
      ("prediction", Plain prediction');
      ("confidence", Plain confidence);
      ("features", FeatureMap features_dict);
      ("top_indicators", Indicators top_indicators);
      ("explanation", Plain (VStr explanation))].

Definition explain_handler (url : Py.value) (e : string)
  : result (list (string * entry)) :=
  Ok [("url", Plain url);
      ("prediction", Plain (VStr "error"));
      ("confidence", Plain (VFloat 0.0));
      ("features", FeatureMap []);
      ("top_indicators", Indicators []);
      ("explanation", Plain (VStr ("Error: " ++ e)))].

(** [EnhancedPredictor.explain(url)] *)
Definition explain (url : Py.value) : result (list (string * entry)) :=
  try_except (explain_body url) (explain_handler url).

End Collaborators.

End Explain.

(** ** Entropy and the size of the alphabet *)

Module EntropyBounds.

Import Py Extractor EntropyFacts.
Local Open Scope nat_scope.
Local Open Scope string_scope.

Lemma chars_length (text : string) : List.length (chars text) = String.length text.
Proof. induction text as [|c text IH]; simpl; [reflexivity | now rewrite IH]. Qed.

Lemma alphabet_le_length (text : string) :
  List.length (alphabet text) <= String.length text.
Proof.
  rewrite <- chars_length. apply NoDup_incl_length.
  - apply NoDup_nodup.
  - intros c Hc. unfold alphabet in Hc. now rewrite nodup_In in Hc.
Qed.

Local Open Scope R_scope.

Lemma log2_16 : log2 16 = 4.
Proof.
  unfold log2. replace 16 with (2 ^ 4) by (simpl; ring).
  rewrite ln_pow by lra. pose proof ln_2_pos. simpl. field. lra.
Qed.

(** An entropy above 4 bits needs more than 16 distinct characters. *)
Lemma entropy_above_4_alphabet (text : string) :
  4 < _calculate_shannon_entropy text -> (16 < List.length (alphabet text))%nat.
Proof.
  intros H.
  destruct (string_dec text "") as [-> | Hne];
    [rewrite entropy_empty in H; lra |].
  rewrite entropy_shannon in H by exact Hne.
  pose proof (shannon_le_log2 text Hne) as Hle.
  set (N := INR (List.length (alphabet text))) in *.
  assert (HN : 0 < N) by (apply lt_0_INR; now apply alphabet_nonempty).
  assert (Hlog : log2 16 < log2 N) by (rewrite log2_16; lra).
  unfold log2 in Hlog. pose proof ln_2_pos as H2.
  assert (Hln : ln 16 < ln N).
  { apply Rmult_lt_reg_r with (r := / ln 2);
      [now apply Rinv_0_lt_compat | exact Hlog]. }
  apply ln_lt_inv in Hln; [| lra | exact HN].
  apply INR_lt.
  replace (INR 16) with 16 by (simpl; ring). exact Hln.
Qed.

(** X1: a string with at most 16 distinct characters, in particular one of
    at most 16 characters, never has an entropy above 4.0. *)
Theorem entropy_at_most_4 (text : string) :
  (List.length (alphabet text) <= 16)%nat ->
  _calculate_shannon_entropy text <= 4.
Proof.
  intros Hn. destruct (Rle_dec (_calculate_shannon_entropy text) 4) as [|Hgt];
    [assumption |].
  apply Rnot_le_lt in Hgt. apply entropy_above_4_alphabet in Hgt. lia.
Qed.

Lemma entropy_at_most_4_witness :
  _calculate_shannon_entropy "paypal-secure" <= 4.
Proof.
  apply entropy_at_most_4. vm_compute. lia.
Defined.

End EntropyBounds.

(** ** The reputation estimators *)

Module MlEngineFacts.

Import Py MlEngine MlEngineFull EntropyFacts EntropyBounds.
Local Open Scope string_scope.
Local Open Scope R_scope.

(** A short domain is never "random-looking". *)
Lemma entropy_above_4_short (domain : string) :
  (String.length domain <= 16)%nat -> entropy_above_4 domain = false.
Proof.
  intros Hlen. unfold entropy_above_4, MlEngine._calculate_shannon_entropy.
  destruct (Rlt_dec 4.0 _) as [Hgt |]; [| reflexivity].
  assert (H4 : 4 < Extractor._calculate_shannon_entropy domain) by lra.
  apply entropy_above_4_alphabet in H4.
  pose proof (alphabet_le_length domain). lia.
Qed.

(** A trusted TLD is not a suspicious one: the two tests exclude each
    other on every string. *)
Lemma trusted_not_suspicious (tld : string) :
  is_trusted tld = true -> is_suspicious tld = false.
Proof.
  unfold is_trusted, trusted_tlds, Extractor.trusted_tlds. simpl.
  rewrite !orb_true_iff, !String.eqb_eq.
  intros [-> | [-> | [-> | [-> | [-> | [-> | H]]]]]];
    try reflexivity; discriminate.
Qed.

(** X2: for every domain and URL the domain-age indicator takes one of
    the five values 1.0, 0.2, 0.3, 0.25, 0.5, all in [0, 1]; for a domain
    of at most 16 characters the entropy rule cannot fire, so 0.25 is not
    returned. *)
Theorem estimate_domain_age_values (domain url : string) :
  let age := _estimate_domain_age domain url in
  (age = 1.0 \/ age = 0.2 \/ age = 0.3 \/ age = 0.25 \/ age = 0.5) /\
  0 <= age <= 1 /\
  ((String.length domain <= 16)%nat -> age <> 0.25).
Proof.
  intros age.
  assert (Hcases :
            (age = 1.0 \/ age = 0.2 \/ age = 0.3 \/ age = 0.5) \/
            (age = 0.25 /\ 4 < Extractor._calculate_shannon_entropy domain)).
  { subst age. unfold _estimate_domain_age.
    destruct (any _ well_known); [now left; left |].
    destruct (any _ year_tokens); [now left; right; left |].
    destruct (String.length domain <=? 4)%nat; [now left; right; right; left |].
    destruct (Rlt_dec 4.0 _) as [Hgt |]; [| now left; right; right; right].
    right. split; [reflexivity |].
    unfold _calculate_shannon_entropy in Hgt. lra. }
  split; [| split].
  - destruct Hcases as [[E | [E | [E | E]]] | [E _]]; tauto.
  - destruct Hcases as [[E | [E | [E | E]]] | [E _]]; rewrite E; lra.
  - intros Hlen.
    destruct Hcases as [[E | [E | [E | E]]] | [_ H4]]; try (rewrite E; lra).
    exfalso. apply entropy_above_4_alphabet in H4.
    pose proof (alphabet_le_length domain). lia.
Qed.

Lemma estimate_domain_age_values_witness :
  _estimate_domain_age "paypal-secure" "http://paypal-secure.tk/2023" <> 0.25.
Proof.
  apply (estimate_domain_age_values "paypal-secure" "http://paypal-secure.tk/2023").
  vm_compute. lia.
Defined.

(** X3: the registrar-reputation score is the TLD category mirrored: 2 for
    category 0 (trusted), 0 for category 2 (suspicious), 1 for category 1. *)
Theorem registrar_mirrors_tld_category (tld : string) :
  (_estimate_registrar_reputation tld + Extractor.tld_category_of tld = 2)%nat /\
  (_estimate_registrar_reputation tld = 2%nat <-> is_trusted tld = true) /\
  (_estimate_registrar_reputation tld = 0%nat <->
   is_trusted tld = false /\ is_suspicious tld = true).
Proof.
  unfold _estimate_registrar_reputation, Extractor.tld_category_of.
  change (existsb (String.eqb tld) Extractor.trusted_tlds) with (is_trusted tld).
  change (any (fun sus => endswith tld sus) Extractor.suspicious_tlds)
    with (is_suspicious tld).
  destruct (is_trusted tld), (is_suspicious tld); simpl;
    repeat split; intros; try reflexivity; try discriminate; try lia;
    intuition discriminate.
Qed.

(** X4: the three estimators agree with one another.  The name-server
    estimate is 1, 2 or 3 and the TTL indicator 0, 1 or 2; a TTL of 2
    implies three name servers, three name servers imply a trusted
    registrar, and a suspicious registrar (0) implies one name server and
    TTL 0.  For a domain of at most 16 characters neither estimate depends
    on the entropy. *)
Theorem reputation_estimates_consistent (tld domain : string) :
  let reg := _estimate_registrar_reputation tld in
  let ns := _estimate_nameserver_count tld domain in
  let ttl := _estimate_ttl tld domain in
  (1 <= ns <= 3)%nat /\ (ttl <= 2)%nat /\ (reg <= 2)%nat /\
  (ttl = 2%nat -> ns = 3%nat) /\
  (ns = 3%nat -> reg = 2%nat) /\
  (reg = 0%nat -> ns = 1%nat /\ ttl = 0%nat) /\
  ((String.length domain <= 16)%nat ->
   ns = (if is_trusted tld && (5 <? String.length domain)%nat then 3
         else if is_suspicious tld then 1
         else if (String.length domain <=? 4)%nat then 1 else 2)%nat /\
   ttl = (if is_trusted tld && (6 <? String.length domain)%nat then 2
          else if is_suspicious tld then 0 else 1)%nat).
Proof.
  cbv zeta.
  unfold _estimate_registrar_reputation, _estimate_nameserver_count, _estimate_ttl.
  pose proof (trusted_not_suspicious tld) as Hts.
  pose proof (entropy_above_4_short domain) as Hshort.
  destruct (is_trusted tld) eqn:Ht; [rewrite (Hts eq_refl) |];
    destruct (Nat.ltb_spec 5 (String.length domain));
    destruct (Nat.ltb_spec 6 (String.length domain));
    destruct (Nat.leb_spec (String.length domain) 4);
    try lia; simpl;
    try destruct (is_suspicious tld); simpl;
    destruct (entropy_above_4 domain) eqn:He; simpl;
    repeat split; intros; try lia; try discriminate;
    try (rewrite Hshort in He by assumption; discriminate).
Qed.

(** X5: the 24-feature extractor never raises and always returns 24
    entries, one per feature name; its first 20 entries are the vector of
    the 20-feature extractor, whether the URL parses or not, and when a
    parser raises the four added entries are zero as well. *)
Theorem extended_vector_extends_basic
  (urlparse : string -> result ParseResult)
  (tld_extract : string -> result Extractor.ExtractResult) (url : string) :
  exists v24 v20,
    MlEngineFull.extract_features urlparse tld_extract url = Ok v24 /\
    Extractor.extract_features urlparse tld_extract url = Ok v20 /\
    List.length v24 = 24%nat /\
    List.length v24 = List.length MlEngineFull.feature_names /\
    firstn 20 v24 = v20 /\
    ((exists e, urlparse url = Raise e) \/ (exists e, tld_extract url = Raise e) ->
     skipn 20 v24 = [0; 0; 0; 0]).
Proof.
  unfold MlEngineFull.extract_features, Extractor.extract_features,
    MlEngineFull._extract_domain_features, Extractor._extract_domain_features,
    MlEngineFull.domain_features_body, Extractor.domain_features_body,
    try_except.
  destruct (urlparse url) as [parsed | e1]; cbn [bind].
  - destruct (tld_extract url) as [extracted | e2]; cbn [bind].
    + eexists. eexists. split; [reflexivity |]. split; [reflexivity |].
      repeat split.
      intros [[e He] | [e He]]; discriminate.
    + eexists. eexists. split; [reflexivity |]. split; [reflexivity |].
      repeat split.
  - eexists. eexists. split; [reflexivity |]. split; [reflexivity |].
    repeat split.
Qed.

End MlEngineFacts.

(** ** The dotted-quad pattern and the lexical counts *)

Module LexicalFacts.

Import Py Extractor.
Local Open Scope nat_scope.
Local Open Scope string_scope.

(** [all(p(c) for c in s)] *)
Fixpoint all_chars (p : ascii -> bool) (s : string) : bool :=
  match s with
  | EmptyString => true
  | String c s' => p c && all_chars p s'
  end.

(** One to three decimal digits: what [\d{1,3}] can match. *)
Definition digit_run (d : string) : bool :=
  (1 <=? String.length d)%nat && (String.length d <=? 3)%nat && all_chars isdigit d.

Lemma digits_1_3_spec (k : string -> bool) (s : string) :
  digits_1_3 k s = true <->
  exists d rest, s = d ++ rest /\ digit_run d = true /\ k rest = true.
Proof.
  split.
  - destruct s as [|a s1]; simpl; [discriminate |].
    rewrite andb_true_iff, orb_true_iff. intros [Ha [Hk | H]].
    { exists (String a ""), s1. unfold digit_run. simpl. now rewrite Ha. }
    destruct s1 as [|b s2]; [discriminate |].
    rewrite andb_true_iff, orb_true_iff in H. destruct H as [Hb [Hk | H]].
    { exists (String a (String b "")), s2. unfold digit_run. simpl.
      now rewrite Ha, Hb. }
    destruct s2 as [|c s3]; [discriminate |].
    rewrite andb_true_iff in H. destruct H as [Hc Hk].
    exists (String a (String b (String c ""))), s3. unfold digit_run. simpl.
    now rewrite Ha, Hb, Hc.
  - intros [d [rest [-> [Hd Hk]]]]. unfold digit_run in Hd.
    apply andb_true_iff in Hd. destruct Hd as [Hlen Hall].
    apply andb_true_iff in Hlen. destruct Hlen as [Hmin Hmax].
    destruct d as [|a [|b [|c [|x d]]]];
      cbn in Hmin, Hmax; try discriminate;
      cbn [all_chars] in Hall; cbn [String.append digits_1_3].
    + apply andb_true_iff in Hall. destruct Hall as [Ha _].
      now rewrite Ha, Hk.
    + apply andb_true_iff in Hall. destruct Hall as [Ha Hall].
      apply andb_true_iff in Hall. destruct Hall as [Hb _].
      rewrite Ha, Hb, Hk. cbn. now rewrite orb_true_r.
    + apply andb_true_iff in Hall. destruct Hall as [Ha Hall].
      apply andb_true_iff in Hall. destruct Hall as [Hb Hall].
      apply andb_true_iff in Hall. destruct Hall as [Hc _].
      rewrite Ha, Hb, Hc, Hk. cbn. now rewrite !orb_true_r.
Qed.

Lemma dot_then_spec (k : string -> bool) (s : string) :
  dot_then k s = true <-> exists rest, s = "." ++ rest /\ k rest = true.
Proof.
  split.
  - destruct s as [|c rest]; simpl; [discriminate |].
    rewrite andb_true_iff, Ascii.eqb_eq. intros [-> Hk]. now exists rest.
  - intros [rest [-> Hk]]. simpl. exact Hk.
Qed.

(** The four runs and three dots the pattern matches. *)
Definition quad (d1 d2 d3 d4 : string) : string :=
  d1 ++ "." ++ d2 ++ "." ++ d3 ++ "." ++ d4.

Definition digit_runs (d1 d2 d3 d4 : string) : Prop :=
  digit_run d1 = true /\ digit_run d2 = true /\
  digit_run d3 = true /\ digit_run d4 = true.

Lemma append_assoc (a b c : string) : (a ++ b) ++ c = a ++ b ++ c.
Proof. induction a as [|x a IH]; simpl; [reflexivity | now rewrite IH]. Qed.

Lemma quad_append (d1 d2 d3 d4 post : string) :
  quad d1 d2 d3 d4 ++ post = d1 ++ "." ++ d2 ++ "." ++ d3 ++ "." ++ d4 ++ post.
Proof. unfold quad. now rewrite !append_assoc. Qed.

Lemma dotted_quad_here_spec (s : string) :
  dotted_quad_here s = true <->
  exists d1 d2 d3 d4 post,
    s = quad d1 d2 d3 d4 ++ post /\ digit_runs d1 d2 d3 d4.
Proof.
  unfold dotted_quad_here, digit_runs. split.
  - intros H.
    apply digits_1_3_spec in H. destruct H as [d1 [r1 [-> [H1 H]]]].
    apply dot_then_spec in H. destruct H as [r2 [-> H]].
    apply digits_1_3_spec in H. destruct H as [d2 [r3 [-> [H2 H]]]].
    apply dot_then_spec in H. destruct H as [r4 [-> H]].
    apply digits_1_3_spec in H. destruct H as [d3 [r5 [-> [H3 H]]]].
    apply dot_then_spec in H. destruct H as [r6 [-> H]].
    apply digits_1_3_spec in H. destruct H as [d4 [post [-> [H4 _]]]].
    exists d1, d2, d3, d4, post. now rewrite quad_append.
  - intros [d1 [d2 [d3 [d4 [post [-> [H1 [H2 [H3 H4]]]]]]]]].
    rewrite quad_append.
    apply digits_1_3_spec. eexists. eexists. split; [reflexivity |].
    split; [exact H1 |].
    apply dot_then_spec. eexists. split; [reflexivity |].
    apply digits_1_3_spec. eexists. eexists. split; [reflexivity |].
    split; [exact H2 |].
    apply dot_then_spec. eexists. split; [reflexivity |].
    apply digits_1_3_spec. eexists. eexists. split; [reflexivity |].
    split; [exact H3 |].
    apply dot_then_spec. eexists. split; [reflexivity |].
    apply digits_1_3_spec. eexists. eexists. split; [reflexivity |].
    split; [exact H4 | reflexivity].
Qed.

Lemma search_dotted_quad_spec (s : string) :
  search_dotted_quad s = true <->
  exists pre tail, s = pre ++ tail /\ dotted_quad_here tail = true.
Proof.
  induction s as [|c s IH]; cbn [search_dotted_quad].
  - split; [discriminate |]. intros [pre [tail [H Ht]]].
    destruct pre; simpl in H; [subst tail; discriminate | discriminate].
  - rewrite orb_true_iff, IH. split.
    + intros [H | [pre [tail [-> H]]]].
      * now exists "", (String c s).
      * now exists (String c pre), tail.
    + intros [pre [tail [H Ht]]]. destruct pre as [|c' pre]; simpl in H.
      * left. now subst tail.
      * right. injection H as _ ->. now exists pre, tail.
Qed.

(** X6: [_has_ip_address] holds exactly when the URL contains four runs of
    one to three digits separated by single dots; nothing bounds the runs
    by 255 or requires a non-digit around them. *)
Theorem has_ip_address_spec (url : string) :
  (_has_ip_address url = true <->
   exists pre d1 d2 d3 d4 post,
     url = pre ++ quad d1 d2 d3 d4 ++ post /\ digit_runs d1 d2 d3 d4) /\
  _has_ip_address "http://999.999.999.999/" = true /\
  _has_ip_address "v1.2.3.4567" = true /\
  _has_ip_address "http://1.2.3/" = false.
Proof.
  split; [| repeat split].
  unfold _has_ip_address. rewrite search_dotted_quad_spec. split.
  - intros [pre [tail [-> H]]]. apply dotted_quad_here_spec in H.
    destruct H as [d1 [d2 [d3 [d4 [post [-> Hd]]]]]].
    now exists pre, d1, d2, d3, d4, post.
  - intros [pre [d1 [d2 [d3 [d4 [post [-> Hd]]]]]]].
    exists pre, (quad d1 d2 d3 d4 ++ post). split; [reflexivity |].
    apply dotted_quad_here_spec. now exists d1, d2, d3, d4, post.
Qed.

(** *** Counting over concatenations *)

Lemma count_char_app (c : ascii) (a b : string) :
  count_char c (a ++ b) = count_char c a + count_char c b.
Proof. induction a as [|x a IH]; simpl; [reflexivity | rewrite IH; lia]. Qed.

Lemma count_if_app (p : ascii -> bool) (a b : string) :
  count_if p (a ++ b) = count_if p a + count_if p b.
Proof. induction a as [|x a IH]; simpl; [reflexivity | rewrite IH; lia]. Qed.

Lemma length_app (a b : string) :
  String.length (a ++ b) = String.length a + String.length b.
Proof. induction a as [|x a IH]; simpl; [reflexivity | now rewrite IH]. Qed.

Lemma count_if_le (p : ascii -> bool) (s : string) :
  count_if p s <= String.length s.
Proof.
  induction s as [|c s IH]; simpl; [lia |]. destruct (p c); lia.
Qed.

Lemma count_if_all (p : ascii -> bool) (s : string) :
  all_chars p s = true -> count_if p s = String.length s.
Proof.
  induction s as [|c s IH]; simpl; [reflexivity |].
  rewrite andb_true_iff. intros [-> Hs]. now rewrite (IH Hs).
Qed.

Lemma digit_run_counts (d : string) :
  digit_run d = true -> 1 <= count_if isdigit d /\ 1 <= String.length d.
Proof.
  unfold digit_run. rewrite !andb_true_iff, Nat.leb_le.
  intros [[Hmin _] Hall]. rewrite (count_if_all _ _ Hall). lia.
Qed.

(** X7: when [has_ip_address] is set, the URL has at least three dots, at
    least four digits and at least seven characters, so the features
    num_dots, num_digits and url_length are bounded below accordingly. *)
Theorem has_ip_address_counts (url : string) :
  _has_ip_address url = true ->
  3 <= count_char "." url /\ 4 <= count_if isdigit url /\
  7 <= String.length url /\
  _extract_lexical_features url =
    [INR (String.length url); INR (count_char "." url); INR (count_char "/" url);
     INR (count_char "-" url); INR (count_if isdigit url); 1%R;
     INR (suspicious_keyword_count url);
     INR (if startswith url "https://" then 1 else 0)].
Proof.
  intros H. split; [| split; [| split]].
  4: { unfold _extract_lexical_features. now rewrite H. }
  all: unfold _has_ip_address in H; apply search_dotted_quad_spec in H;
    destruct H as [pre [tail [-> H]]];
    apply dotted_quad_here_spec in H;
    destruct H as [d1 [d2 [d3 [d4 [post [-> [H1 [H2 [H3 H4]]]]]]]]];
    apply digit_run_counts in H1, H2, H3, H4; unfold quad.
  - rewrite !count_char_app.
    change (count_char "." ".") with 1. lia.
  - rewrite !count_if_app. lia.
  - rewrite !length_app. change (String.length ".") with 1. lia.
Qed.

Lemma has_ip_address_counts_witness :
  3 <= count_char "." "http://192.168.1.1/admin/login.php" /\
  4 <= count_if isdigit "http://192.168.1.1/admin/login.php" /\
  7 <= String.length "http://192.168.1.1/admin/login.php" /\
  _extract_lexical_features "http://192.168.1.1/admin/login.php" =
    [INR (String.length "http://192.168.1.1/admin/login.php");
     INR (count_char "." "http://192.168.1.1/admin/login.php");
     INR (count_char "/" "http://192.168.1.1/admin/login.php");
     INR (count_char "-" "http://192.168.1.1/admin/login.php");
     INR (count_if isdigit "http://192.168.1.1/admin/login.php"); 1%R;
     INR (suspicious_keyword_count "http://192.168.1.1/admin/login.php");
     INR (if startswith "http://192.168.1.1/admin/login.php" "https://"
          then 1 else 0)].
Proof.
  apply has_ip_address_counts. reflexivity.
Defined.

(** A character is a dot, a slash, a hyphen or a digit, or none of them. *)
Lemma lexical_classes_disjoint (c : ascii) :
  (if Ascii.eqb c "." then 1 else 0) + (if Ascii.eqb c "/" then 1 else 0)
  + (if Ascii.eqb c "-" then 1 else 0) + (if isdigit c then 1 else 0) <= 1.
Proof.
  destruct c as [[] [] [] [] [] [] [] []]; vm_compute; lia.
Qed.

(** X8: dots, slashes, hyphens and digits are counted over disjoint
    characters, so the four counts together never exceed the URL length. *)
Theorem lexical_counts_bounded (url : string) :
  count_char "." url + count_char "/" url + count_char "-" url
  + count_if isdigit url <= String.length url.
Proof.
  induction url as [|c url IH]; cbn [count_char count_if String.length]; [lia |].
  pose proof (lexical_classes_disjoint c). lia.
Qed.

(** Every ASCII letter is one of the listed vowels or consonants, and no
    character is both. *)
Lemma letters_partition (c : ascii) :
  (if char_in c vowels then 1 else 0) + (if char_in c consonants then 1 else 0)
  = if isalpha c then 1 else 0.
Proof.
  destruct c as [[] [] [] [] [] [] [] []]; vm_compute; reflexivity.
Qed.

Lemma vowel_consonant_sum (url : string) :
  count_if (fun c => char_in c vowels) url
  + count_if (fun c => char_in c consonants) url
  = count_if isalpha url.
Proof.
  induction url as [|c url IH]; cbn [count_if]; [reflexivity |].
  pose proof (letters_partition c). lia.
Qed.

(** [s.isascii()]: every character is below U+0080.  On such strings
    [isalpha] is [str.isalpha]; beyond them [str.isalpha] also accepts
    letters such as "ü" that are in neither of the two lists. *)
Fixpoint isascii (s : string) : bool :=
  match s with
  | EmptyString => true
  | String c s' => (nat_of_ascii c <? 128)%nat && isascii s'
  end.

(** X10: the vowels and consonants counted by [_vowel_consonant_ratio] are
    among the letters counted by [_digit_letter_ratio], and on a URL of
    ASCII characters they are exactly the letters: the two counts add up
    to the number of letters.  A URL without letters has both ratios 0,
    and a URL whose letters are all vowels has a vowel-consonant ratio of
    0 as well. *)
Theorem vowels_consonants_letters (url : string) :
  let vowel_count := count_if (fun c => char_in c vowels) url in
  let consonant_count := count_if (fun c => char_in c consonants) url in
  let letters := count_if isalpha url in
  vowel_count + consonant_count <= letters /\
  (isascii url = true -> vowel_count + consonant_count = letters) /\
  (letters = 0 ->
   _vowel_consonant_ratio url = 0%R /\ _digit_letter_ratio url = 0%R) /\
  (vowel_count = letters -> _vowel_consonant_ratio url = 0%R).
Proof.
  cbv zeta. pose proof (vowel_consonant_sum url) as Hsum.
  split; [lia |]. split; [intros _; exact Hsum |].
  unfold _vowel_consonant_ratio, _digit_letter_ratio.
  split.
  - intros Hl. rewrite Hl. split; [| reflexivity].
    destruct (Nat.eqb_spec (count_if (fun c => char_in c consonants) url) 0);
      [reflexivity | lia].
  - intros Hv.
    destruct (Nat.eqb_spec (count_if (fun c => char_in c consonants) url) 0);
      [reflexivity | lia].
Qed.

End LexicalFacts.

(** ** The ratio features *)

Module StatisticalFacts.

Import Py Extractor LexicalFacts.
Local Open Scope string_scope.
Local Open Scope R_scope.

Lemma ratio_nonneg (a b : nat) : (0 < b)%nat -> 0 <= INR a / INR b.
Proof.
  intros Hb. apply Rmult_le_pos; [apply pos_INR |].
  left. apply Rinv_0_lt_compat. now apply lt_0_INR.
Qed.

Lemma ratio_le_1 (a b : nat) : (0 < b)%nat -> (a <= b)%nat -> INR a / INR b <= 1.
Proof.
  intros Hb Hab. apply lt_0_INR in Hb. apply le_INR in Hab.
  apply Rmult_le_reg_r with (r := INR b); [exact Hb |].
  unfold Rdiv. rewrite Rmult_assoc, Rinv_l; lra.
Qed.

(** Adjacent pairs that differ are at most all adjacent pairs. *)
Lemma changes_le (a : string) : (changes a <= String.length a - 1)%nat.
Proof.
  induction a as [|x a IH]; [simpl; lia |].
  destruct a as [|y rest]; [simpl; lia |].
  change (changes (String x (String y rest)))
    with ((if Ascii.eqb x y then 0 else 1) + changes (String y rest))%nat.
  cbn [String.length] in *. destruct (Ascii.eqb x y); lia.
Qed.

Lemma count_if_complement (p : ascii -> bool) (s : string) :
  (count_if (fun c => negb (p c)) s + count_if p s = String.length s)%nat.
Proof.
  induction s as [|c s IH]; simpl; [reflexivity |]. destruct (p c); simpl; lia.
Qed.

(** X9: the four ratio features are never negative; the special-character
    ratio and the randomness score are at most 1; on a non-empty URL the
    special-character ratio is one minus the share of letters and digits. *)
Theorem ratio_features_ranges (url : string) :
  0 <= _vowel_consonant_ratio url /\
  0 <= _digit_letter_ratio url /\
  0 <= _special_char_ratio url <= 1 /\
  0 <= _url_randomness_score url <= 1 /\
  (url <> "" ->
   _special_char_ratio url =
   1 - INR (count_if isalnum url) / INR (String.length url)).
Proof.
  split; [| split; [| split; [| split]]].
  - unfold _vowel_consonant_ratio.
    destruct (Nat.eqb_spec (count_if (fun c => char_in c consonants) url) 0);
      [lra | apply ratio_nonneg; lia].
  - unfold _digit_letter_ratio.
    destruct (Nat.eqb_spec (count_if isalpha url) 0);
      [lra | apply ratio_nonneg; lia].
  - unfold _special_char_ratio.
    destruct (Nat.eqb_spec (String.length url) 0); [lra |]. split.
    + apply ratio_nonneg. lia.
    + apply ratio_le_1; [lia | apply count_if_le].
  - unfold _url_randomness_score.
    set (alphanum := filter_chars isalnum url).
    destruct (Nat.ltb_spec (String.length alphanum) 2); [lra |]. split.
    + apply ratio_nonneg. lia.
    + apply ratio_le_1; [lia | apply changes_le].
  - intros Hne. unfold _special_char_ratio.
    assert (Hlen : (0 < String.length url)%nat)
      by (destruct url; [congruence | simpl; lia]).
    destruct (Nat.eqb_spec (String.length url) 0); [lia |].
    pose proof (count_if_complement isalnum url) as Hsum.
    apply lt_0_INR in Hlen.
    assert (E : INR (String.length url)
                = INR (count_if (fun c => negb (isalnum c)) url)
                  + INR (count_if isalnum url))
      by (now rewrite <- plus_INR, Hsum).
    rewrite E in *. field. lra.
Qed.

End StatisticalFacts.

(** ** The named mapping of the features *)

Module ExtractorApiFacts.

Import Py Extractor ExtractorApi.
Local Open Scope nat_scope.
Local Open Scope string_scope.

Lemma setitem_fresh (d : feature_dict) (k : string) (v : R) :
  ~ In k (map fst d) -> setitem d k v = (d ++ [(k, v)])%list.
Proof.
  induction d as [|[k' v'] d IH]; simpl; intros Hnotin; [reflexivity |].
  destruct (String.eqb_spec k' k) as [-> | _]; [tauto |].
  rewrite IH; tauto.
Qed.

(** With names that are all different, zipping inserts the pairs in order. *)
Lemma dict_zip_from_fresh (names : list string) :
  forall (d : feature_dict) (values : list R),
    NoDup (map fst d ++ names) ->
    dict_zip_from d names values = (d ++ combine names values)%list.
Proof.
  induction names as [|name names IH]; intros d values Hnd; simpl.
  - now rewrite app_nil_r.
  - destruct values as [|v values]; [now rewrite app_nil_r |].
    rewrite setitem_fresh.
    + rewrite IH.
      * now rewrite <- app_assoc.
      * rewrite map_app, <- app_assoc. exact Hnd.
    + intros Hin. apply NoDup_remove_2 in Hnd. apply Hnd.
      apply in_or_app. now left.
Qed.

Lemma combine_fst (names : list string) :
  forall values : list R,
    List.length names <= List.length values ->
    map fst (combine names values) = names.
Proof.
  induction names as [|n names IH]; intros [|v values] H; simpl in *;
    try reflexivity; try lia.
  f_equal. apply IH. lia.
Qed.

Lemma combine_snd (names : list string) :
  forall values : list R,
    List.length values <= List.length names ->
    map snd (combine names values) = values.
Proof.
  induction names as [|n names IH]; intros [|v values] H; simpl in *;
    try reflexivity; try lia.
  f_equal. apply IH. lia.
Qed.

Lemma getitem_combine (names : list string) :
  forall (values : list R) (i : nat),
    NoDup names -> List.length names = List.length values ->
    i < List.length names ->
    getitem (combine names values) (nth i names "") = Ok (nth i values 0%R) /\
    forall default,
      get_default (combine names values) (nth i names "") default = nth i values 0%R.
Proof.
  induction names as [|n names IH]; intros [|v values] i Hnd Hlen Hi;
    simpl in *; try lia.
  inversion Hnd as [|? ? Hnotin Hnd']; subst.
  destruct i as [|i].
  - rewrite String.eqb_refl. auto.
  - assert (Hi' : i < List.length names) by lia.
    destruct (String.eqb_spec n (nth i names "")) as [E | _].
    + exfalso. apply Hnotin. rewrite E. now apply nth_In.
    + apply IH; auto.
Qed.

Lemma getitem_missing (names : list string) (k : string) :
  forall values : list R,
    ~ In k names ->
    getitem (combine names values) k = Raise "KeyError" /\
    forall default, get_default (combine names values) k default = default.
Proof.
  induction names as [|n names IH]; intros [|v values] Hk; simpl in *; auto.
  destruct (String.eqb_spec n k) as [-> | _]; [tauto |].
  apply IH. tauto.
Qed.

Lemma feature_names_nodup : NoDup feature_names.
Proof. repeat constructor; simpl; intuition discriminate. Qed.

(** X11: [extract_features_dict] never raises; its keys are the twenty
    feature names in order and its values the entries of the vector, so
    looking up the i-th name gives the i-th entry, and a name outside the
    list is a [KeyError] for [d[k]] and the default for [d.get(k, default)]. *)
Theorem extract_features_dict_lookup
  (urlparse : string -> result ParseResult)
  (tld_extract : string -> result ExtractResult) (url : string) :
  exists features d,
    extract_features urlparse tld_extract url = Ok features /\
    extract_features_dict urlparse tld_extract url = Ok d /\
    map fst d = get_feature_names /\
    map snd d = features /\
    (forall i, i < 20 ->
       getitem d (nth i get_feature_names "") = Ok (nth i features 0%R) /\
       forall default,
         get_default d (nth i get_feature_names "") default = nth i features 0%R) /\
    (forall k, ~ In k get_feature_names ->
       getitem d k = Raise "KeyError" /\
       forall default, get_default d k default = default).
Proof.
  destruct (ExtractorClaims.extract_features_returns urlparse tld_extract url)
    as [features [block [Hf [_ [Hlen _]]]]].
  exists features, (combine feature_names features).
  assert (Hzip : dict_zip feature_names features = combine feature_names features).
  { unfold dict_zip. rewrite dict_zip_from_fresh; [reflexivity |].
    exact feature_names_nodup. }
  assert (Hl : List.length feature_names = List.length features)
    by (rewrite Hlen; reflexivity).
  split; [exact Hf |]. split.
  { unfold extract_features_dict. rewrite Hf. cbn [bind]. now rewrite Hzip. }
  unfold get_feature_names. split; [apply combine_fst; lia |].
  split; [apply combine_snd; lia |]. split.
  - intros i Hi. apply getitem_combine;
      [exact feature_names_nodup | exact Hl | exact Hi].
  - intros k Hk. now apply getitem_missing.
Qed.

End ExtractorApiFacts.

(** ** Splitting and joining labels *)

Module SplitFacts.

Import Py Extractor Features LexicalFacts.
Local Open Scope nat_scope.
Local Open Scope string_scope.

Lemma split_nonempty (sep : ascii) (s : string) : split sep s <> [].
Proof.
  destruct s as [|c s]; simpl; [discriminate |].
  destruct (Ascii.eqb c sep); [discriminate |].
  destruct (split sep s); discriminate.
Qed.

(** One more piece than separators. *)
Lemma split_length (sep : ascii) (s : string) :
  List.length (split sep s) = S (count_char sep s).
Proof.
  induction s as [|c s IH]; simpl; [reflexivity |].
  destruct (Ascii.eqb c sep); simpl; [now rewrite IH |].
  destruct (split sep s) as [|p ps] eqn:E; [now elim (split_nonempty sep s) |].
  simpl in *. exact IH.
Qed.

(** No piece contains the separator. *)
Lemma split_no_sep (sep : ascii) (s : string) :
  Forall (fun piece => count_char sep piece = 0) (split sep s).
Proof.
  induction s as [|c s IH]; simpl; [now repeat constructor |].
  destruct (Ascii.eqb c sep) eqn:Ec; [now constructor |].
  destruct (split sep s) as [|p ps]; [repeat constructor; simpl; now rewrite Ec |].
  inversion IH as [|? ? Hp Hps]; subst. constructor; [| exact Hps].
  simpl. now rewrite Ec, Hp.
Qed.

(** Joining the pieces with the separator gives the string back. *)
Lemma join_split (sep : ascii) (s : string) :
  join (String sep "") (split sep s) = s.
Proof.
  induction s as [|c s IH]; simpl; [reflexivity |].
  destruct (Ascii.eqb_spec c sep) as [-> | _].
  - destruct (split sep s) as [|p ps] eqn:E; [now elim (split_nonempty sep s) |].
    cbn [join]. cbn [join] in IH. now rewrite IH.
  - destruct (split sep s) as [|p ps] eqn:E; [now elim (split_nonempty sep s) |].
    destruct ps as [|q qs]; cbn [join String.append] in *; now rewrite IH.
Qed.

Lemma join_app (sep : string) (a b : list string) :
  a <> [] -> b <> [] ->
  join sep (a ++ b) = join sep a ++ sep ++ join sep b.
Proof.
  intros Ha Hb. induction a as [|x a IH]; [congruence |].
  destruct a as [|y a].
  - destruct b as [|z b]; [congruence | reflexivity].
  - change (join sep ((x :: y :: a) ++ b))
      with (x ++ sep ++ join sep ((y :: a) ++ b)).
    rewrite IH by discriminate.
    change (join sep (x :: y :: a)) with (x ++ sep ++ join sep (y :: a)).
    now rewrite !append_assoc.
Qed.

End SplitFacts.

(** ** Properties of the basic extractor *)

Module FeaturesFacts.

Import Py Features LexicalFacts SplitFacts.
Local Open Scope nat_scope.
Local Open Scope string_scope.

(** X13: of a host name with at least two dots the basic extractor takes
    the last two labels as the domain and the rest as the subdomain, so
    that host = subdomain + "." + domain, with exactly one dot in the
    domain; with fewer dots the domain is the whole host and the subdomain
    is empty.  num_subdomains is the number of dots minus one (0 below two
    dots) and num_params the number of ampersands in the query plus one
    (0 for an empty query). *)
Theorem hostname_decomposition (parsed : ParseResult) :
  exists domain subdomain,
    let hostname := netloc parsed in
    let dots := count_char "." hostname in
    parsed_features parsed =
      [INR (String.length domain); INR (String.length subdomain);
       INR (String.length (path parsed)); INR (dots - 1);
       INR (String.length hostname);
       INR (if String.eqb (query parsed) "" then 0
            else S (count_char "&" (query parsed)))] /\
    (2 <= dots ->
       hostname = subdomain ++ "." ++ domain /\
       count_char "." domain = 1 /\
       count_char "." subdomain = dots - 2) /\
    (dots < 2 -> domain = hostname /\ subdomain = "").
Proof.
  cbv zeta. unfold parsed_features, last_two, drop_last_two.
  set (hostname := netloc parsed).
  set (parts := Extractor.split "." hostname).
  assert (Hn : List.length parts = S (count_char "." hostname))
    by apply split_length.
  assert (Hjoin : join "." parts = hostname) by apply join_split.
  assert (Hnodot : Forall (fun piece => count_char "." piece = 0) parts)
    by apply split_no_sep.
  rewrite (split_length "&" (query parsed)).
  assert (Hq : (if negb (String.eqb (query parsed) "")
                then S (count_char "&" (query parsed)) else 0)
               = (if String.eqb (query parsed) "" then 0
                  else S (count_char "&" (query parsed))))
    by (destruct (String.eqb (query parsed) ""); reflexivity).
  rewrite Hq. clear Hq. rewrite Hn.
  remember (count_char "." hostname) as dots eqn:Hdots.
  destruct dots as [|[|d]].
  - exists hostname, "". simpl.
    repeat split; intros; try reflexivity; lia.
  - exists hostname, "". simpl. rewrite Hjoin.
    repeat split; intros; try reflexivity; lia.
  - exists (join "." (skipn (S d) parts)), (join "." (firstn (S d) parts)).
    replace (S (S (S d)) - 2) with (S d) by lia.
    replace (S (S d) - 1) with (S d) by lia.
    replace (S (S d) - 2) with d by lia.
    change (2 <=? S (S (S d)))%nat with true.
    change (2 <? S (S (S d)))%nat with true.
    cbv iota.
    split; [reflexivity |]. split; [| intros; lia]. intros _.
    assert (Hfirst : firstn (S d) parts <> []).
    { intros E. apply (f_equal (@List.length string)) in E.
      rewrite length_firstn, Hn in E. simpl in E. lia. }
    assert (Hlast : exists p q, skipn (S d) parts = [p; q]).
    { assert (Hl : List.length (skipn (S d) parts) = 2)
        by (rewrite length_skipn, Hn; lia).
      destruct (skipn (S d) parts) as [|p [|q [|r l]]]; try discriminate.
      now exists p, q. }
    destruct Hlast as [p [q Hpq]].
    assert (Hhost : hostname
                    = join "." (firstn (S d) parts) ++ "." ++ join "." (skipn (S d) parts)).
    { rewrite <- Hjoin at 1. rewrite <- (firstn_skipn (S d) parts) at 1.
      apply join_app; [exact Hfirst |]. rewrite Hpq. discriminate. }
    assert (Hdom : count_char "." (join "." (skipn (S d) parts)) = 1).
    { rewrite Hpq. cbn [join]. rewrite !count_char_app.
      assert (Hin : forall x, In x [p; q] -> count_char "." x = 0).
      { intros x Hx. rewrite Forall_forall in Hnodot. apply Hnodot.
        rewrite <- (firstn_skipn (S d) parts), Hpq.
        apply in_or_app. now right. }
      rewrite (Hin p), (Hin q) by (simpl; tauto). reflexivity. }
    split; [exact Hhost |]. split; [exact Hdom |].
    apply (f_equal (count_char ".")) in Hhost.
    rewrite !count_char_app, Hdom, <- Hdots in Hhost.
    change (count_char "." ".") with 1 in Hhost. lia.
Qed.

(** *** The vector *)

Lemma ok_inj {A : Type} (x y : A) : Ok x = Ok y -> x = y.
Proof. intros H. now injection H. Qed.

(** The thirteen entries gathered before the [try] block. *)
Lemma extract_features_layout
  (urlparse : string -> result ParseResult) (url : string) :
  exists block,
    parsed_block urlparse url = Ok block /\
    List.length block = 6 /\
    extract_features urlparse url =
      Ok ([INR (String.length url); INR (count_char "." url);
           INR (count_char "-" url); INR (count_char "_" url);
           INR (count_char "/" url); INR (count_char "?" url);
           INR (count_char "=" url); INR (count_char "@" url);
           INR (count_char "&" url); INR (count_if isdigit url);
           INR (count_if (fun c => negb (isalnum c)) url);
           INR (if search_ip url then 1 else 0);
           INR (if startswith url "https://" then 1 else 0)]
            ++ block ++ [_calculate_entropy url])%list.
Proof.
  unfold extract_features, parsed_block, try_except.
  destruct (urlparse url) as [parsed | e]; cbn [bind];
    eexists; (split; [reflexivity |]); split; reflexivity.
Qed.

(** X14: the basic extractor never raises and always returns 20 entries,
    one per feature name; when [urlparse] raises, the six entries computed
    from the parsed URL (domain_length to num_params) are zero and the
    other fourteen are unaffected: the first thirteen (url_length to
    has_https) and the last (entropy) are computed from the URL alone and
    are the same whatever [urlparse] does. *)
Theorem basic_vector_length
  (urlparse : string -> result ParseResult) (url : string) :
  exists features,
    extract_features urlparse url = Ok features /\
    List.length features = 20 /\
    List.length features = List.length feature_names /\
    firstn 13 features =
      [INR (String.length url); INR (count_char "." url);
       INR (count_char "-" url); INR (count_char "_" url);
       INR (count_char "/" url); INR (count_char "?" url);
       INR (count_char "=" url); INR (count_char "@" url);
       INR (count_char "&" url); INR (count_if isdigit url);
       INR (count_if (fun c => negb (isalnum c)) url);
       INR (if search_ip url then 1 else 0);
       INR (if startswith url "https://" then 1 else 0)] /\
    nth 19 features 0%R = _calculate_entropy url /\
    (forall (urlparse' : string -> result ParseResult) features',
       extract_features urlparse' url = Ok features' ->
       firstn 13 features' = firstn 13 features /\
       nth 19 features' 0%R = nth 19 features 0%R) /\
    ((exists e, urlparse url = Raise e) ->
     firstn 6 (skipn 13 features) = [0; 0; 0; 0; 0; 0]%R) /\
    (forall parsed, urlparse url = Ok parsed ->
     firstn 6 (skipn 13 features) = parsed_features parsed).
Proof.
  assert (Hshape : forall (thirteen block : list R) (last : R),
             List.length thirteen = 13 -> List.length block = 6 ->
             let features := (thirteen ++ block ++ [last])%list in
             List.length features = 20 /\
             firstn 13 features = thirteen /\
             nth 19 features 0%R = last /\
             firstn 6 (skipn 13 features) = block).
  { intros thirteen block last H13 H6 features. subst features.
    repeat split.
    - rewrite !List.length_app, H13, H6. reflexivity.
    - rewrite firstn_app, H13, Nat.sub_diag, firstn_O, app_nil_r.
      rewrite <- H13. apply firstn_all.
    - rewrite app_assoc, app_nth2 by (rewrite List.length_app, H13, H6; lia).
      rewrite List.length_app, H13, H6. reflexivity.
    - rewrite skipn_app, H13, Nat.sub_diag, skipn_O.
      rewrite <- H13 at 1. rewrite skipn_all, app_nil_l.
      rewrite firstn_app, H6, Nat.sub_diag, firstn_O, app_nil_r.
      rewrite <- H6. apply firstn_all. }
  destruct (extract_features_layout urlparse url) as [block [Hb [H6 Hf]]].
  match type of Hf with
  | _ = Ok (?t ++ _ ++ _)%list => set (thirteen := t) in *
  end.
  assert (Hthirteen : List.length thirteen = 13) by reflexivity.
  eexists. split; [exact Hf |].
  destruct (Hshape thirteen block (_calculate_entropy url) Hthirteen H6)
    as [Hlen [H13 [H19 Hblock]]].
  split; [exact Hlen |]. split; [rewrite Hlen; reflexivity |].
  split; [exact H13 |]. split; [exact H19 |]. split; [| split].
  - intros urlparse' features' Hf'.
    destruct (extract_features_layout urlparse' url) as [block' [_ [H6' Hf'']]].
    fold thirteen in Hf''. rewrite Hf'' in Hf'. apply ok_inj in Hf'.
    subst features'.
    destruct (Hshape thirteen block' (_calculate_entropy url) Hthirteen H6')
      as [_ [H13' [H19' _]]].
    rewrite H13, H19, H13', H19'. split; reflexivity.
  - intros [e He]. rewrite Hblock.
    unfold parsed_block, try_except in Hb. rewrite He in Hb.
    injection Hb as <-. reflexivity.
  - intros parsed Hp. rewrite Hblock.
    unfold parsed_block, try_except in Hb. rewrite Hp in Hb.
    injection Hb as <-. reflexivity.
Qed.

(** *** Special characters *)

Lemma alnum_partition (c : ascii) :
  (if negb (isalnum c) then 1 else 0) + (if isalpha c then 1 else 0)
  + (if isdigit c then 1 else 0) = 1.
Proof.
  destruct c as [[] [] [] [] [] [] [] []]; vm_compute; reflexivity.
Qed.

Lemma punctuation_is_special (c : ascii) :
  (if Ascii.eqb c "." then 1 else 0) + (if Ascii.eqb c "-" then 1 else 0)
  + (if Ascii.eqb c "_" then 1 else 0) + (if Ascii.eqb c "/" then 1 else 0)
  + (if Ascii.eqb c "?" then 1 else 0) + (if Ascii.eqb c "=" then 1 else 0)
  + (if Ascii.eqb c "@" then 1 else 0) + (if Ascii.eqb c "&" then 1 else 0)
  <= (if negb (isalnum c) then 1 else 0).
Proof.
  destruct c as [[] [] [] [] [] [] [] []]; vm_compute; lia.
Qed.

(** X15: every character of the URL is a special character, a letter or a
    digit, so num_special_chars is the length minus the letters and digits;
    the eight punctuation counters count special characters only, each
    character once, so together they never exceed num_special_chars. *)
Theorem special_chars_account (url : string) :
  count_if (fun c => negb (isalnum c)) url + count_if isalpha url
  + count_if isdigit url = String.length url /\
  count_char "." url + count_char "-" url + count_char "_" url
  + count_char "/" url + count_char "?" url + count_char "=" url
  + count_char "@" url + count_char "&" url
  <= count_if (fun c => negb (isalnum c)) url.
Proof.
  induction url as [|c url [IH1 IH2]];
    cbn [count_char count_if String.length]; [split; lia |].
  pose proof (alnum_partition c). pose proof (punctuation_is_special c).
  split; lia.
Qed.

(** *** The two entropy functions agree *)

Lemma dict_set_counter_add (d : list (ascii * nat)) (c : ascii) :
  dict_set d c (dict_get d c 0 + 1) = Extractor.counter_add c d.
Proof.
  induction d as [|[k v] d IH]; simpl; [reflexivity |].
  destruct (Ascii.eqb k c); [| now rewrite IH].
  f_equal. f_equal. lia.
Qed.

Lemma count_loop_counter (d : list (ascii * nat)) (text : string) :
  count_loop d text = Extractor.counter_update d text.
Proof.
  revert d; induction text as [|c text IH]; intros d; simpl; [reflexivity |].
  now rewrite dict_set_counter_add, IH.
Qed.

Lemma fold_unguarded (n : nat) (counts : list nat) (entropy : R) :
  fold_left
    (fun entropy count =>
       (entropy - INR count / INR n * Extractor.log2 (INR count / INR n))%R)
    counts entropy
  = (entropy
     - EntropyFacts.sum_R
         (map (fun count => EntropyFacts.plogp (INR count / INR n)) counts))%R.
Proof.
  revert entropy; induction counts as [|count counts IH]; intros entropy; simpl.
  - ring.
  - rewrite IH. unfold EntropyFacts.plogp. ring.
Qed.

(** X16: [_calculate_entropy] of the basic extractor and
    [_calculate_shannon_entropy] of the advanced one return the same value
    on every string: both loops build the same counts, every count is
    positive, so the guard [if probability > 0] of the latter never skips a
    term. *)
Theorem entropy_functions_agree (text : string) :
  _calculate_entropy text = Extractor._calculate_shannon_entropy text /\
  count_loop [] text = Extractor.Counter text /\
  Forall (fun count => 0 < count) (Extractor.values (Extractor.Counter text)).
Proof.
  split; [| split].
  - unfold _calculate_entropy, Extractor._calculate_shannon_entropy.
    destruct (String.eqb_spec text "") as [-> | Hne]; [reflexivity |].
    cbv zeta. rewrite count_loop_counter. fold (Extractor.Counter text).
    fold (Extractor.values (Extractor.Counter text)).
    rewrite fold_unguarded.
    rewrite EntropyFacts.fold_entropy by now apply EntropyFacts.length_pos.
    reflexivity.
  - apply count_loop_counter.
  - rewrite EntropyFacts.Counter_values. apply Forall_forall.
    intros n Hn. apply in_map_iff in Hn. destruct Hn as [c [<- Hc]].
    apply EntropyFacts.count_char_pos. now apply EntropyFacts.Counter_keys.
Qed.

(** *** The bounded octets *)

Lemma in_range_digit (lo c : ascii) :
  isdigit lo = true -> in_range lo "9" c = true -> isdigit c = true.
Proof.
  unfold in_range, isdigit. rewrite !andb_true_iff, !Nat.leb_le.
  change (code "9") with 57. lia.
Qed.

Lemma in_range_digit_low (hi c : ascii) :
  isdigit hi = true -> in_range "0" hi c = true -> isdigit c = true.
Proof.
  unfold in_range, isdigit. rewrite !andb_true_iff, !Nat.leb_le.
  change (code "0") with 48. lia.
Qed.

(** Whatever the octet pattern accepts, [\d{1,3}] accepts. *)
Lemma octet_digits (k k' : string -> bool) (s : string) :
  (forall t, k t = true -> k' t = true) ->
  octet k s = true -> digits_1_3 k' s = true.
Proof.
  intros Hk. destruct s as [|a s1]; [discriminate |].
  cbn [octet digits_1_3]. rewrite orb_true_iff. intros [H | H].
  - apply andb_true_iff in H. destruct H as [Ha H].
    now rewrite Ha, (Hk _ H).
  - destruct s1 as [|b s2]; [discriminate |].
    rewrite orb_true_iff in H. destruct H as [H | H].
    + rewrite !andb_true_iff in H. destruct H as [[Ha Hb] H].
      rewrite (in_range_digit "1" a eq_refl Ha), Hb, (Hk _ H). cbn.
      now rewrite orb_true_r.
    + destruct s2 as [|c s3]; [discriminate |].
      rewrite !orb_true_iff, !andb_true_iff in H.
      assert (Hall : isdigit a = true /\ isdigit b = true /\ isdigit c = true
                     /\ k s3 = true).
      { destruct H as [[[[[Ha Hb] Hc] H] | [[[Ha Hb] Hc] H]] | [[[Ha Hb] Hc] H]].
        - apply Ascii.eqb_eq in Ha. subst a. auto.
        - apply Ascii.eqb_eq in Ha. subst a.
          now rewrite (in_range_digit_low "4" b eq_refl Hb).
        - apply Ascii.eqb_eq in Ha, Hb. subst a b.
          now rewrite (in_range_digit_low "5" c eq_refl Hc). }
      destruct Hall as [Ha [Hb [Hc H']]].
      rewrite Ha, Hb, Hc, (Hk _ H'). cbn. now rewrite !orb_true_r.
Qed.

Lemma dot_then_mono (k k' : string -> bool) (s : string) :
  (forall t, k t = true -> k' t = true) ->
  dot_then k s = true -> dot_then k' s = true.
Proof.
  intros Hk. destruct s as [|c s]; [discriminate |]. simpl.
  rewrite !andb_true_iff. intros [Hc H]. auto.
Qed.

Lemma ip_here_dotted_quad (s : string) :
  ip_here s = true -> dotted_quad_here s = true.
Proof.
  unfold ip_here, dotted_quad_here.
  apply octet_digits. intros t1. apply dot_then_mono. intros t2.
  apply octet_digits. intros t3. apply dot_then_mono. intros t4.
  apply octet_digits. intros t5. apply dot_then_mono. intros t6.
  apply octet_digits. auto.
Qed.

(** X17: whenever the basic extractor's has_ip is set (octets bounded by
    255), the advanced extractor's has_ip_address is set too; the converse
    fails on 999.999.999.999.  Neither pattern is anchored: in 256.1.1.1
    the bounded pattern still finds 56.1.1.1. *)
Theorem strict_ip_implies_lenient :
  (forall url, search_ip url = true -> Extractor._has_ip_address url = true) /\
  search_ip "http://999.999.999.999/" = false /\
  Extractor._has_ip_address "http://999.999.999.999/" = true /\
  search_ip "http://256.1.1.1/" = true.
Proof.
  split; [| repeat split].
  unfold Extractor._has_ip_address.
  induction url as [|c url IH]; cbn [search_ip search_dotted_quad];
    [discriminate |].
  rewrite !orb_true_iff. intros [H | H].
  - left. now apply ip_here_dotted_quad.
  - right. now apply IH.
Qed.

End FeaturesFacts.

(** ** The domain block of the advanced extractor *)

Module DomainBlockFacts.

Import Py Extractor LexicalFacts SplitFacts.
Local Open Scope string_scope.
Local Open Scope R_scope.

Lemma tld_category_range (tld : string) : (tld_category_of tld <= 2)%nat.
Proof.
  unfold tld_category_of.
  destruct (existsb _ _); [lia |]. destruct (any _ _); lia.
Qed.

Lemma entropy_nonneg (text : string) : 0 <= _calculate_shannon_entropy text.
Proof.
  destruct (string_dec text "") as [-> | Hne].
  - rewrite EntropyFacts.entropy_empty. lra.
  - rewrite EntropyFacts.entropy_shannon by exact Hne.
    apply EntropyFacts.shannon_nonneg.
Qed.

(** X12: the seven domain entries, in full.  When both parsers return they
    are the domain length, the number of subdomain labels (0 for an empty
    subdomain, else its dots plus one), the TLD category (at most 2), the
    digit flag (0 or 1), the domain entropy and the plain lengths of path
    and query, all non-negative; otherwise they are seven zeros. *)
Theorem domain_block_entries
  (urlparse : string -> result ParseResult)
  (tld_extract : string -> result ExtractResult) (url : string) :
  match urlparse url, tld_extract url with
  | Ok parsed, Ok extracted =>
      let labels :=
        if String.eqb (subdomain extracted) "" then 0%nat
        else S (count_char "." (subdomain extracted)) in
      let category := tld_category_of ("." ++ suffix extracted) in
      let flag := if any_char isdigit (domain extracted) then 1%nat else 0%nat in
      let block :=
        [INR (String.length (domain extracted)); INR labels; INR category;
         INR flag; _calculate_shannon_entropy (domain extracted);
         INR (String.length (path parsed)); INR (String.length (query parsed))] in
      _extract_domain_features urlparse tld_extract url = Ok block /\
      (category <= 2)%nat /\ (flag <= 1)%nat /\
      Forall (fun entry => 0 <= entry) block
  | _, _ =>
      _extract_domain_features urlparse tld_extract url = Ok [0; 0; 0; 0; 0; 0; 0]
  end.
Proof.
  unfold _extract_domain_features, domain_features_body, try_except.
  destruct (urlparse url) as [parsed | e]; cbn [bind]; [| reflexivity].
  destruct (tld_extract url) as [extracted | e]; cbn [bind]; [| reflexivity].
  cbv zeta. split; [| split; [| split]].
  - rewrite split_length.
    destruct (String.eqb_spec (subdomain extracted) "") as [E | _]; cbn [negb];
      destruct (String.eqb_spec (path parsed) "") as [Ep | _]; cbn [negb];
      destruct (String.eqb_spec (query parsed) "") as [Eq | _]; cbn [negb];
      rewrite ?Ep, ?Eq; reflexivity.
  - apply tld_category_range.
  - destruct (any_char isdigit (domain extracted)); lia.
  - repeat (apply Forall_cons;
              [first [apply pos_INR | apply entropy_nonneg] |]).
    apply Forall_nil.
Qed.

End DomainBlockFacts.

(** ** More on the predictor *)

Module PredictorMore.

Import Py Predictor PredictorFacts.
Local Open Scope string_scope.
Local Open Scope Q_scope.

Section Predict.

Variable urlparse : string -> result ParseResult.
Variable ndarray : Type.
Variable extract_features : string -> result ndarray.
Variable model_predict : ndarray -> result Q.

Let predict := predict urlparse ndarray extract_features model_predict.
Let predict_body := predict_body urlparse ndarray extract_features model_predict.

(** The [try] block completes once its four steps do. *)
Lemma predict_body_complete u f m parsed :
  u <> "" -> extract_features u = Ok f -> model_predict f = Ok m ->
  urlparse u = Ok parsed ->
  exists h, _apply_heuristics urlparse u = Ok h /\
            predict_body (VStr u) = Ok (success_dict (VStr u) (0.6 * m + 0.4 * h)).
Proof.
  intros Hu Hf Hm Hp.
  destruct (apply_heuristics_parsed _ _ _ Hp) as [h [Hh _]].
  exists h. split; [exact Hh |].
  unfold predict_body, Predictor.predict_body.
  assert (Ht : truthy (VStr u) = true).
  { simpl. destruct (String.eqb_spec u ""); [contradiction | reflexivity]. }
  rewrite Ht. cbn [negb orb isinstance_str].
  rewrite Hf. cbn [bind]. rewrite Hm. cbn [bind]. rewrite Hh. reflexivity.
Qed.

Lemma predict_body_invalid url :
  (forall u, url <> VStr u) \/ url = VStr "" ->
  predict_body url = Raise "Invalid URL provided".
Proof.
  intros [H | ->]; [| reflexivity].
  unfold predict_body, Predictor.predict_body.
  destruct url as [| | | |u]; try reflexivity;
    try (destruct (negb _ || _); reflexivity).
  now elim (H u).
Qed.

Lemma success_label probability url :
  get (success_dict url probability) "prediction" <> Some (VStr "error").
Proof.
  unfold success_dict. cbn. destruct (gt probability 0.5); discriminate.
Qed.

(** X18: [predict] returns a scored result exactly when the URL is a
    non-empty string and the feature extractor, the model and [urlparse]
    all return; in every other case it returns the label "error" with
    confidence 0.0 and a message, which is "Invalid URL provided" when the
    URL is empty or not a string. *)
Theorem predict_succeeds_iff (url : value) :
  exists d,
    predict url = Ok d /\
    (get d "prediction" <> Some (VStr "error") <->
     exists u f m parsed,
       url = VStr u /\ u <> "" /\ extract_features u = Ok f /\
       model_predict f = Ok m /\ urlparse u = Ok parsed) /\
    (get d "prediction" = Some (VStr "error") ->
     get d "confidence" = Some (VFloat 0.0) /\
     exists msg, get d "error" = Some (VStr msg)) /\
    ((forall u, url <> VStr u) \/ url = VStr "" ->
     get d "error" = Some (VStr "Invalid URL provided")).
Proof.
  unfold predict, Predictor.predict, try_except.
  fold predict_body.
  destruct (predict_body url) as [d | e] eqn:Hbody.
  - exists d. split; [reflexivity |].
    destruct (predict_body_ok _ _ _ _ _ _ Hbody)
      as [u [f [m [h [-> [Hu [Hf [Hm [Hh ->]]]]]]]]].
    split; [| split].
    + split; [| intros _; apply success_label].
      intros _. destruct (urlparse u) as [parsed | e] eqn:Hp.
      * now exists u, f, m, parsed.
      * rewrite (apply_heuristics_raise _ _ _ Hp) in Hh. discriminate.
    + intros H. now elim (success_label _ _ H).
    + intros Hinv. rewrite (predict_body_invalid _ Hinv) in Hbody. discriminate.
  - exists [("url", url); ("error", VStr e); ("prediction", VStr "error");
            ("confidence", VFloat 0.0)].
    split; [reflexivity |]. split; [| split].
    + split; [intros H; now elim H |].
      intros [u [f [m [parsed [-> [Hu [Hf [Hm Hp]]]]]]]].
      destruct (predict_body_complete u f m parsed Hu Hf Hm Hp) as [h [_ Hok]].
      rewrite Hok in Hbody. discriminate.
    + intros _. split; [reflexivity | now exists e].
    + intros Hinv. rewrite (predict_body_invalid _ Hinv) in Hbody.
      injection Hbody as <-. reflexivity.
Qed.

(** X19: in a scored result the fields agree with one another: the label
    is "phishing" or "legitimate", is_safe is true exactly for
    "legitimate", a "phishing" result is never at risk level "low", and a
    "high" risk level is always labelled "phishing". *)
Theorem predict_fields_consistent (url : value) (d : dict) :
  predict url = Ok d ->
  get d "prediction" <> Some (VStr "error") ->
  keys d = ["url"; "prediction"; "confidence"; "probability"; "risk_level";
            "is_safe"] /\
  exists label risk safe,
    get d "prediction" = Some (VStr label) /\
    get d "risk_level" = Some (VStr risk) /\
    get d "is_safe" = Some (VBool safe) /\
    (label = "phishing" \/ label = "legitimate") /\
    (risk = "low" \/ risk = "medium" \/ risk = "high") /\
    (safe = true <-> label = "legitimate") /\
    (label = "phishing" -> risk <> "low") /\
    (risk = "high" -> label = "phishing").
Proof.
  intros Hd Hlabel.
  unfold predict, Predictor.predict, try_except in Hd. fold predict_body in Hd.
  destruct (predict_body url) as [d' | e] eqn:Hbody.
  2: { injection Hd as <-. now elim Hlabel. }
  injection Hd as ->.
  destruct (predict_body_ok _ _ _ _ _ _ Hbody)
    as [u [f [m [h [-> [_ [_ [_ [_ ->]]]]]]]]].
  set (p := 0.6 * m + 0.4 * h).
  split; [reflexivity |].
  exists (if gt p 0.5 then "phishing" else "legitimate"),
    (_get_risk_level p), (negb (gt p 0.5)).
  split; [reflexivity |]. split; [reflexivity |]. split; [reflexivity |].
  unfold _get_risk_level.
  destruct (gt p 0.5) eqn:Hg; destruct (lt p 0.3) eqn:H3;
    destruct (lt p 0.7) eqn:H7;
    try apply gt_true_iff in Hg; try apply gt_false_iff in Hg;
    try apply lt_true_iff in H3; try apply lt_true_iff in H7;
    try (assert (H7' : ~ p < 0.7)
           by (rewrite <- lt_true_iff, H7; discriminate));
    try (exfalso; q_arith);
    cbn [negb]; repeat split; intros; try discriminate; try reflexivity;
    try tauto; try (exfalso; q_arith).
Qed.

(** X20: the heuristics can change the verdict only in a band of model
    outputs: from 0.84 on the result is "phishing" whatever the heuristic
    score, and up to 0.16 it is "legitimate" even at heuristic score 1.
    Both bounds stay clear of the edges 5/6 and 1/6, where the blended
    probability comes within rounding of 0.5. *)
Theorem model_output_band (u : string) (f : ndarray) (m : Q) (d : dict) :
  extract_features u = Ok f -> model_predict f = Ok m ->
  predict (VStr u) = Ok d ->
  get d "prediction" <> Some (VStr "error") ->
  (0.84 <= m -> get d "prediction" = Some (VStr "phishing")) /\
  (m <= 0.16 -> get d "prediction" = Some (VStr "legitimate")).
Proof.
  intros Hf Hm Hd Hlabel.
  unfold predict, Predictor.predict, try_except in Hd. fold predict_body in Hd.
  destruct (predict_body (VStr u)) as [d' | e] eqn:Hbody.
  2: { injection Hd as <-. now elim Hlabel. }
  injection Hd as ->.
  destruct (predict_body_ok _ _ _ _ _ _ Hbody)
    as [u' [f' [m' [h [Hu [_ [Hf' [Hm' [Hh ->]]]]]]]]].
  injection Hu as <-. rewrite Hf in Hf'. injection Hf' as <-.
  rewrite Hm in Hm'. injection Hm' as <-.
  pose proof (apply_heuristics_ok_range _ _ _ Hh) as Hh01.
  unfold success_dict. cbn [get String.eqb Ascii.eqb Bool.eqb].
  split; intros Hband.
  - assert (Hg : gt (0.6 * m + 0.4 * h) 0.5 = true)
      by (apply gt_true_iff; q_arith).
    now rewrite Hg.
  - assert (Hg : gt (0.6 * m + 0.4 * h) 0.5 = false)
      by (apply gt_false_iff; q_arith).
    now rewrite Hg.
Qed.

End Predict.

(** A scored request: an HTTP login page on an IP literal, model output 0.9. *)
Definition sample_url : string := "http://192.168.1.1/login".
Definition sample_urlparse : string -> result ParseResult :=
  PredictorClaims.parsed_as "http" "192.168.1.1" "/login" "".
Definition sample_result : dict :=
  success_dict (VStr sample_url) (0.6 * 0.9 + 0.4 * 0.80).

Lemma predict_fields_consistent_witness :
  keys sample_result =
    ["url"; "prediction"; "confidence"; "probability"; "risk_level"; "is_safe"] /\
  exists label risk safe,
    get sample_result "prediction" = Some (VStr label) /\
    get sample_result "risk_level" = Some (VStr risk) /\
    get sample_result "is_safe" = Some (VBool safe) /\
    (label = "phishing" \/ label = "legitimate") /\
    (risk = "low" \/ risk = "medium" \/ risk = "high") /\
    (safe = true <-> label = "legitimate") /\
    (label = "phishing" -> risk <> "low") /\
    (risk = "high" -> label = "phishing").
Proof.
  apply (predict_fields_consistent sample_urlparse unit
           (fun _ => Ok tt) (fun _ => Ok 0.9) (VStr sample_url)).
  - reflexivity.
  - discriminate.
Defined.

Lemma model_output_band_witness :
  (0.84 <= 0.9 -> get sample_result "prediction" = Some (VStr "phishing")) /\
  (0.9 <= 0.16 -> get sample_result "prediction" = Some (VStr "legitimate")).
Proof.
  apply (model_output_band sample_urlparse unit
           (fun _ => Ok tt) (fun _ => Ok 0.9) sample_url tt).
  - reflexivity.
  - reflexivity.
  - reflexivity.
  - discriminate.
Defined.

(** *** The keyword lists *)

Lemma login_in_phishing : incl login_keywords phishing_keywords.
Proof.
  intros k Hk. simpl in Hk.
  repeat (destruct Hk as [<- | Hk]; [simpl; tauto |]). destruct Hk.
Qed.

Lemma phishing_in_suspicious : incl phishing_keywords Extractor.suspicious_keywords.
Proof.
  intros k Hk. simpl in Hk.
  repeat (destruct Hk as [<- | Hk]; [simpl; tauto |]). destruct Hk.
Qed.

Lemma phishing_keywords_nodup : NoDup phishing_keywords.
Proof. repeat constructor; simpl; intuition discriminate. Qed.

(** Counting the hits of a test over a list without repetition that lies
    within another list. *)
Lemma count_where_incl {A : Type} (p : A -> bool) (l l' : list A) :
  NoDup l -> incl l l' -> (count_where p l <= count_where p l')%nat.
Proof.
  intros Hnd Hincl. unfold count_where. apply NoDup_incl_length.
  - now apply NoDup_filter.
  - intros x Hx. apply filter_In in Hx. apply filter_In.
    destruct Hx as [Hin Hp]. split; [now apply Hincl | exact Hp].
Qed.

Lemma any_count_where {A : Type} (p : A -> bool) (l : list A) :
  any p l = true -> (1 <= count_where p l)%nat.
Proof.
  unfold any, count_where. intros H. apply existsb_exists in H.
  destruct H as [x [Hin Hp]].
  assert (Hf : In x (filter p l)) by (apply filter_In; auto).
  destruct (filter p l); [destruct Hf | simpl; lia].
Qed.

(** X21: the scorer's login words are among its fifteen keywords, which are
    among the extractor's twenty.  So the scorer never counts more keywords
    than the keyword feature reports, a URL whose keyword feature is 0 gets
    no keyword increment, and whenever the no-HTTPS rule adds 0.2 the
    keyword tier adds at least 0.1. *)
Theorem keyword_lists_nested (url : string) :
  incl login_keywords phishing_keywords /\
  incl phishing_keywords Extractor.suspicious_keywords /\
  (count_where (fun keyword => contains keyword (lower url)) phishing_keywords
   <= Extractor.suspicious_keyword_count url)%nat /\
  (Extractor.suspicious_keyword_count url = 0%nat ->
   keyword_increment url == 0 /\ no_https_login_increment url == 0) /\
  (0 < no_https_login_increment url -> 0.1 <= keyword_increment url).
Proof.
  split; [exact login_in_phishing |]. split; [exact phishing_in_suspicious |].
  assert (Hle :
    (count_where (fun keyword => contains keyword (lower url)) phishing_keywords
     <= Extractor.suspicious_keyword_count url)%nat).
  { unfold Extractor.suspicious_keyword_count.
    apply count_where_incl;
      [exact phishing_keywords_nodup | exact phishing_in_suspicious]. }
  assert (Hlogin :
    any (fun keyword => contains keyword (lower url)) login_keywords = true ->
    (1 <= count_where (fun keyword => contains keyword (lower url))
            phishing_keywords)%nat).
  { intros H. apply any_count_where. unfold any in *.
    apply existsb_exists in H. apply existsb_exists.
    destruct H as [k [Hin Hk]]. exists k. split; [| exact Hk].
    now apply login_in_phishing. }
  split; [exact Hle |].
  unfold keyword_increment, no_https_login_increment. cbv zeta.
  revert Hle Hlogin.
  generalize (count_where (fun keyword => contains keyword (lower url))
                phishing_keywords).
  generalize (Extractor.suspicious_keyword_count url).
  generalize (any (fun keyword => contains keyword (lower url)) login_keywords).
  generalize (negb (startswith url "https://")).
  intros c b k n Hle Hlogin. split.
  - intros H0. assert (Hn : n = 0%nat) by lia. subst n k. cbn [Nat.leb].
    split; [reflexivity |].
    destruct b; [specialize (Hlogin eq_refl); lia |].
    now rewrite andb_false_r.
  - intros Hpos.
    destruct c; cbn [andb] in Hpos; [| exfalso; q_arith].
    destruct b; [| exfalso; q_arith].
    specialize (Hlogin eq_refl).
    destruct (3 <=? n)%nat; [q_arith |].
    destruct (2 <=? n)%nat; [q_arith |].
    destruct (Nat.leb_spec 1 n); [q_arith | lia].
Qed.

Lemma py_min_lower (total v : Q) :
  v <= total -> v <= 1 -> v <= py_min total 1.0.
Proof.
  intros Ht Hv. unfold py_min. destruct (Qlt_le_dec 1.0 total); q_arith.
Qed.

Lemma py_min_zero (total : Q) :
  0 <= total -> (py_min total 1.0 == 0 <-> total == 0).
Proof.
  intros Ht. unfold py_min.
  destruct (Qlt_le_dec 1.0 total); split; intros; q_arith.
Qed.

(** No increment exceeds the sum. *)
Lemma increments_le_sum (url domain : string) :
  ip_increment url <= rule_sum url domain /\
  at_increment url <= rule_sum url domain /\
  hyphen_increment domain <= rule_sum url domain /\
  impersonation_increment url domain <= rule_sum url domain /\
  length_increment url <= rule_sum url domain.
Proof.
  pose proof (keyword_increment_nonneg url).
  pose proof (ip_increment_nonneg url).
  pose proof (tld_increment_nonneg url).
  pose proof (at_increment_nonneg url).
  pose proof (hyphen_increment_nonneg domain).
  pose proof (impersonation_increment_nonneg url domain).
  pose proof (length_increment_nonneg url).
  pose proof (no_https_login_increment_nonneg url).
  unfold rule_sum. repeat split; q_arith.
Qed.

(** X22: a rule that applies bounds the score from below.  Once [urlparse]
    has returned, a dotted quad gives at least 0.5, an '@' at least 0.4, an
    impersonated brand at least 0.6, three hyphens in the host at least 0.3
    and a URL longer than 100 characters at least 0.2; the score is 0
    exactly when no rule applies. *)
Theorem heuristic_rule_lower_bounds
  (urlparse : string -> result ParseResult) (url : string)
  (parsed : ParseResult) (s : Q) :
  urlparse url = Ok parsed ->
  _apply_heuristics urlparse url = Ok s ->
  (search_dotted_quad url = true -> 0.5 <= s) /\
  (contains "@" url = true -> 0.4 <= s) /\
  (any (impersonates (lower url) (netloc parsed)) legitimate_domains = true ->
   0.6 <= s) /\
  ((3 <= count_char "-" (netloc parsed))%nat -> 0.3 <= s) /\
  ((100 < String.length url)%nat -> 0.2 <= s) /\
  (s == 0 <-> rule_sum url (netloc parsed) == 0).
Proof.
  intros Hp Hs.
  destruct (apply_heuristics_parsed _ _ _ Hp) as [s' [Hs' Heq]].
  rewrite Hs in Hs'. injection Hs' as <-.
  destruct (increments_le_sum url (netloc parsed))
    as [Hip [Hat [Hhy [Him Hlen]]]].
  split; [| split; [| split; [| split; [| split]]]].
  - intros Hc. rewrite Heq. apply py_min_lower; [| discriminate].
    unfold ip_increment in Hip. now rewrite Hc in Hip.
  - intros Hc. rewrite Heq. apply py_min_lower; [| discriminate].
    unfold at_increment in Hat. now rewrite Hc in Hat.
  - intros Hc. rewrite Heq. apply py_min_lower; [| discriminate].
    unfold impersonation_increment in Him. now rewrite Hc in Him.
  - intros Hc. rewrite Heq. apply py_min_lower; [| discriminate].
    unfold hyphen_increment in Hhy. apply Nat.leb_le in Hc.
    now rewrite Hc in Hhy.
  - intros Hc. rewrite Heq. apply py_min_lower; [| discriminate].
    unfold length_increment in Hlen. apply Nat.ltb_lt in Hc.
    now rewrite Hc in Hlen.
  - rewrite Heq. apply py_min_zero. apply rule_sum_nonneg.
Qed.

Lemma heuristic_rule_lower_bounds_witness :
  (search_dotted_quad sample_url = true -> 0.5 <= 0.8000) /\
  (contains "@" sample_url = true -> 0.4 <= 0.8000) /\
  (any (impersonates (lower sample_url) "192.168.1.1") legitimate_domains = true ->
   0.6 <= 0.8000) /\
  ((3 <= count_char "-" "192.168.1.1")%nat -> 0.3 <= 0.8000) /\
  ((100 < String.length sample_url)%nat -> 0.2 <= 0.8000) /\
  (0.8000 == 0 <-> rule_sum sample_url "192.168.1.1" == 0).
Proof.
  apply (heuristic_rule_lower_bounds sample_urlparse sample_url
           {| scheme := "http"; netloc := "192.168.1.1"; path := "/login";
              params := ""; query := ""; fragment := "" |} 0.8000).
  - reflexivity.
  - reflexivity.
Defined.

End PredictorMore.

(** ** [backend/app/main.py]: the two POST handlers *)

Module Endpoints.

Import Py Explain.
Local Open Scope string_scope.

(** What a handler produces: the dictionary it returns, or the
    [HTTPException] it raises. *)
Inductive response (A D : Type) : Type :=
| Body (a : A)
| HTTPException (status_code : nat) (detail : D).

Arguments Body {A D} a.
Arguments HTTPException {A D} status_code detail.

(** What a route answers.  FastAPI serves an [HTTPException] as raised.  A
    returned dictionary is first validated against the [response_model] of
    the route's decorator: [Returned a] says that the handler returned [a]
    and that [a] validated, so that it is served as the model serialises
    it; when it does not validate, the request ends in a
    [ResponseValidationError], answered with status 500. *)
Inductive served (A D : Type) : Type :=
| Returned (a : A)
| Raised (status_code : nat) (detail : D)
| ResponseValidationError.

Arguments Returned {A D} a.
Arguments Raised {A D} status_code detail.
Arguments ResponseValidationError {A D}.

Definition response_model {A D : Type} (validates : A -> bool)
  (r : response A D) : served A D :=
  match r with
  | Body a => if validates a then Returned a else ResponseValidationError
  | HTTPException status_code detail => Raised status_code detail
  end.

(** [d.get(k)] and [d.get(k, default)] on the dictionary of [explain]. *)
Fixpoint entry_get (d : list (string * entry)) (k : string) : option entry :=
  match d with
  | [] => None
  | (k', v) :: rest => if String.eqb k' k then Some v else entry_get rest k
  end.

(** [result.get('prediction') == 'error'] *)
Definition is_error (prediction : option Py.value) : bool :=
  match prediction with
  | Some v => is_text v "error"
  | None => false
  end.

Definition entry_is_error (prediction : option entry) : bool :=
  match prediction with
  | Some (Plain v) => is_text v "error"
  | _ => false
  end.

Section Collaborators.

Variable round2 : R -> R.
Variable format_1f : Q -> string.
Variable str_int : Z -> string.
Variable ndarray : Type.
Variable model_features : Py.value -> result ndarray.
Variable the_model : Enhanced.model ndarray.
Variable timestamp : string.
Variable urlparse : string -> result ParseResult.
Variable tld_extract : string -> result Extractor.ExtractResult.

(** The function [predict_url(request)], as written; [request.url] is a
    string. *)
Definition predict_url (request_url : string)
  : result (response Py.dict Py.value) :=
  result <- predict ndarray model_features the_model timestamp (VStr request_url) ;;
  if is_error (Py.get result "prediction")
  then Ok (HTTPException 500
             (match Py.get result "error" with
              | Some detail => detail
              | None => VStr "Prediction failed"
              end))
  else Ok (Body result).

(** The function [explain_prediction(request)], as written. *)
Definition explain_prediction (request_url : string)
  : result (response (list (string * entry)) entry) :=
  result <- explain round2 format_1f str_int ndarray model_features the_model
              timestamp urlparse tld_extract (VStr request_url) ;;
  if entry_is_error (entry_get result "prediction")
  then Ok (HTTPException 500
             (match entry_get result "explanation" with
              | Some detail => detail
              | None => Plain (VStr "Explanation failed")
              end))
  else Ok (Body result).

(** Validation against [ExplanationResponse], pydantic's. *)
Variable validates_explanation : list (string * entry) -> bool.

(** The route
    [@app.post("/explain", response_model=ExplanationResponse)]. *)
Definition post_explain (request_url : string)
  : result (served (list (string * entry)) entry) :=
  r <- explain_prediction request_url ;;
  Ok (response_model validates_explanation r).

End Collaborators.

End Endpoints.

(** ** Properties of [EnhancedPredictor] *)

Module EnhancedFacts.

Import Py PredictorFacts.
Local Open Scope string_scope.
Local Open Scope Q_scope.

Definition scored_fields : list string :=
  ["url"; "prediction"; "confidence"; "probability"; "risk_level"; "is_safe";
   "timestamp"].

Section Predict.

Variable ndarray : Type.
Variable extract_features : value -> result ndarray.
Variable the_model : Enhanced.model ndarray.
Variable timestamp : string.

Let predict := Enhanced.predict ndarray extract_features the_model timestamp.
Let predict_body := Enhanced.predict_body ndarray extract_features the_model timestamp.

(** The dictionary of the successful [return], by the model's outputs. *)
Definition scored_dict (url : value) (prediction : Z) (probability : Q) : dict :=
  let is_phishing := Z.eqb prediction 1 in
  [("url", url);
   ("prediction", VStr (if is_phishing then "phishing" else "legitimate"));
   ("confidence",
     VFloat (Predictor.round
               (if is_phishing then probability else 1 - probability) 4));
   ("probability", VFloat (Predictor.round probability 4));
   ("risk_level", VStr (Enhanced.risk_level_of probability));
   ("is_safe", VBool (negb is_phishing));
   ("timestamp", VStr timestamp)].

Definition failed_dict (url : value) (e : string) : dict :=
  [("url", url);
   ("prediction", VStr "error");
   ("confidence", VFloat 0.0);
   ("probability", VFloat 0.0);
   ("risk_level", VStr "unknown");
   ("is_safe", VBool false);
   ("error", VStr e);
   ("timestamp", VStr timestamp)].

(** [predict] returns one of the two dictionaries. *)
Lemma predict_cases (url : value) :
  (exists f prediction probability,
     extract_features url = Ok f /\
     Enhanced.model_outputs ndarray the_model f = Ok (prediction, probability) /\
     predict url = Ok (scored_dict url prediction probability)) \/
  (exists e, predict url = Ok (failed_dict url e)).
Proof.
  unfold predict, Enhanced.predict, try_except, Enhanced.predict_body.
  destruct (extract_features url) as [f | e] eqn:Hf; cbn [bind];
    [| right; exists e; reflexivity].
  destruct (Enhanced.model_outputs ndarray the_model f)
    as [[prediction probability] | e] eqn:Hm;
    cbn [bind]; [| right; exists e; reflexivity].
  left. exists f, prediction, probability.
  split; [reflexivity |]. split; [exact Hm | reflexivity].
Qed.

(** X23: [EnhancedPredictor.predict] never raises, and every dictionary it
    returns has the seven fields url, prediction, confidence, probability,
    risk_level, is_safe and timestamp.  A scored result is labelled
    "phishing" or "legitimate"; a failed one has the label "error",
    confidence and probability 0.0, is_safe False, an error message and the
    risk level "unknown", a fourth value beside low, medium and high. *)
Theorem enhanced_predict_shape (url : value) :
  exists d,
    predict url = Ok d /\
    incl scored_fields (keys d) /\
    get d "url" = Some url /\
    get d "timestamp" = Some (VStr timestamp) /\
    ((keys d = scored_fields /\
      (get d "prediction" = Some (VStr "phishing") \/
       get d "prediction" = Some (VStr "legitimate"))) \/
     (keys d = ["url"; "prediction"; "confidence"; "probability"; "risk_level";
                "is_safe"; "error"; "timestamp"] /\
      get d "prediction" = Some (VStr "error") /\
      get d "confidence" = Some (VFloat 0.0) /\
      get d "probability" = Some (VFloat 0.0) /\
      get d "risk_level" = Some (VStr "unknown") /\
      get d "is_safe" = Some (VBool false) /\
      exists e, get d "error" = Some (VStr e))).
Proof.
  destruct (predict_cases url) as [[f [c [p [_ [_ H]]]]] | [e H]];
    rewrite H; eexists; (split; [reflexivity |]).
  - split; [intros k Hk; exact Hk |]. split; [reflexivity |].
    split; [reflexivity |]. left. split; [reflexivity |].
    unfold scored_dict. cbn. destruct (Z.eqb c 1); auto.
  - split; [intros k Hk; simpl in Hk |- *; tauto |].
    split; [reflexivity |]. split; [reflexivity |]. right.
    repeat split. now exists e.
Qed.

End Predict.

(** X24: with a LightGBM booster the raw score is read as the probability
    of "legitimate": the label is "phishing" exactly when the raw score is
    at most 0.5, is_safe holds exactly above 0.5, the reported probability
    is one minus the raw score, and the confidence is at least 0.5
    whatever the raw score. *)
Theorem booster_decision (ndarray : Type)
  (extract_features : value -> result ndarray)
  (booster_predict : ndarray -> result Q) (timestamp : string)
  (url : value) (f : ndarray) (raw_score : Q) :
  extract_features url = Ok f -> booster_predict f = Ok raw_score ->
  exists d,
    Enhanced.predict ndarray extract_features
      (Enhanced.Booster ndarray booster_predict) timestamp url = Ok d /\
    (get d "prediction" = Some (VStr "phishing") <-> raw_score <= 0.5) /\
    (get d "prediction" = Some (VStr "legitimate") <-> 0.5 < raw_score) /\
    (get d "is_safe" = Some (VBool true) <-> 0.5 < raw_score) /\
    get d "probability" = Some (VFloat (Predictor.round (1.0 - raw_score) 4)) /\
    exists confidence,
      get d "confidence" = Some (VFloat confidence) /\ 0.5 <= confidence.
Proof.
  intros Hf Hb.
  unfold Enhanced.predict, try_except, Enhanced.predict_body, Enhanced.model_outputs.
  rewrite Hf. cbn [bind]. rewrite Hb. cbn [bind fst snd].
  eexists. split; [reflexivity |].
  cbn [get String.eqb Ascii.eqb Bool.eqb].
  destruct (Qle_bool 0.5 (1.0 - raw_score)) eqn:E.
  - apply Qle_bool_iff in E. cbn [Z.eqb Pos.eqb negb].
    repeat split; intros; try discriminate; try reflexivity; try q_arith.
    eexists. split; [reflexivity |]. now apply round4_ge_half.
  - assert (E' : ~ 0.5 <= 1.0 - raw_score)
      by (rewrite <- Qle_bool_iff, E; discriminate).
    cbn [Z.eqb negb].
    repeat split; intros; try discriminate; try reflexivity; try q_arith.
    eexists. split; [reflexivity |]. apply round4_ge_half. q_arith.
Qed.

Lemma booster_decision_witness :
  exists d,
    Enhanced.predict unit (fun _ => Ok tt)
      (Enhanced.Booster unit (fun _ => Ok 0.3)) "2024-01-01T00:00:00"
      (VStr "http://192.168.1.1/login") = Ok d /\
    (get d "prediction" = Some (VStr "phishing") <-> 0.3 <= 0.5) /\
    (get d "prediction" = Some (VStr "legitimate") <-> 0.5 < 0.3) /\
    (get d "is_safe" = Some (VBool true) <-> 0.5 < 0.3) /\
    get d "probability" = Some (VFloat (Predictor.round (1.0 - 0.3) 4)) /\
    exists confidence,
      get d "confidence" = Some (VFloat confidence) /\ 0.5 <= confidence.
Proof.
  apply (booster_decision unit (fun _ => Ok tt) (fun _ => Ok 0.3)
           "2024-01-01T00:00:00" (VStr "http://192.168.1.1/login") tt).
  - reflexivity.
  - reflexivity.
Defined.

End EnhancedFacts.

(** ** Properties of the explanation layer *)

Module ExplainFacts.

Import Py ExtractorApi Explain.
Local Open Scope string_scope.
Local Open Scope R_scope.

(** A key that [d.get(k, 0)] finds with a value other than 0 is a key of
    the dictionary. *)
Lemma getitem_cases (f : feature_dict) (k : string) :
  getitem f k = Ok (get_default f k 0) \/
  (getitem f k = Raise "KeyError" /\ get_default f k 0 = 0).
Proof.
  induction f as [|[k' v] f IH]; simpl; [now right |].
  destruct (String.eqb k' k); [now left | exact IH].
Qed.

Lemma gef_nonzero (x y : R) : 0 < y -> gef x y = true -> x <> 0.
Proof. unfold gef. destruct (Rge_dec x y); [lra | discriminate]. Qed.

Lemma gtf_nonzero (x y : R) : 0 <= y -> gtf x y = true -> x <> 0.
Proof. unfold gtf. destruct (Rgt_dec x y); [lra | discriminate]. Qed.

(** At most [n] items, each with the property [P]. *)
Definition bounded {A : Type} (P : A -> Prop) (n : nat) (l : list A) : Prop :=
  (List.length l <= n)%nat /\ Forall P l.

Lemma bounded_nil {A : Type} (P : A -> Prop) : bounded P 0 [].
Proof. split; [simpl; lia | constructor]. Qed.

Lemma append_if_bounded {A : Type} (P : A -> Prop) (n : nat) (test : bool)
  (item : A) (l : list A) :
  P item -> bounded P n l -> bounded P (S n) (append_if test item l).
Proof.
  intros Hitem [Hlen Hall]. unfold append_if. destruct test.
  - split; [rewrite length_app; simpl; lia |].
    apply Forall_app. split; [exact Hall | now repeat constructor].
  - split; [lia | exact Hall].
Qed.

(** A guarded [d[k]] never raises when the guard implies the key. *)
Lemma append_if_ok_bounded {A : Type} (P : A -> Prop) (n : nat) (test : bool)
  (f : feature_dict) (k : string) (mk : R -> A) (l : list A) :
  (test = true -> get_default f k 0 <> 0) ->
  (forall v, P (mk v)) ->
  bounded P n l ->
  exists l',
    append_if_ok test (x <- getitem f k ;; Ok (mk x)) l = Ok l' /\
    bounded P (S n) l'.
Proof.
  intros Hguard Hmk [Hlen Hall]. unfold append_if_ok. destruct test.
  - destruct (getitem_cases f k) as [E | [_ E]];
      [| now elim (Hguard eq_refl)].
    rewrite E. cbn [bind]. eexists. split; [reflexivity |].
    split; [rewrite length_app; simpl; lia |].
    apply Forall_app. split; [exact Hall | now repeat constructor].
  - exists l. split; [reflexivity |]. split; [lia | exact Hall].
Qed.

Lemma in_append_if {A : Type} (test : bool) (item x : A) (l : list A) :
  In x l -> In x (append_if test item l).
Proof.
  unfold append_if. destruct test; [| auto]. intros H. apply in_or_app. now left.
Qed.

Lemma in_append_if_true {A : Type} (item : A) (l : list A) :
  In item (append_if true item l).
Proof. unfold append_if. apply in_or_app. right. now left. Qed.

Lemma eqf_refl (x : R) : eqf x x = true.
Proof. unfold eqf. destruct (Req_dec_T x x); [reflexivity | congruence]. Qed.

Definition alarming (i : indicator) : Prop :=
  severity i = "high" \/ severity i = "medium".
Definition reassuring (i : indicator) : Prop := severity i = "positive".

(** What an indicator shows of itself: its name, its severity, and whether
    its value is a text. *)
Definition textual (v : shown) : bool :=
  match v with
  | Text _ => true
  | _ => false
  end.

Definition summary (i : indicator) : string * string * bool :=
  (feature i, severity i, textual (value i)).

(** The contribution of one [if test: indicators.append(item)]. *)
Definition listed {B : Type} (test : bool) (b : B) : list B :=
  if test then [b] else [].

Lemma append_if_listed {A B : Type} (g : A -> B) (test : bool) (item : A)
  (l : list A) :
  map g (append_if test item l) = (map g l ++ listed test (g item))%list.
Proof.
  unfold append_if, listed. destruct test.
  - now rewrite map_app.
  - now rewrite app_nil_r.
Qed.

Lemma append_if_ok_listed {A B : Type} (g : A -> B) (test : bool)
  (f : feature_dict) (k : string) (mk : R -> A) (l : list A) (b : B) :
  (test = true -> get_default f k 0 <> 0) ->
  (forall v, g (mk v) = b) ->
  exists l',
    append_if_ok test (x <- getitem f k ;; Ok (mk x)) l = Ok l' /\
    map g l' = (map g l ++ listed test b)%list.
Proof.
  intros Hguard Hmk. unfold append_if_ok, listed. destruct test.
  - destruct (getitem_cases f k) as [E | [_ E]];
      [| now elim (Hguard eq_refl)].
    rewrite E. cbn [bind]. eexists. split; [reflexivity |].
    rewrite map_app. cbn [map]. now rewrite Hmk.
  - exists l. split; [reflexivity |]. now rewrite app_nil_r.
Qed.

Ltac listed_step :=
  match goal with
  | |- context [append_if_ok ?t (bind (getitem ?f ?k) (fun x => Ok (@?mk x))) ?l] =>
      let l' := fresh "l" in
      let E := fresh "E" in
      let M := fresh "M" in
      destruct (append_if_ok_listed summary t f k mk l (summary (mk 0)))
        as [l' [E M]];
      [ | intros v; reflexivity
        | rewrite E; cbn [bind];
          rewrite ?append_if_listed in M;
          cbn [summary feature severity value textual map app] in M ]
  end.

(** One guarded step of the phishing branch. *)
Ltac guarded_step P :=
  match goal with
  | Hl : bounded P ?n ?l
    |- context [append_if_ok ?t (bind (getitem ?f ?k) (fun x => Ok (@?mk x))) ?l] =>
      let l' := fresh "l" in
      let E := fresh "E" in
      let B := fresh "B" in
      destruct (append_if_ok_bounded P n t f k mk l) as [l' [E B]];
      [ | | exact Hl | rewrite E; cbn [bind]; clear Hl ]
  end.

Section Indicators.

Variable round2 : R -> R.

(** [_get_top_indicators] returns, with at most five alarming or at most
    three reassuring indicators. *)
Lemma top_indicators_bounded (features : feature_dict) (prediction : Py.value) :
  exists indicators,
    _get_top_indicators round2 features prediction = Ok indicators /\
    if is_text prediction "phishing"
    then bounded alarming 5 indicators
    else bounded reassuring 3 indicators.
Proof.
  unfold _get_top_indicators.
  destruct (is_text prediction "phishing") eqn:Hlabel; cbv zeta.
  - pose proof (append_if_bounded alarming 0
                  (eqf (get_default features "has_ip_address" 0) 1)
                  {| feature := "IP Address in URL"; value := Text "Present";
                     severity := "high";
                     description :=
                       "URLs with IP addresses are often used in phishing attacks" |}
                  [] (or_introl eq_refl) (bounded_nil alarming)) as B1.
    guarded_step alarming;
      [apply gef_nonzero; lra | intros v; now left |].
    match goal with
    | Hl : bounded alarming 2 ?l |- context [append_if ?t ?item ?l] =>
        pose proof (append_if_bounded alarming _ t item l (or_intror eq_refl) Hl)
          as B3; clear Hl
    end.
    guarded_step alarming;
      [apply gtf_nonzero; lra | intros v; now right |].
    guarded_step alarming;
      [apply gtf_nonzero; lra | intros v; now right |].
    match goal with
    | Hl : bounded alarming 5 ?l |- _ =>
        exists l; destruct Hl as [Hlen Hall];
        split; [now rewrite firstn_all2 by exact Hlen | now split]
    end.
  - eexists. split; [reflexivity |].
    assert (B3 : forall l : list indicator,
               bounded reassuring 3 l -> bounded reassuring 3 (firstn 5 l)).
    { intros l [Hlen Hall]. rewrite firstn_all2 by lia. now split. }
    apply B3.
    repeat (apply append_if_bounded; [reflexivity |]). apply bounded_nil.
Qed.

(** The indicators in full: which are present, in which order, with which
    severity and which kind of value. *)
Lemma top_indicators_summary (features : feature_dict) (prediction : Py.value) :
  exists indicators,
    _get_top_indicators round2 features prediction = Ok indicators /\
    map summary indicators =
      if is_text prediction "phishing"
      then
        (listed (eqf (get_default features "has_ip_address" 0) 1)
           ("IP Address in URL", "high", true)
         ++ listed (gef (get_default features "suspicious_keyword_count" 0) 2)
              ("Suspicious Keywords", "high", false)
         ++ listed (eqf (get_default features "uses_https" 0) 0)
              ("No HTTPS", "medium", true)
         ++ listed (gtf (get_default features "url_length" 0) 75)
              ("Long URL", "medium", false)
         ++ listed (gtf (get_default features "shannon_entropy" 0) 4.5)
              ("High Entropy", "medium", false))%list
      else
        (listed (eqf (get_default features "uses_https" 0) 1)
           ("HTTPS Enabled", "positive", true)
         ++ listed (eqf (get_default features "tld_category" 0) 0)
              ("Trusted TLD", "positive", true)
         ++ listed (eqf (get_default features "suspicious_keyword_count" 0) 0)
              ("No Suspicious Keywords", "positive", true))%list.
Proof.
  assert (Hslice : forall (l : list indicator) (expected : list (string * string * bool)),
             map summary l = expected -> (List.length expected <= 5)%nat ->
             firstn 5 l = l).
  { intros l expected <- Hlen. rewrite length_map in Hlen.
    now apply firstn_all2. }
  unfold _get_top_indicators.
  destruct (is_text prediction "phishing"); cbv zeta.
  - listed_step; [apply gef_nonzero; lra |].
    listed_step; [apply gtf_nonzero; lra |].
    listed_step; [apply gtf_nonzero; lra |].
    match goal with
    | M5 : map summary ?l5 = (map summary ?l4 ++ _)%list,
      M4 : map summary ?l4 = ((map summary ?l2 ++ _) ++ _)%list,
      M2 : map summary ?l2 = _ |- _ =>
        rewrite M4, M2 in M5; rewrite <- !app_assoc in M5;
        exists l5; split; [f_equal; apply (Hslice _ _ M5) | exact M5]
    end.
    unfold listed.
    repeat match goal with
           | |- context [if ?b then _ else _] => destruct b
           end; cbn [List.length app]; lia.
  - eexists. split; [reflexivity |].
    match goal with
    | |- map summary (firstn 5 ?l) = ?expected =>
        assert (M : map summary l = expected)
          by (rewrite !append_if_listed; cbn [map app]; rewrite <- !app_assoc;
              reflexivity);
        rewrite (Hslice l expected M); [exact M |]
    end.
    unfold listed.
    repeat match goal with
           | |- context [if ?b then _ else _] => destruct b
           end; cbn [List.length app]; lia.
Qed.

Lemma listed_in {B : Type} (test : bool) (b : B) (l1 l2 : list B) :
  test = true -> In b (l1 ++ listed test b ++ l2)%list.
Proof.
  intros ->. apply in_or_app. right. now left.
Qed.

(** X25: on a dictionary of finite numbers, such as
    [extract_features_dict] returns, [_get_top_indicators] never raises,
    whichever keys the dictionary has: each [features[k]] is reached only
    after a test that a missing key fails.  (An infinite value is not a
    number of the model; on it [int] would raise.)  For the label
    "phishing" it returns, in this order, those of the five indicators
    "IP Address in URL", "Suspicious Keywords", "No HTTPS", "Long URL" and
    "High Entropy" whose test holds, all of severity high or medium; for
    any other label, "error" included, those of "HTTPS Enabled", "Trusted
    TLD" and "No Suspicious Keywords" whose test holds, all positive.  So
    the slice [[:5]] never drops an indicator.  Under a label other than
    "phishing", a dictionary without the key tld_category or
    suspicious_keyword_count counts as a trusted TLD or as free of
    keywords. *)
Theorem top_indicators_shape (features : feature_dict) (prediction : Py.value) :
  exists indicators,
    _get_top_indicators round2 features prediction = Ok indicators /\
    (is_text prediction "phishing" = true ->
     bounded alarming 5 indicators /\
     map feature indicators =
       (listed (eqf (get_default features "has_ip_address" 0) 1)
          "IP Address in URL"
        ++ listed (gef (get_default features "suspicious_keyword_count" 0) 2)
             "Suspicious Keywords"
        ++ listed (eqf (get_default features "uses_https" 0) 0) "No HTTPS"
        ++ listed (gtf (get_default features "url_length" 0) 75) "Long URL"
        ++ listed (gtf (get_default features "shannon_entropy" 0) 4.5)
             "High Entropy")%list) /\
    (is_text prediction "phishing" = false ->
     bounded reassuring 3 indicators /\
     map feature indicators =
       (listed (eqf (get_default features "uses_https" 0) 1) "HTTPS Enabled"
        ++ listed (eqf (get_default features "tld_category" 0) 0) "Trusted TLD"
        ++ listed (eqf (get_default features "suspicious_keyword_count" 0) 0)
             "No Suspicious Keywords")%list /\
     (getitem features "tld_category" = Raise "KeyError" ->
      In "Trusted TLD" (map feature indicators)) /\
     (getitem features "suspicious_keyword_count" = Raise "KeyError" ->
      In "No Suspicious Keywords" (map feature indicators))).
Proof.
  assert (Hnames : forall l : list indicator,
             map feature l = map (fun t => fst (fst t)) (map summary l)).
  { intros l. rewrite map_map. reflexivity. }
  assert (Hlisted : forall (test : bool) (t : string * string * bool),
             map (fun t => fst (fst t)) (listed test t)
             = listed test (fst (fst t))).
  { intros [] t; reflexivity. }
  destruct (top_indicators_bounded features prediction) as [indicators [H B]].
  destruct (top_indicators_summary features prediction) as [indicators' [H' M]].
  rewrite H in H'. apply FeaturesFacts.ok_inj in H'. subst indicators'.
  exists indicators. split; [exact H |].
  destruct (is_text prediction "phishing") eqn:Hlabel.
  - split; [intros _ | discriminate]. split; [exact B |].
    rewrite Hnames, M, !map_app, !Hlisted. reflexivity.
  - split; [discriminate |]. intros _. split; [exact B |].
    assert (N : map feature indicators =
                (listed (eqf (get_default features "uses_https" 0) 1)
                   "HTTPS Enabled"
                 ++ listed (eqf (get_default features "tld_category" 0) 0)
                      "Trusted TLD"
                 ++ listed (eqf (get_default features "suspicious_keyword_count" 0) 0)
                      "No Suspicious Keywords")%list)
      by (rewrite Hnames, M, !map_app, !Hlisted; reflexivity).
    split; [exact N |]. rewrite N. split.
    + intros Hmissing.
      destruct (getitem_cases features "tld_category") as [E | [_ E]];
        [rewrite E in Hmissing; discriminate |].
      apply listed_in. rewrite E. apply eqf_refl.
    + intros Hmissing.
      destruct (getitem_cases features "suspicious_keyword_count")
        as [E | [_ E]]; [rewrite E in Hmissing; discriminate |].
      rewrite app_assoc.
      rewrite <- (app_nil_r (listed _ "No Suspicious Keywords")).
      apply listed_in. rewrite E. apply eqf_refl.
Qed.

End Indicators.

Section Explain.

Variable round2 : R -> R.
Variable format_1f : Q -> string.
Variable str_int : Z -> string.
Variable ndarray : Type.
Variable model_features : Py.value -> result ndarray.
Variable the_model : Enhanced.model ndarray.
Variable timestamp : string.
Variable urlparse : string -> result ParseResult.
Variable tld_extract : string -> result Extractor.ExtractResult.
Variable validates_explanation : list (string * entry) -> bool.

Let predict := Enhanced.predict ndarray model_features the_model timestamp.
Let explain :=
  Explain.explain round2 format_1f str_int ndarray model_features the_model
    timestamp urlparse tld_extract.

Definition explain_fields : list string :=
  ["url"; "prediction"; "confidence"; "features"; "top_indicators"; "explanation"].

(** The dictionary of [explain]'s [return] in the [try]. *)
Definition explained (url prediction confidence : Py.value)
  (features : feature_dict) (indicators : list indicator) (text : string)
  : list (string * entry) :=
  [("url", Plain url);
   ("prediction", Plain prediction);
   ("confidence", Plain confidence);
   ("features", FeatureMap features);
   ("top_indicators", Indicators indicators);
   ("explanation", Plain (VStr text))].

(** The two sentences of [_generate_explanation]. *)
Definition phishing_text (pct reasons : string) : string :=
  (("This URL is classified as PHISHING with " ++ pct ++ "% confidence. ")
     ++ "Suspicious indicators include: ") ++ reasons ++ ".".

Definition legitimate_text (pct reasons : string) : string :=
  (("This URL appears LEGITIMATE with " ++ pct ++ "% confidence. ")
     ++ "Positive indicators include: ") ++ reasons ++ ".".

(** [predict] returns a label, one of three, and a float confidence. *)
Lemma predict_label (url : Py.value) :
  exists d label c,
    predict url = Ok d /\
    Py.get d "prediction" = Some (VStr label) /\
    Py.get d "confidence" = Some (VFloat c) /\
    (((label = "phishing" \/ label = "legitimate") /\
      Py.keys d = EnhancedFacts.scored_fields) \/
     (label = "error" /\ c = 0.0%Q /\
      exists e, d = EnhancedFacts.failed_dict timestamp url e)).
Proof.
  destruct (EnhancedFacts.predict_cases ndarray model_features the_model
              timestamp url) as [[f [y [p [_ [_ H]]]]] | [e H]].
  - eexists. exists (if Z.eqb y 1 then "phishing" else "legitimate"). eexists.
    split; [exact H |]. split; [reflexivity |]. split; [reflexivity |].
    left. split; [destruct (Z.eqb y 1); auto | reflexivity].
  - eexists. exists "error". eexists.
    split; [exact H |]. split; [reflexivity |]. split; [reflexivity |].
    right. split; [reflexivity |]. split; [reflexivity |]. now exists e.
Qed.

(** For a string the feature dictionary is always built, with the twenty
    names as keys. *)
Lemma features_of_text (u : string) :
  exists features,
    features_of urlparse tld_extract (VStr u) = Ok features /\
    map fst features = get_feature_names.
Proof.
  destruct (ExtractorClaims.extract_features_returns urlparse tld_extract u)
    as [values [block [Hf [_ [Hlen _]]]]].
  exists (combine Extractor.feature_names values). split.
  - unfold features_of, extract_features_dict. rewrite Hf. cbn [bind].
    unfold dict_zip. rewrite ExtractorApiFacts.dict_zip_from_fresh;
      [reflexivity | exact ExtractorApiFacts.feature_names_nodup].
  - apply ExtractorApiFacts.combine_fst. rewrite Hlen. cbn. lia.
Qed.

(** [_generate_explanation] returns one of the two sentences whenever the
    prediction dictionary has a label and a float confidence. *)
Lemma generate_explanation_returns (features : feature_dict) (d : Py.dict)
  (p : Py.value) (c : Q) :
  Py.get d "prediction" = Some p ->
  Py.get d "confidence" = Some (VFloat c) ->
  exists reasons,
    _generate_explanation format_1f str_int features d =
      Ok (if is_text p "phishing"
          then phishing_text (format_1f (c * 100)%Q) reasons
          else legitimate_text (format_1f (c * 100)%Q) reasons).
Proof.
  intros Hp Hc. unfold _generate_explanation, result_item.
  rewrite Hp, Hc. cbn [bind percent].
  destruct (is_text p "phishing"); cbv zeta.
  - pose proof (append_if_bounded (fun _ : string => True) 0
                  (eqf (get_default features "has_ip_address" 0) 1)
                  "IP address in URL" [] I (bounded_nil _)) as B1.
    guarded_step (fun _ : string => True);
      [apply gef_nonzero; lra | intros v; exact I |].
    eexists. reflexivity.
  - eexists. reflexivity.
Qed.

(** What [explain] computes for a string: nothing in its [try] raises. *)
Lemma explain_text (u : string) :
  exists d label c features indicators reasons,
    predict (VStr u) = Ok d /\
    Py.get d "prediction" = Some (VStr label) /\
    Py.get d "confidence" = Some (VFloat c) /\
    (((label = "phishing" \/ label = "legitimate") /\
      Py.keys d = EnhancedFacts.scored_fields) \/
     (label = "error" /\ c = 0.0%Q /\
      exists e, d = EnhancedFacts.failed_dict timestamp (VStr u) e)) /\
    map fst features = get_feature_names /\
    _get_top_indicators round2 features (VStr label) = Ok indicators /\
    explain (VStr u) =
      Ok (explained (VStr u) (VStr label) (VFloat c) features indicators
            (if String.eqb label "phishing"
             then phishing_text (format_1f (c * 100)%Q) reasons
             else legitimate_text (format_1f (c * 100)%Q) reasons)).
Proof.
  destruct (predict_label (VStr u)) as [d [label [c [Hd [Hp [Hc Hcases]]]]]].
  destruct (features_of_text u) as [features [Hf Hnames]].
  destruct (top_indicators_bounded round2 features (VStr label))
    as [indicators [Hi _]].
  destruct (generate_explanation_returns features d (VStr label) c Hp Hc)
    as [reasons Hg].
  exists d, label, c, features, indicators, reasons.
  repeat (split; [assumption |]).
  unfold explain, Explain.explain, try_except, explain_body, Explain.predict.
  fold predict. rewrite Hd. cbn [bind]. rewrite Hf. cbn [bind].
  unfold result_item. rewrite Hp. cbn [bind]. rewrite Hi. cbn [bind].
  rewrite Hg. cbn [bind]. rewrite Hc. reflexivity.
Qed.

(** X26: [EnhancedPredictor.explain] never raises and always returns the
    six keys url, prediction, confidence, features, top_indicators and
    explanation, in this order.  For a string nothing inside its [try]
    raises: label and confidence are those of [predict], the features are
    the twenty named ones, and the explanation is one of the two sentences
    of [_generate_explanation], the "PHISHING" one only under the label
    "phishing".  For a value that is not a string the feature extraction
    raises and the handler answers: label "error", confidence 0.0, no
    features, no indicators, and an explanation that starts with
    "Error: ". *)
Theorem explain_shape (url : Py.value) :
  exists d,
    explain url = Ok d /\
    map fst d = explain_fields /\
    Endpoints.entry_get d "url" = Some (Plain url) /\
    (forall u, url = VStr u ->
       exists pd label c features indicators reasons,
         predict url = Ok pd /\
         Py.get pd "prediction" = Some (VStr label) /\
         Py.get pd "confidence" = Some (VFloat c) /\
         map fst features = get_feature_names /\
         _get_top_indicators round2 features (VStr label) = Ok indicators /\
         d = explained url (VStr label) (VFloat c) features indicators
               (if String.eqb label "phishing"
                then phishing_text (format_1f (c * 100)%Q) reasons
                else legitimate_text (format_1f (c * 100)%Q) reasons)) /\
    ((forall u, url <> VStr u) ->
       exists e,
         d = explained url (VStr "error") (VFloat 0.0) [] [] ("Error: " ++ e)).
Proof.
  destruct url as [| b | z | q | u].
  5: {
    destruct (explain_text u)
      as [pd [label [c [features [indicators [reasons H]]]]]].
    destruct H as [Hd [Hp [Hc [_ [Hnames [Hi He]]]]]].
    eexists. split; [exact He |]. split; [reflexivity |].
    split; [reflexivity |]. split.
    - intros u' _. exists pd, label, c, features, indicators, reasons.
      repeat (split; [assumption |]). reflexivity.
    - intros Hno. now elim (Hno u). }
  all: match goal with
       | |- context [explain ?v] =>
           destruct (predict_label v) as [pd [label [c [Hd _]]]];
           exists (explained v (VStr "error") (VFloat 0.0) [] []
                     ("Error: " ++ "TypeError"));
           split;
           [ unfold explain, Explain.explain, try_except, explain_body,
               Explain.predict; fold predict; rewrite Hd; reflexivity |];
           split; [reflexivity |]; split; [reflexivity |];
           split; [intros u Hu; discriminate |];
           intros _; exists "TypeError"; reflexivity
       end.
Qed.

(** X27: when [predict] answers a string with its error dictionary (the
    feature vector or the model raised), [explain] does not take its own
    [except] branch: it reports the label "error" with confidence 0.0, but
    with the twenty features filled in, with indicators that are all
    positive, and with the explanation "This URL appears LEGITIMATE with
    ...% confidence", formatted from 0.0; the exception's message appears
    nowhere, the explanation is not an "Error: ..." text. *)
Theorem explain_failed_prediction (u e : string) :
  predict (VStr u) = Ok (EnhancedFacts.failed_dict timestamp (VStr u) e) ->
  exists features indicators reasons,
    explain (VStr u) =
      Ok (explained (VStr u) (VStr "error") (VFloat 0.0) features indicators
            (legitimate_text (format_1f (0.0 * 100)%Q) reasons)) /\
    map fst features = get_feature_names /\
    bounded reassuring 3 indicators /\
    forall msg,
      legitimate_text (format_1f (0.0 * 100)%Q) reasons <> "Error: " ++ msg.
Proof.
  intros Hd.
  destruct (features_of_text u) as [features [Hf Hnames]].
  destruct (top_indicators_bounded round2 features (VStr "error"))
    as [indicators [Hi B]].
  destruct (generate_explanation_returns features
              (EnhancedFacts.failed_dict timestamp (VStr u) e)
              (VStr "error") 0.0%Q eq_refl eq_refl) as [reasons Hg].
  exists features, indicators, reasons.
  split; [| split; [exact Hnames | split; [exact B | intros msg; discriminate]]].
  unfold explain, Explain.explain, try_except, explain_body, Explain.predict.
  fold predict. rewrite Hd. cbn [bind]. rewrite Hf. cbn [bind].
  unfold result_item.
  change (Py.get (EnhancedFacts.failed_dict timestamp (VStr u) e) "prediction")
    with (Some (VStr "error")).
  cbn [bind]. rewrite Hi. cbn [bind]. rewrite Hg. cbn [bind].
  reflexivity.
Qed.

(** X28: the handler of [/predict] lets no exception of the predictor
    through.  It returns the dictionary of [predict] when its label is
    "phishing" or "legitimate": exactly the seven fields of
    [PredictionResponse], each of the declared type (three strings, two
    floats, a bool and the timestamp string).  Otherwise it raises
    [HTTPException] 500 whose detail is the error message of [predict]. *)
Theorem endpoint_responses (request_url : string) :
  exists r,
    Endpoints.predict_url ndarray model_features the_model timestamp request_url
      = Ok r /\
    match r with
    | Endpoints.Body d =>
        predict (VStr request_url) = Ok d /\
        Py.keys d = EnhancedFacts.scored_fields /\
        (Py.get d "prediction" = Some (VStr "phishing") \/
         Py.get d "prediction" = Some (VStr "legitimate")) /\
        exists label confidence probability risk_level is_safe,
          d = [("url", VStr request_url);
               ("prediction", VStr label);
               ("confidence", VFloat confidence);
               ("probability", VFloat probability);
               ("risk_level", VStr risk_level);
               ("is_safe", VBool is_safe);
               ("timestamp", VStr timestamp)]
    | Endpoints.HTTPException status_code detail =>
        status_code = 500%nat /\
        exists e,
          detail = VStr e /\
          predict (VStr request_url) =
            Ok (EnhancedFacts.failed_dict timestamp (VStr request_url) e)
    end.
Proof.
  unfold Endpoints.predict_url, Explain.predict. fold predict.
  destruct (EnhancedFacts.predict_cases ndarray model_features the_model
              timestamp (VStr request_url)) as [[f [y [p [_ [_ H]]]]] | [e H]];
    fold predict in H; rewrite H; cbn [bind].
  - unfold EnhancedFacts.scored_dict.
    cbn [Py.get String.eqb Ascii.eqb Bool.eqb].
    destruct (Z.eqb y 1); cbn [Endpoints.is_error is_text String.eqb Ascii.eqb Bool.eqb];
      (eexists; split; [reflexivity |]);
      (split; [reflexivity |]); (split; [reflexivity |]);
      (split; [auto |]); repeat eexists.
  - eexists. split; [reflexivity |]. split; [reflexivity |].
    exists e. split; reflexivity.
Qed.

(** X29: the route [/explain].  Its handler lets no exception of the
    predictor through: under the label "error" it raises [HTTPException]
    500 whose detail is the sentence "This URL appears LEGITIMATE with
    ...% confidence ..." formatted from 0.0 (the request's URL is a string,
    so neither the "Error: ..." explanation nor the default 'Explanation
    failed' is ever the detail); under "phishing" and "legitimate" it
    returns the dictionary of [explain], which goes on to be served if it
    validates against [ExplanationResponse] and ends in a response
    validation error if not.  That model declares the indicators as
    dictionaries of strings: under any label but "phishing" every
    indicator value is a string, while under "phishing" all are strings
    exactly when none of "Suspicious Keywords", "Long URL" and "High
    Entropy" is present, whose values are an [int], an [int] and a
    [float]. *)
Theorem explain_route_responses (request_url : string) :
  (exists r,
     Endpoints.post_explain round2 format_1f str_int ndarray model_features
       the_model timestamp urlparse tld_extract validates_explanation
       request_url = Ok r /\
     match r with
     | Endpoints.Raised status_code detail =>
         status_code = 500%nat /\
         exists reasons,
           detail =
             Plain (VStr (legitimate_text (format_1f (0.0 * 100)%Q) reasons))
     | Endpoints.Returned d =>
         explain (VStr request_url) = Ok d /\
         validates_explanation d = true /\
         (Endpoints.entry_get d "prediction" = Some (Plain (VStr "phishing")) \/
          Endpoints.entry_get d "prediction" = Some (Plain (VStr "legitimate")))
     | Endpoints.ResponseValidationError =>
         exists d,
           explain (VStr request_url) = Ok d /\
           validates_explanation d = false /\
           (Endpoints.entry_get d "prediction" = Some (Plain (VStr "phishing")) \/
            Endpoints.entry_get d "prediction" = Some (Plain (VStr "legitimate")))
     end) /\
  (exists d label features indicators,
     explain (VStr request_url) = Ok d /\
     Endpoints.entry_get d "prediction" = Some (Plain (VStr label)) /\
     Endpoints.entry_get d "features" = Some (FeatureMap features) /\
     Endpoints.entry_get d "top_indicators" = Some (Indicators indicators) /\
     (label <> "phishing" ->
      forallb (fun i => textual (value i)) indicators = true) /\
     (label = "phishing" ->
      (forallb (fun i => textual (value i)) indicators = true <->
       gef (get_default features "suspicious_keyword_count" 0) 2 = false /\
       gtf (get_default features "url_length" 0) 75 = false /\
       gtf (get_default features "shannon_entropy" 0) 4.5 = false))).
Proof.
  destruct (explain_text request_url)
    as [pd [label [c [features [indicators [reasons H]]]]]].
  destruct H as [Hd [Hp [Hc [Hcases [Hnames [Hi He]]]]]].
  split.
  - unfold Endpoints.post_explain, Endpoints.explain_prediction.
    fold explain. rewrite He. cbn [bind].
    destruct Hcases as [[Hlabel _] | [Hlabel [Hzero _]]].
    + assert (Herr : Endpoints.entry_is_error
                       (Endpoints.entry_get
                          (explained (VStr request_url) (VStr label) (VFloat c)
                             features indicators
                             (if String.eqb label "phishing"
                              then phishing_text (format_1f (c * 100)%Q) reasons
                              else legitimate_text (format_1f (c * 100)%Q) reasons))
                          "prediction") = false)
        by (destruct Hlabel as [-> | ->]; reflexivity).
      rewrite Herr. cbn [bind Endpoints.response_model].
      destruct (validates_explanation _) eqn:Hv;
        (eexists; split; [reflexivity |]).
      * split; [reflexivity |]. split; [exact Hv |].
        destruct Hlabel as [-> | ->]; auto.
      * eexists. split; [reflexivity |]. split; [exact Hv |].
        destruct Hlabel as [-> | ->]; auto.
    + subst label c. eexists. split; [reflexivity |].
      split; [reflexivity |]. exists reasons. reflexivity.
  - eexists. exists label, features, indicators.
    split; [exact He |]. split; [reflexivity |]. split; [reflexivity |].
    split; [reflexivity |].
    assert (Hvalues : forallb (fun i => textual (value i)) indicators
                      = forallb (fun t => snd t) (map summary indicators)).
    { clear. induction indicators as [|i l IH]; [reflexivity |].
      cbn [forallb map]. now rewrite IH. }
    destruct (top_indicators_summary round2 features (VStr label))
      as [indicators' [Hi' M]].
    rewrite Hi in Hi'. apply FeaturesFacts.ok_inj in Hi'. subst indicators'.
    rewrite Hvalues, M. cbn [is_text]. split.
    + intros Hlabel.
      destruct (String.eqb_spec label "phishing") as [E | _];
        [now elim Hlabel |].
      unfold listed.
      repeat match goal with
             | |- context [if ?b then _ else _] => destruct b
             end; reflexivity.
    + intros ->. rewrite String.eqb_refl. unfold listed.
      destruct (eqf (get_default features "has_ip_address" 0) 1),
        (gef (get_default features "suspicious_keyword_count" 0) 2),
        (eqf (get_default features "uses_https" 0) 0),
        (gtf (get_default features "url_length" 0) 75),
        (gtf (get_default features "shannon_entropy" 0) 4.5);
        cbn [app forallb snd andb]; split;
        first [ discriminate
              | intros [? [? ?]]; discriminate
              | intros _; repeat split; reflexivity
              | reflexivity ].
Qed.

End Explain.

Lemma explain_failed_prediction_witness :
  exists features indicators reasons,
    Explain.explain (fun x => x) (fun _ => "0.0") (fun _ => "0") unit
      (fun _ => Ok tt)
      (Enhanced.Booster unit (fun _ => Raise "model not loaded"))
      "2024-01-01T00:00:00"
      (fun _ => Raise "ValueError") (fun _ => Raise "ValueError")
      (VStr "http://example.com/") =
      Ok (explained (VStr "http://example.com/") (VStr "error") (VFloat 0.0)
            features indicators
            (legitimate_text ((fun _ => "0.0") (0.0 * 100)%Q) reasons)) /\
    map fst features = get_feature_names /\
    bounded reassuring 3 indicators /\
    forall msg,
      legitimate_text ((fun _ => "0.0") (0.0 * 100)%Q) reasons <> "Error: " ++ msg.
Proof.
  apply (explain_failed_prediction (fun x => x) (fun _ => "0.0") (fun _ => "0")
           unit (fun _ => Ok tt)
           (Enhanced.Booster unit (fun _ => Raise "model not loaded"))
           "2024-01-01T00:00:00"
           (fun _ => Raise "ValueError") (fun _ => Raise "ValueError")
           "http://example.com/" "model not loaded").
  reflexivity.
Defined.

End ExplainFacts.
